(** * nengo.utils.numpy: a shallow embedding and its properties

    This development embeds the functions of [nengo/utils/numpy.py]
    ([compare], [as_shape], [broadcast_shape], [array], [array_hash],
    [norm], [meshgrid_nd], [rms], [rmse] and the [rfftfreq] polyfill) and
    proves the specification's statements about them.

    Conventions.
    - Python integers are [Z]; Python floats are IEEE binary64 values, taken
      from the Standard Library's [spec_float] with [prec = 53] and
      [emax = 1024].
    - NumPy array objects live in a store ([heap]): an array object is a
      record of metadata (dtype, shape, flags, base) that points to a data
      buffer, so that views share their buffer with their base while having
      flags of their own.  A buffer holds the elements as the memory does:
      numbers, or pointers to Python objects.
    - A call that may raise is a computation in the monad [M]: it takes the
      store and gives either an exception or a value and the new store.
    - What the module takes from NumPy and from the interpreter without
      fixing it is an interface: [np.array] with its keyword arguments
      (class [NumPy]), and [hash], the byte order, the pseudo-random
      generator and the reading of [a[inds]] for a list [inds], which
      changed with NumPy 1.23 (class [Runtime]). *)

From Stdlib Require Import ZArith QArith Qabs String Ascii List Lia Bool.
From Stdlib Require Import Floats.SpecFloat DecimalString.
From stdpp Require Import base tactics option list list_numbers.

Local Open Scope Z_scope.

Set Warnings "-register-all".

(* ===================================================================== *)
(** * Binary64 floats *)
(* ===================================================================== *)

Module Float64.

Definition float64 : Type := spec_float.

Definition prec : Z := 53.
Definition emax : Z := 1024.

Definition nan : float64 := S754_nan.
Definition zero : float64 := S754_zero false.

(** The float nearest to an integer, as [float(z)] gives it. *)
Definition of_Z (z : Z) : float64 := binary_normalize prec emax z 0 false.

Definition add : float64 → float64 → float64 := SFadd prec emax.
Definition sub : float64 → float64 → float64 := SFsub prec emax.
Definition mul : float64 → float64 → float64 := SFmul prec emax.
Definition div : float64 → float64 → float64 := SFdiv prec emax.
Definition sqrt : float64 → float64 := SFsqrt prec emax.

Definition eqb : float64 → float64 → bool := SFeqb.
Definition ltb : float64 → float64 → bool := SFltb.

End Float64.

Import Float64.

(* ===================================================================== *)
(** * [compare] *)
(* ===================================================================== *)

(** Python evaluates [a == b], [a > b] and [a < b] through the rich
    comparison methods of the operands' type.  A type that [compare] is used
    at provides the three operators. *)
Class RichCompare (A : Type) : Type := {
  py_eq : A → A → bool;
  py_gt : A → A → bool;
  py_lt : A → A → bool
}.

(** What the comparison operators of an ordered type satisfy: [==] is
    symmetric, [a > b] is [b < a], [<] is asymmetric, and equal operands are
    not below one another.  Reflexivity of [==] is not among them: floats do
    not have it. *)
Class RichCompareLaws (A : Type) `{RichCompare A} : Prop := {
  py_eq_sym : ∀ a b : A, py_eq a b = py_eq b a;
  py_gt_lt : ∀ a b : A, py_gt a b = py_lt b a;
  py_lt_asym : ∀ a b : A, py_lt a b = true → py_lt b a = false;
  py_eq_not_lt : ∀ a b : A, py_eq a b = true → py_lt a b = false
}.

#[export] Instance Z_RichCompare : RichCompare Z :=
  {| py_eq := Z.eqb; py_gt := Z.gtb; py_lt := Z.ltb |}.

#[export] Instance float64_RichCompare : RichCompare float64 :=
  {| py_eq := Float64.eqb;
     py_gt := fun a b => Float64.ltb b a;
     py_lt := Float64.ltb |}.

(** [def compare(a, b):
       return 0 if a == b else 1 if a > b else -1 if a < b else None] *)
Definition compare {A : Type} `{RichCompare A} (a b : A) : option Z :=
  if py_eq a b then Some 0
  else if py_gt a b then Some 1
  else if py_lt a b then Some (-1)
  else None.

(* ===================================================================== *)
(** * Python values, exceptions and results *)
(* ===================================================================== *)

(** The Python values this module is called with.  [PyObject r] stands for
    an object of any other type (a float, a function, ...): it is neither
    iterable nor an integer, and all that the code does with it is print
    its [repr], which is [r]. *)
Inductive pyval : Type :=
  | PyNone
  | PyInt (z : Z)
  | PyStr (s : string)
  | PyList (l : list pyval)
  | PyTuple (l : list pyval)
  | PyObject (r : string).

(** The exceptions raised here, each with its message.
    Modelled from the spec: [ValidationError] of [nengo.exceptions], which
    is imported by the module and is not among the sources; it is built
    from a message and the name [attr] of the attribute at fault. *)
Inductive exn : Type :=
  | ValueError (msg : string)
  | TypeError (msg : string)
  | IndexError (msg : string)
  | ZeroDivisionError (msg : string)
  | OverflowError (msg : string)
  | ValidationError (msg : string) (attr : string).

(** A call either returns a value or raises. *)
Inductive result (A : Type) : Type :=
  | Ok (a : A)
  | Raise (e : exn).
Arguments Ok {A} a.
Arguments Raise {A} e.

#[export] Instance result_ret : MRet result := fun A a => Ok a.
#[export] Instance result_bind : MBind result := fun A B f r =>
  match r with Ok a => f a | Raise e => Raise e end.
#[export] Instance result_fmap : FMap result := fun A B f r =>
  match r with Ok a => Ok (f a) | Raise e => Raise e end.

(** [isinstance(e, TypeError)]: of the exceptions above only [TypeError]
    itself is one ([ValueError] and [TypeError] are unrelated classes). *)
Definition is_TypeError (e : exn) : bool :=
  match e with TypeError _ => true | _ => false end.

Definition is_ValueError (e : exn) : bool :=
  match e with ValueError _ => true | _ => false end.

Definition is_IndexError (e : exn) : bool :=
  match e with IndexError _ => true | _ => false end.

Definition exn_message (e : exn) : string :=
  match e with
  | ValueError m | TypeError m | IndexError m | ZeroDivisionError m => m
  | OverflowError m => m
  | ValidationError m _ => m
  end.

(** ["%d" % z] *)
Definition fmt_d (z : Z) : string := NilZero.string_of_int (Z.to_int z).

Local Open Scope string_scope.

Definition join_comma : list string → string :=
  fix go l :=
    match l with
    | [] => ""
    | [s] => s
    | s :: l' => s ++ ", " ++ go l'
    end.

(** ["%r" % x].  The [repr] of a string is given without escape sequences. *)
Fixpoint py_repr (x : pyval) : string :=
  match x with
  | PyNone => "None"
  | PyInt z => fmt_d z
  | PyStr s => "'" ++ s ++ "'"
  | PyList l => "[" ++ join_comma (map py_repr l) ++ "]"
  | PyTuple [y] => "(" ++ py_repr y ++ ",)"
  | PyTuple l => "(" ++ join_comma (map py_repr l) ++ ")"
  | PyObject r => r
  end.

(** [needle in s] *)
Fixpoint contains (needle s : string) : bool :=
  String.prefix needle s ||
  match s with
  | EmptyString => false
  | String _ s' => contains needle s'
  end.

Local Close Scope string_scope.

(** [len(t)] *)
Definition len {A : Type} (l : list A) : Z := Z.of_nat (length l).

(** [[v] * k]: no element when [k] is negative. *)
Definition py_repeat {A : Type} (v : A) (k : Z) : list A :=
  replicate (Z.to_nat k) v.

(* ===================================================================== *)
(** * [nengo.utils.compat] *)
(* ===================================================================== *)

(** Modelled from the spec: [is_iterable] of [nengo.utils.compat], which is
    imported by the module and is not among the sources.  The spec calls it
    a capability check, "isIterable": of the values above, strings, lists
    and tuples can be iterated over. *)
Definition is_iterable (x : pyval) : bool :=
  match x with
  | PyStr _ | PyList _ | PyTuple _ => true
  | PyNone | PyInt _ | PyObject _ => false
  end.

(** Modelled from the spec: [is_integer] of [nengo.utils.compat], which is
    imported by the module and is not among the sources: "a single
    integer", "integer-like". *)
Definition is_integer (x : pyval) : bool :=
  match x with
  | PyInt _ => true
  | _ => false
  end.

(** [tuple(x)] for an iterable [x]: a string gives its characters. *)
Definition py_tuple (x : pyval) : list pyval :=
  match x with
  | PyList l | PyTuple l => l
  | PyStr s => map (fun c => PyStr (String c EmptyString)) (list_ascii_of_string s)
  | PyNone | PyInt _ | PyObject _ => []
  end.

(* ===================================================================== *)
(** * [as_shape] and [broadcast_shape] *)
(* ===================================================================== *)

(** [def as_shape(x, min_dim=0):
       if is_iterable(x): shape = tuple(x)
       elif is_integer(x): shape = (x,)
       else: raise ValueError("%r cannot be safely converted to a shape" % x)
       if len(shape) < min_dim:
           shape = tuple([1] * (min_dim - len(shape))) + shape
       return shape] *)
Definition as_shape (x : pyval) (min_dim : Z) : result (list pyval) :=
  shape ← (if is_iterable x then Ok (py_tuple x)
           else if is_integer x then Ok [x]
           else Raise (ValueError
                  (py_repr x ++ " cannot be safely converted to a shape")));
  let shape :=
    if len shape <? min_dim
    then py_repeat (PyInt 1) (min_dim - len shape) ++ shape
    else shape in
  Ok shape.

(** [len(x)]: a value that is not a sequence has no length.  (The message
    of the error, which names the type of [x], is not reproduced.) *)
Definition py_len (x : pyval) : result Z :=
  match x with
  | PyStr _ | PyList _ | PyTuple _ => Ok (len (py_tuple x))
  | PyNone | PyInt _ | PyObject _ => Raise (TypeError "object has no len()")
  end.

(** [def broadcast_shape(shape, length):
       n = len(shape)
       if n < length: return tuple([1] * (length - n) + list(shape))
       else: return shape]
    [list(shape)] has the items that [tuple(shape)] has. *)
Definition broadcast_shape (shape : pyval) (length : Z) : result pyval :=
  n ← py_len shape;
  if n <? length
  then Ok (PyTuple (py_repeat (PyInt 1) (length - n) ++ py_tuple shape))
  else Ok shape.

(* ===================================================================== *)
(** * The store of NumPy arrays *)
(* ===================================================================== *)

(** References to array objects and to data buffers are indices into the
    store; objects are never freed. *)
Abbreviation addr := nat (only parsing).

Inductive dtype : Type := DtInt64 | DtFloat64 | DtObject.

#[export] Instance dtype_eq_dec : EqDecision dtype.
Proof. solve_decision. Defined.

(** An element as the buffer holds it.  [CInt z] is an int64; an element
    of another plain dtype (a float64, a string of fixed width) is given by
    its bytes, [CRaw]; for the object dtype the buffer holds a pointer to a
    Python object, [CObj p v]: the address [p] and, beside it, the value
    [v] of the object that lies there. *)
Inductive cell : Type :=
  | CInt (z : Z)
  | CRaw (bytes : list Byte.byte)
  | CObj (p : Z) (v : pyval).

(** An array object.  The arrays of this module are C-contiguous and cover
    their buffer: [np.array], [ndarray.view] and integer-array indexing make
    no others.  [nd_data] names the buffer holding the elements in flat
    (row-major) order; [nd_base] is the array whose memory a view borrows. *)
Record ndarray : Type := {
  nd_dtype : dtype;
  nd_shape : list Z;
  nd_data : addr;
  nd_writeable : bool;
  nd_base : option addr
}.

Record heap : Type := {
  arrays : list ndarray;
  buffers : list (list cell)
}.

(** Computations on the store that may raise. *)
Definition M (A : Type) : Type := heap → result (A * heap).

#[export] Instance M_ret : MRet M := fun A a h => Ok (a, h).
#[export] Instance M_bind : MBind M := fun A B f m h =>
  match m h with
  | Ok (a, h') => f a h'
  | Raise e => Raise e
  end.

Definition raise {A : Type} (e : exn) : M A := fun _ => Raise e.

Definition lift {A : Type} (r : result A) : M A := fun h =>
  match r with Ok a => Ok (a, h) | Raise e => Raise e end.

(** What the caller sees of a call: the value returned or the exception. *)
Definition outcome {A : Type} (r : result (A * heap)) : result A := fst <$> r.

(** A reference the program holds always names an object of the store; the
    [IndexError] of a dangling one is there to make the accessors total. *)
Definition get_array (a : addr) : M ndarray := fun h =>
  match arrays h !! a with
  | Some nd => Ok (nd, h)
  | None => Raise (IndexError "no such array object")
  end.

Definition get_buffer (b : addr) : M (list cell) := fun h =>
  match buffers h !! b with
  | Some d => Ok (d, h)
  | None => Raise (IndexError "no such buffer")
  end.

Definition new_array (nd : ndarray) : M addr := fun h =>
  Ok (length (arrays h), {| arrays := arrays h ++ [nd]; buffers := buffers h |}).

Definition new_buffer (d : list cell) : M addr := fun h =>
  Ok (length (buffers h), {| arrays := arrays h; buffers := buffers h ++ [d] |}).

Definition put_array (a : addr) (nd : ndarray) : M unit := fun h =>
  Ok (tt, {| arrays := <[a := nd]> (arrays h); buffers := buffers h |}).

(** The greatest number of axes that NumPy gives an array (32 up to
    NumPy 1.26). *)
Definition NPY_MAXDIMS : Z := 32.

(** [prod(shape)] *)
Definition shape_size (shape : list Z) : Z := fold_right Z.mul 1 shape.

(** [y.ndim], [y.shape], [y.size] *)
Definition ndim (y : addr) : M Z := nd ← get_array y; mret (len (nd_shape nd)).
Definition shape_of (y : addr) : M (list Z) := nd ← get_array y; mret (nd_shape nd).
Definition size_of (y : addr) : M Z := nd ← get_array y; mret (shape_size (nd_shape nd)).

(** The elements of [y], in flat order. *)
Definition elements (y : addr) : M (list cell) :=
  nd ← get_array y; get_buffer (nd_data nd).

(** [y.shape = shape]: the object is updated in place and keeps its buffer.
    NumPy refuses a shape of more than [NPY_MAXDIMS] axes, and one that does
    not give the number of elements that the array has.  (The shape
    assigned here holds lengths of axes and 1s; an entry -1, which NumPy
    would infer, does not occur.) *)
Definition set_shape (y : addr) (shape : list Z) : M unit :=
  nd ← get_array y;
  if len shape >? NPY_MAXDIMS
  then raise (ValueError "maximum supported dimension for an ndarray is 32")
  else if shape_size shape =? shape_size (nd_shape nd)
  then put_array y {| nd_dtype := nd_dtype nd; nd_shape := shape;
                      nd_data := nd_data nd; nd_writeable := nd_writeable nd;
                      nd_base := nd_base nd |}
  else raise (ValueError "cannot reshape array").

(** [y.flags.writeable = False], [v.setflags(write=False)]: the flag of this
    one object. *)
Definition set_readonly (y : addr) : M unit :=
  nd ← get_array y;
  put_array y {| nd_dtype := nd_dtype nd; nd_shape := nd_shape nd;
                 nd_data := nd_data nd; nd_writeable := false;
                 nd_base := nd_base nd |}.

(** [a.view()]: a new array object on the buffer of [a]; its base is the
    owner of that buffer and its flags start as those of [a]. *)
Definition view (a : addr) : M addr :=
  nd ← get_array a;
  new_array {| nd_dtype := nd_dtype nd; nd_shape := nd_shape nd;
               nd_data := nd_data nd; nd_writeable := nd_writeable nd;
               nd_base := Some (default a (nd_base nd)) |}.

(* ===================================================================== *)
(** * [np.array] *)
(* ===================================================================== *)

(** An argument that may be an array: an array object, or any other
    value. *)
Inductive pyarg : Type :=
  | NdArray (a : addr)
  | Plain (v : pyval).

(** The array-construction primitive of NumPy, [np.array(x, **kwargs)].
    What it returns depends on the keyword arguments, which [array] passes
    on as it gets them: with [copy=False] and an array for [x] it may
    return [x] itself, with [dtype=] it converts the elements, with
    [ndmin=] it adds axes.  The keyword arguments are a type of the
    interface, and the function is taken with the two facts below. *)
Class NumPy : Type := {
  kwargs : Type;
  np_array : pyarg → kwargs → M addr
}.

(** What [np.array] returns is an array object of the store, which has at
    most [NPY_MAXDIMS] axes. *)
Class NumPyLaws (NP : NumPy) : Prop := {
  np_array_returns : ∀ x kw h y h',
    np_array x kw h = Ok (y, h') →
    ∃ nd, arrays h' !! y = Some nd ∧ len (nd_shape nd) ≤ NPY_MAXDIMS
}.

(** [np.ones(k, dtype='int')].  (The memory is taken to suffice.) *)
Definition np_ones (k : Z) : result (list Z) :=
  if k <? 0 then Raise (ValueError "negative dimensions are not allowed")
  else Ok (replicate (Z.to_nat k) 1).

(** [dst[:k] = src] for [0 <= k]: [src] must have as many items as the
    slice, or a single one, which is then repeated. *)
Definition assign_prefix (k : Z) (src dst : list Z) : result (list Z) :=
  let slice := take (Z.to_nat k) dst in
  if len src =? len slice then Ok (src ++ drop (Z.to_nat k) dst)
  else match src with
       | [v] => Ok (replicate (length slice) v ++ drop (Z.to_nat k) dst)
       | _ => Raise (ValueError "could not broadcast input array")
       end.

(* ===================================================================== *)
(** * [array] *)
(* ===================================================================== *)

(** [def array(x, dims=None, min_dims=0, readonly=False, **kwargs):
       y = np.array(x, **kwargs)
       dims = max(min_dims, y.ndim) if dims is None else dims
       if y.ndim < dims:
           shape = np.ones(dims, dtype='int')
           shape[:y.ndim] = y.shape
           y.shape = shape
       elif y.ndim > dims:
           raise ValidationError("Input cannot be cast to array with "
                                 "%d dimensions" % dims, attr='dims')
       if readonly:
           y.flags.writeable = False
       return y] *)
Definition array `{NP : NumPy} (x : pyarg) (dims : option Z) (min_dims : Z)
    (readonly : bool) (kw : kwargs) : M addr :=
  y ← np_array x kw;
  y_ndim ← ndim y;
  let dims := match dims with
              | None => Z.max min_dims y_ndim
              | Some d => d
              end in
  (if y_ndim <? dims then
     shape ← lift (np_ones dims);
     y_shape ← shape_of y;
     shape ← lift (assign_prefix y_ndim y_shape shape);
     set_shape y shape
   else if y_ndim >? dims then
     raise (ValidationError
              ("Input cannot be cast to array with " ++ fmt_d dims ++ " dimensions")
              "dims")
   else mret tt);;
  (if readonly then set_readonly y else mret tt);;
  mret y.

(** ** A NumPy to compute with

    [np.array] on nested lists and tuples of integers, and on arrays, with
    the keyword [copy].  A list or tuple is a sequence, anything else is a
    scalar; the items of a sequence must all have one shape and the nesting
    must not be deeper than [NPY_MAXDIMS], else NumPy refuses the input.
    Integers that fit 64 bits are stored as int64.  What NumPy makes of
    other scalars depends on their types, which [pyval] does not record:
    this instance does not cover them, and answers them with a [TypeError]
    that says so.  The properties of [array] are proved for every [NumPy];
    the instance serves to run the code on lists of integers and on
    arrays. *)
Fixpoint discover_shape (x : pyval) : option (list Z) :=
  match x with
  | PyList l | PyTuple l =>
      match map discover_shape l with
      | [] => Some [0]
      | None :: _ => None
      | Some s :: ss =>
          if forallb (fun s' => bool_decide (s' = Some s)) ss
          then Some (len l :: s) else None
      end
  | _ => Some []
  end.

Fixpoint flat_items (x : pyval) : list pyval :=
  match x with
  | PyList l | PyTuple l => concat (map flat_items l)
  | v => [v]
  end.

Module SampleNumPy.

Record keywords : Type := { kw_copy : bool }.

(** The call without keyword arguments: [copy] is true by default. *)
Definition no_keywords : keywords := {| kw_copy := true |}.

Definition int64_cell (v : pyval) : option cell :=
  match v with
  | PyInt z => if (- 2 ^ 63 <=? z) && (z <? 2 ^ 63) then Some (CInt z) else None
  | _ => None
  end.

(** An array without elements has NumPy's default dtype. *)
Definition dtype_of (cells : list cell) : dtype :=
  match cells with [] => DtFloat64 | _ => DtInt64 end.

(** A new object on a new buffer that holds the scalars in row-major
    order. *)
Definition array_of_value (v : pyval) : M addr :=
  match discover_shape v with
  | None => raise (ValueError "inhomogeneous shape")
  | Some shape =>
      if len shape >? NPY_MAXDIMS
      then raise (ValueError "the requested array would exceed the maximum number of dimension of 32")
      else match mapM int64_cell (flat_items v) with
           | None => raise (TypeError "a scalar that this instance does not cover")
           | Some cells =>
               b ← new_buffer cells;
               new_array {| nd_dtype := dtype_of cells; nd_shape := shape;
                            nd_data := b; nd_writeable := true; nd_base := None |}
           end
  end.

(** [np.array(a)] for an array [a]: a copy that owns its data, or, with
    [copy=False], [a] itself.  (No array that NumPy made has more than
    [NPY_MAXDIMS] axes; the test is there for the stores that hold one.) *)
Definition array_of_array (a : addr) (copy : bool) : M addr :=
  nd ← get_array a;
  if len (nd_shape nd) >? NPY_MAXDIMS
  then raise (ValueError "maximum supported dimension for an ndarray is 32")
  else if copy then
    cells ← get_buffer (nd_data nd);
    b ← new_buffer cells;
    new_array {| nd_dtype := nd_dtype nd; nd_shape := nd_shape nd;
                 nd_data := b; nd_writeable := true; nd_base := None |}
  else mret a.

#[export] Instance numpy : NumPy := {|
  kwargs := keywords;
  np_array := fun x kw =>
    match x with
    | Plain v => array_of_value v
    | NdArray a => array_of_array a (kw_copy kw)
    end
|}.

End SampleNumPy.

(* ===================================================================== *)
(** * [array_hash] *)
(* ===================================================================== *)

(** What [array_hash] takes from the interpreter and from NumPy: the [PY2]
    flag of [nengo.utils.compat]; whether NumPy reads [a[inds]], for a list
    [inds] of index arrays, as [a[tuple(inds)]] (before NumPy 1.23) or as
    [a[np.array(inds)]] (since); the built-in [hash] (of a bytes object, of
    a Python 2 buffer, and of any other value); the bytes of an int64 and
    of a pointer; and the pseudo-random generator [np.random.RandomState]
    with its [randint].  [hash] is a function for the time the interpreter
    runs.  A generator is a value: [randint] returns the numbers drawn and
    the generator that follows. *)
Class Runtime : Type := {
  PY2 : bool;
  index_list_as_tuple : bool;
  hash_bytes : list Byte.byte → Z;
  hash_buffer : list Byte.byte → Z;
  py_hash : pyval → result Z;
  int64_bytes : Z → list Byte.byte;
  pointer_bytes : Z → list Byte.byte;
  rng_state : Type;
  RandomState : Z → result rng_state;
  randint : rng_state → Z → Z → Z → result (list Z * rng_state)
}.

(** [rng.randint(low, high, size=n)] gives [n] integers of [[low, high)]. *)
Class RuntimeLaws (RT : Runtime) : Prop := {
  randint_spec : ∀ g low high n l g',
    randint g low high n = Ok (l, g') →
    len l = n ∧ Forall (fun i => low ≤ i < high) l
}.

(** The bytes of an element in memory: of an object, those of the
    pointer, whatever the object is. *)
Definition cell_bytes `{Runtime} (c : cell) : list Byte.byte :=
  match c with
  | CInt z => int64_bytes z
  | CRaw bs => bs
  | CObj p _ => pointer_bytes p
  end.

(** *** [a[tuple(inds)]]: one index array per axis *)

(** The flat position of the element at a multi-index that has one index
    per axis, row-major; a negative index counts from the end of its
    axis. *)
Fixpoint ravel_index (shape index : list Z) (acc : Z) : result Z :=
  match shape, index with
  | [], [] => Ok acc
  | d :: shape', i :: index' =>
      if (- d <=? i) && (i <? d)
      then ravel_index shape' index' (acc * d + (if i <? 0 then i + d else i))
      else Raise (IndexError "index is out of bounds")
  | _, _ => Raise (IndexError "too many indices for array")
  end.

(** The [k]-th items of the index arrays: the multi-index of the [k]-th
    element picked. *)
Definition index_at (inds : list (list Z)) (k : nat) : result (list Z) :=
  match mapM (fun ind => ind !! k) inds with
  | Some index => Ok index
  | None => Raise (IndexError "shape mismatch: indexing arrays")
  end.

Definition pick (shape : list Z) (items : list cell) (inds : list (list Z))
    (k : nat) : result cell :=
  index ← index_at inds k;
  pos ← ravel_index shape index 0;
  match items !! Z.to_nat pos with
  | Some v => Ok v
  | None => Raise (IndexError "index is out of bounds")
  end.

Fixpoint picks (shape : list Z) (items : list cell) (inds : list (list Z))
    (ks : list nat) : result (list cell) :=
  match ks with
  | [] => Ok []
  | k :: ks' =>
      v ← pick shape items inds k;
      vs ← picks shape items inds ks';
      Ok (v :: vs)
  end.

(** The elements that one index array per axis picks: element [k] is the
    one at [(inds[0][k], ..., inds[ndim-1][k])].  An empty list is a single
    empty index array, one index too many for a 0-d array. *)
Definition gather (shape : list Z) (items : list cell) (inds : list (list Z))
  : result (list cell) :=
  match inds with
  | [] => Raise (IndexError "too many indices for array")
  | ind :: _ => picks shape items inds (seq 0 (length ind))
  end.

(** *** [a[np.array(inds)]]: one index array, along the first axis *)

(** [np.array(inds)]: the index arrays, which must have one length, as the
    rows of one array, given by its shape and its items in flat order.  No
    index array at all gives an empty array of one axis. *)
Definition index_array (inds : list (list Z)) : result (list Z * list Z) :=
  match inds with
  | [] => Ok ([0], [])
  | ind :: inds' =>
      if forallb (fun ind' => bool_decide (length ind' = length ind)) inds'
      then Ok ([len inds; len ind], concat inds)
      else Raise (ValueError "inhomogeneous shape")
  end.

(** [a[j]] as a run of the buffer, for an array whose first axis has length
    [d] and whose other axes are [rest]; a negative [j] counts from the
    end. *)
Definition row (d : Z) (rest : list Z) (items : list cell) (j : Z)
  : result (list cell) :=
  if (- d <=? j) && (j <? d)
  then let w := Z.to_nat (shape_size rest) in
       Ok (take w (drop (Z.to_nat (if j <? 0 then j + d else j) * w) items))
  else Raise (IndexError "index is out of bounds for axis 0").

Fixpoint rows (d : Z) (rest : list Z) (items : list cell) (index : list Z)
  : result (list cell) :=
  match index with
  | [] => Ok []
  | j :: index' =>
      r ← row d rest items j;
      rs ← rows d rest items index';
      Ok (r ++ rs)
  end.

(** Indexing with one integer array of shape [ishape]: the result has the
    axes of the index array followed by the axes of [a] after the first,
    and holds [a[j]] for each item [j] of the index array. *)
Definition take_rows (shape : list Z) (items : list cell)
    (ishape index : list Z) : result (list Z * list cell) :=
  match shape with
  | [] => Raise (IndexError "too many indices for array")
  | d :: rest =>
      if len (ishape ++ rest) >? NPY_MAXDIMS
      then Raise (IndexError "number of dimensions must be within [0, 32]")
      else picked ← rows d rest items index;
           Ok (ishape ++ rest, picked)
  end.

(** [a[inds]] for a list [inds] of index arrays, in either reading: the
    shape and the elements of the result. *)
Definition index_list `{Runtime} (shape : list Z) (items : list cell)
    (inds : list (list Z)) : result (list Z * list cell) :=
  if index_list_as_tuple
  then picked ← gather shape items inds;
       Ok ([len picked], picked)
  else '(ishape, index) ← index_array inds;
       take_rows shape items ishape index.

(** The result of [a[inds]] is a new array with a buffer of its own. *)
Definition getitem `{Runtime} (a : addr) (inds : list (list Z)) : M addr :=
  nd ← get_array a;
  items ← get_buffer (nd_data nd);
  '(shape, picked) ← lift (index_list (nd_shape nd) items inds);
  b ← new_buffer picked;
  new_array {| nd_dtype := nd_dtype nd; nd_shape := shape;
               nd_data := b; nd_writeable := true; nd_base := None |}.

(** [v.data.tobytes()], and the contents of the buffer [v.data] in Python 2:
    the bytes of the elements in flat order. *)
Definition data_bytes `{Runtime} (v : addr) : M (list Byte.byte) :=
  nd ← get_array v;
  items ← get_buffer (nd_data nd);
  mret (concat (map cell_bytes items)).

(** [hash(v.data if PY2 else v.data.tobytes())] *)
Definition hash_data `{Runtime} (v : addr) : M Z :=
  d ← data_bytes v;
  mret (if PY2 then hash_buffer d else hash_bytes d).

(** [[rng.randint(0, a.shape[i], size=n) for i in range(a.ndim)]] *)
Fixpoint draw_inds `{Runtime} (rng : rng_state) (shape : list Z) (n : Z)
  : result (list (list Z)) :=
  match shape with
  | [] => Ok []
  | d :: shape' =>
      '(ind, rng') ← randint rng 0 d n;
      inds ← draw_inds rng' shape' n;
      Ok (ind :: inds)
  end.

(** The two lines that draw the indices:
    [rng = np.random.RandomState(a.size)
     inds = [rng.randint(0, a.shape[i], size=n) for i in range(a.ndim)]] *)
Definition sample_inds `{Runtime} (a : addr) (n : Z) : M (list (list Z)) :=
  a_size ← size_of a;
  rng ← lift (RandomState a_size);
  a_shape ← shape_of a;
  lift (draw_inds rng a_shape n).

(** [def array_hash(a, n=100):
       if not isinstance(a, np.ndarray):
           return hash(a)
       if a.size < n:
           v = a.view()
           v.setflags(write=False)
           return hash(v.data if PY2 else v.data.tobytes())
       else:
           rng = np.random.RandomState(a.size)
           inds = [rng.randint(0, a.shape[i], size=n) for i in range(a.ndim)]
           v = a[inds]
           v.setflags(write=False)
           return hash(v.data if PY2 else v.data.tobytes())] *)
Definition array_hash `{Runtime} (a : pyarg) (n : Z) : M Z :=
  match a with
  | Plain x => lift (py_hash x)
  | NdArray a =>
      a_size ← size_of a;
      if a_size <? n then
        v ← view a;
        set_readonly v;;
        hash_data v
      else
        inds ← sample_inds a n;
        v ← getitem a inds;
        set_readonly v;;
        hash_data v
  end.

(** ** A runtime to compute with

    Integers and pointers are encoded on eight bytes, least significant
    first; [hash] is a polynomial hash; the generator is a linear
    congruential one.  [runtime] reads [a[inds]] as NumPy does since 1.23,
    [legacy_runtime] as it did before. *)
Module SampleRuntime.

Definition byte_of_Z (z : Z) : Byte.byte :=
  default Byte.x00 (Byte.of_N (Z.to_N (z mod 256))).

Definition le_bytes (z : Z) : list Byte.byte :=
  map (fun k => byte_of_Z (z / 2 ^ (8 * Z.of_nat k))) (seq 0 8).

Definition poly_hash (bs : list Byte.byte) : Z :=
  fold_left (fun h b => (h * 31 + Z.of_N (Byte.to_N b)) mod 2 ^ 61) bs 7.

Definition value_hash (v : pyval) : result Z :=
  match v with
  | PyNone => Ok 0
  | PyInt z => Ok z
  | PyList _ => Raise (TypeError "unhashable type: 'list'")
  | _ => Ok 1
  end.

Definition lcg_seed (seed : Z) : result Z :=
  if (0 <=? seed) && (seed <? 2 ^ 32) then Ok seed
  else Raise (ValueError "Seed must be between 0 and 2**32 - 1").

Definition next (g : Z) : Z := (g * 1103515245 + 12345) mod 2 ^ 31.

Fixpoint draws (g low high : Z) (k : nat) : list Z * Z :=
  match k with
  | O => ([], g)
  | S k' =>
      let g1 := next g in
      let '(l, g2) := draws g1 low high k' in
      ((low + g1 mod (high - low)) :: l, g2)
  end.

Definition lcg_randint (g low high n : Z) : result (list Z * Z) :=
  if (n <? 0) || (high <=? low) then Raise (ValueError "low >= high")
  else Ok (draws g low high (Z.to_nat n)).

Definition runtime_with (as_tuple : bool) : Runtime := {|
  PY2 := false;
  index_list_as_tuple := as_tuple;
  hash_bytes := poly_hash;
  hash_buffer := poly_hash;
  py_hash := value_hash;
  int64_bytes := le_bytes;
  pointer_bytes := le_bytes;
  rng_state := Z;
  RandomState := lcg_seed;
  randint := lcg_randint
|}.

#[export] Instance runtime : Runtime := runtime_with false.

Definition legacy_runtime : Runtime := runtime_with true.

End SampleRuntime.

(* ===================================================================== *)
(** * [rms] and [rmse] *)
(* ===================================================================== *)

(** The [axis] argument of a reduction: [None], an integer, or a tuple. *)
Inductive axis_arg : Type :=
  | AxisNone
  | AxisInt (k : Z)
  | AxisTuple (ks : list Z).

(** The NumPy operations that [rms] and [rmse] are written with, on a type
    [A] of array values: [x - y], [x ** 2], [np.mean(x, axis=, keepdims=)]
    and [np.sqrt(x)].  Each may raise. *)
Class ArrayOps (A : Type) : Type := {
  np_subtract : A → A → result A;
  np_square : A → result A;
  np_mean : A → axis_arg → bool → result A;
  np_sqrt : A → result A
}.

Section Rms.

Context {A : Type} `{ArrayOps A}.

(** [def rms(x, axis=None, keepdims=False):
       return np.sqrt(np.mean(x**2, axis=axis, keepdims=keepdims))] *)
Definition rms (x : A) (axis : axis_arg) (keepdims : bool) : result A :=
  x2 ← np_square x;
  m ← np_mean x2 axis keepdims;
  np_sqrt m.

(** [def rmse(x, y, axis=None, keepdims=False):
       return rms(x - y, axis=axis, keepdims=keepdims)] *)
Definition rmse (x y : A) (axis : axis_arg) (keepdims : bool) : result A :=
  d ← np_subtract x y;
  rms d axis keepdims.

(** The specification's words for [rmse]: the element-wise difference is
    taken first, then the root of the mean of its squares. *)
Definition rmse_spec (x y : A) (axis : axis_arg) (keepdims : bool) : result A :=
  d ← np_subtract x y;
  d2 ← np_square d;
  m ← np_mean d2 axis keepdims;
  np_sqrt m.

End Rms.

(** ** Arrays of floats as values *)

(** The sum of the summands of one cell of a reduction.  NumPy adds them
    in an order of its own (the first one, then the others in blocks and
    pairwise, depending on the layout and on the axes reduced), and the
    order changes the rounding.  The sum is taken from an interface: a
    function of the shape of the array, the axes reduced, the position of
    the cell and the summands in flat order. *)
Class Summation : Type := {
  reduce_add : list nat → list nat → nat → list float64 → float64
}.

(** What holds in whatever order the summands are added: the sum of zeros,
    of no summand too, is zero. *)
Class SummationLaws (S : Summation) : Prop := {
  reduce_add_zeros : ∀ shape axes pos l,
    Forall (fun v => v = zero) l → reduce_add shape axes pos l = zero
}.

(** A dense array of binary64 numbers: its shape and its elements in flat
    (row-major) order. *)
Module FloatArray.

Record farray : Type := { fa_shape : list nat; fa_data : list float64 }.

Definition size (shape : list nat) : nat := fold_right Nat.mul 1%nat shape.

(** A one-dimensional array, and a 0-d array (a scalar). *)
Definition vector (l : list float64) : farray :=
  {| fa_shape := [length l]; fa_data := l |}.
Definition scalar (v : float64) : farray :=
  {| fa_shape := []; fa_data := [v] |}.

(** The multi-index of a flat position, and back. *)
Fixpoint unravel (shape : list nat) (pos : nat) : list nat :=
  match shape with
  | [] => []
  | d :: shape' =>
      let inner := size shape' in
      ((pos / inner) mod d)%nat :: unravel shape' (pos mod inner)%nat
  end.

Fixpoint ravel (shape index : list nat) (acc : nat) : nat :=
  match shape, index with
  | d :: shape', i :: index' => ravel shape' index' (acc * d + i)%nat
  | _, _ => acc
  end.

(** Broadcasting of two shapes, given last axis first. *)
Fixpoint broadcast_rev (r1 r2 : list nat) : option (list nat) :=
  match r1, r2 with
  | [], r | r, [] => Some r
  | a :: r1', b :: r2' =>
      r ← broadcast_rev r1' r2';
      if decide (a = b) then Some (a :: r)
      else if decide (a = 1%nat) then Some (b :: r)
      else if decide (b = 1%nat) then Some (a :: r)
      else None
  end.

Definition broadcast_shapes (s1 s2 : list nat) : option (list nat) :=
  reverse <$> broadcast_rev (reverse s1) (reverse s2).

Definition broadcastable (x y : farray) : Prop :=
  is_Some (broadcast_shapes (fa_shape x) (fa_shape y)).

(** The element of [x] that position [pos] of the broadcast shape [out]
    reads: the leading axes that [x] lacks are dropped and an axis of
    length 1 is read at 0. *)
Definition source (x : farray) (out : list nat) (pos : nat) : float64 :=
  let index := drop (length out - length (fa_shape x)) (unravel out pos) in
  let index := zip_with (fun d i => if decide (d = 1%nat) then 0%nat else i)
                        (fa_shape x) index in
  default nan (fa_data x !! ravel (fa_shape x) index 0).

(** [x - y] *)
Definition subtract (x y : farray) : result farray :=
  match broadcast_shapes (fa_shape x) (fa_shape y) with
  | None => Raise (ValueError "operands could not be broadcast together")
  | Some out =>
      Ok {| fa_shape := out;
            fa_data := map (fun pos => Float64.sub (source x out pos) (source y out pos))
                           (seq 0 (size out)) |}
  end.

(** [x ** 2], which NumPy computes as [x * x]. *)
Definition square (x : farray) : result farray :=
  Ok {| fa_shape := fa_shape x;
        fa_data := map (fun v => Float64.mul v v) (fa_data x) |}.

Definition sqrt (x : farray) : result farray :=
  Ok {| fa_shape := fa_shape x; fa_data := map Float64.sqrt (fa_data x) |}.

(** The axes to reduce, as positions: a negative axis counts from the
    last one, an axis out of range or given twice is refused. *)
Definition normalize_axis (nd : nat) (k : Z) : result nat :=
  if (- Z.of_nat nd <=? k) && (k <? Z.of_nat nd)
  then Ok (Z.to_nat (if k <? 0 then k + Z.of_nat nd else k))
  else Raise (IndexError "axis is out of bounds for array").

Fixpoint normalize_axes (nd : nat) (ks : list Z) : result (list nat) :=
  match ks with
  | [] => Ok []
  | k :: ks' =>
      a ← normalize_axis nd k;
      rest ← normalize_axes nd ks';
      if bool_decide (a ∈ rest) then Raise (ValueError "duplicate value in 'axis'")
      else Ok (a :: rest)
  end.

Definition reduced_axes (nd : nat) (axis : axis_arg) : result (list nat) :=
  match axis with
  | AxisNone => Ok (seq 0 nd)
  | AxisInt k => normalize_axes nd [k]
  | AxisTuple ks => normalize_axes nd ks
  end.

(** A shape or an index with the reduced axes set to [v]. *)
Definition collapse {B : Type} (axes : list nat) (v : B) (l : list B) : list B :=
  imap (fun i d => if bool_decide (i ∈ axes) then v else d) l.

(** The lengths of the reduced axes, and those of the others. *)
Definition reduced_dims (axes : list nat) (shape : list nat) : list nat :=
  omap id (imap (fun i d => if bool_decide (i ∈ axes) then Some d else None) shape).
Definition squeeze (axes : list nat) (shape : list nat) : list nat :=
  omap id (imap (fun i d => if bool_decide (i ∈ axes) then None else Some d) shape).

(** The elements of [x] that the cell at [pos] of the reduced array sums:
    those whose index agrees with that of the cell outside the reduced
    axes. *)
Definition summands (x : farray) (axes : list nat) (pos : nat) : list float64 :=
  let kept := collapse axes 1%nat (fa_shape x) in
  omap (fun q => if decide (collapse axes 0%nat (unravel (fa_shape x) q)
                            = unravel kept pos)
                 then fa_data x !! q else None)
       (seq 0 (size (fa_shape x))).

(** The sum of [x] over the axes [axes], which are positions. *)
Definition add_reduce `{Summation} (x : farray) (axes : list nat) (keepdims : bool)
  : farray :=
  let kept := collapse axes 1%nat (fa_shape x) in
  {| fa_shape := if keepdims then kept else squeeze axes (fa_shape x);
     fa_data := map (fun pos => reduce_add (fa_shape x) axes pos (summands x axes pos))
                    (seq 0 (size kept)) |}.

(** [np.mean(x, axis=axis, keepdims=keepdims)]: the sum over the reduced
    axes divided by the number of elements summed. *)
Definition mean `{Summation} (x : farray) (axis : axis_arg) (keepdims : bool)
  : result farray :=
  axes ← reduced_axes (length (fa_shape x)) axis;
  let count := size (reduced_dims axes (fa_shape x)) in
  let total := add_reduce x axes keepdims in
  Ok {| fa_shape := fa_shape total;
        fa_data := map (fun v => Float64.div v (of_Z (Z.of_nat count)))
                       (fa_data total) |}.

#[global] Instance ops `{Summation} : ArrayOps farray := {|
  np_subtract := subtract;
  np_square := square;
  np_mean := mean;
  np_sqrt := sqrt
|}.

End FloatArray.

(** A summation to compute with: the summands are added in flat order,
    from zero. *)
Module SampleSummation.

Definition fsum (l : list float64) : float64 := fold_left Float64.add l zero.

#[export] Instance flat_order : Summation := {|
  reduce_add := fun _ _ _ l => fsum l
|}.

End SampleSummation.

(** ** Operands that are array_like

    The docstrings take [x] and [y] as array_like: an array, or a Python
    sequence that NumPy converts to one.  The operators of the code are
    Python's: [x - y] and [x ** 2] are NumPy's when an operand is an
    array, which then converts the other one; on two sequences they are
    the operators of lists and tuples, which have none.  The functions
    [np.mean] and [np.sqrt] convert their argument. *)
Module ArrayLike.

Import FloatArray.

Inductive operand : Type :=
  | Seq (tuple : bool) (items : list pyval)
  | Arr (a : farray).

Definition type_name (tuple : bool) : string :=
  if tuple then "tuple" else "list".

Section Ops.

Context `{Summation}.

(** [np.asarray] of a Python sequence, where it is an array of floats:
    NumPy's conversion. *)
Variable asarray : bool → list pyval → result farray.

Definition to_array (x : operand) : result farray :=
  match x with
  | Arr a => Ok a
  | Seq t l => asarray t l
  end.

Definition subtract (x y : operand) : result operand :=
  match x, y with
  | Seq tx _, Seq ty _ =>
      Raise (TypeError ("unsupported operand type(s) for -: '" ++ type_name tx
                        ++ "' and '" ++ type_name ty ++ "'"))
  | _, _ =>
      a ← to_array x;
      b ← to_array y;
      Arr <$> FloatArray.subtract a b
  end.

Definition square (x : operand) : result operand :=
  match x with
  | Seq t _ =>
      Raise (TypeError ("unsupported operand type(s) for ** or pow(): '"
                        ++ type_name t ++ "' and 'int'"))
  | Arr a => Arr <$> FloatArray.square a
  end.

Definition mean (x : operand) (axis : axis_arg) (keepdims : bool) : result operand :=
  a ← to_array x; Arr <$> FloatArray.mean a axis keepdims.

Definition sqrt (x : operand) : result operand :=
  a ← to_array x; Arr <$> FloatArray.sqrt a.

Definition ops : ArrayOps operand := {|
  np_subtract := subtract;
  np_square := square;
  np_mean := mean;
  np_sqrt := sqrt
|}.

End Ops.

End ArrayLike.

(* ===================================================================== *)
(** * [rfftfreq] *)
(* ===================================================================== *)

(** The polyfill is embedded twice: over binary64, as the interpreter
    evaluates it (module [Binary64]), and, below, in exact arithmetic, for
    what no rounding changes: which calls raise, how many frequencies there
    are, and their symmetry in the sign of the spacing. *)

Local Open Scope Q_scope.

(** [np.arange(lo, hi, dtype=int)] *)
Definition arange (lo hi : Z) : list Z := seqZ lo (hi - lo).

(** [l[:k]]: a negative [k] counts from the end. *)
Definition slice_to {A : Type} (k : Z) (l : list A) : list A :=
  if (k <? 0)%Z then take (Z.to_nat (len l + k)) l else take (Z.to_nat k) l.

(** [np.fft.fftfreq(n, d)], the full signed frequency axis, as NumPy
    defines it:
    [val = 1.0 / (n * d)
     results = empty(n, int)
     N = (n-1)//2 + 1
     results[:N] = arange(0, N, dtype=int)
     results[N:] = arange(-(n//2), 0, dtype=int)
     return results * val]
    Here the frequencies are exact rationals. *)
Definition fftfreq (n : Z) (d : Q) : result (list Q) :=
  if Qeq_bool (inject_Z n * d) 0 then Raise (ZeroDivisionError "float division by zero")
  else if (n <? 0)%Z then Raise (ValueError "negative dimensions are not allowed")
  else
    let val := 1 / (inject_Z n * d) in
    let N := ((n - 1) / 2 + 1)%Z in
    let results := arange 0 N ++ arange (- (n / 2)) 0 in
    Ok ((fun k => inject_Z k * val) <$> results).

(** [def rfftfreq(n, d=1.0):
       return np.abs(np.fft.fftfreq(n=n, d=d)[:n // 2 + 1])] *)
Definition rfftfreq (n : Z) (d : Q) : result (list Q) :=
  freqs ← fftfreq n d;
  Ok (Qabs <$> slice_to (n / 2 + 1)%Z freqs).

Local Close Scope Q_scope.

(* ===================================================================== *)
(** * [norm] and [meshgrid_nd] *)
(* ===================================================================== *)

(** [np.sum(x, axis=, keepdims=)], which [norm] needs besides the
    operations of [ArrayOps]. *)
Class ArraySum (A : Type) : Type := {
  np_sum : A → axis_arg → bool → result A
}.

(** [def norm(x, axis=None, keepdims=False):
       return np.sqrt(np.sum(x**2, axis=axis, keepdims=keepdims))] *)
Definition norm {A : Type} `{ArrayOps A} `{ArraySum A}
    (x : A) (axis : axis_arg) (keepdims : bool) : result A :=
  x2 ← np_square x;
  s ← np_sum x2 axis keepdims;
  np_sqrt s.

(** The NumPy operations of [norm] and [meshgrid_nd] on arrays of floats. *)
Module FloatArrayOps.

Import FloatArray.

(** The axes that [np.sum] reduces: those of [np.mean], except that on a
    0-d array NumPy lets an integer axis 0 or -1 through, for which nothing
    is reduced, where [np.mean] refuses every axis. *)
Definition sum_axes (nd : nat) (axis : axis_arg) : result (list nat) :=
  match nd, axis with
  | O, AxisInt k => if (k =? 0) || (k =? -1) then Ok [] else reduced_axes nd axis
  | _, _ => reduced_axes nd axis
  end.

(** [np.sum(x, axis=axis, keepdims=keepdims)] *)
Definition sum `{Summation} (x : farray) (axis : axis_arg) (keepdims : bool)
  : result farray :=
  axes ← sum_axes (length (fa_shape x)) axis;
  Ok (add_reduce x axes keepdims).

#[global] Instance sum_ops `{Summation} : ArraySum farray := {| np_sum := sum |}.

(** [x.reshape(newshape)]: NumPy refuses more than [NPY_MAXDIMS] axes; at
    most one entry of [newshape] is -1 and stands for the length that makes
    the sizes agree; the elements keep their flat order. *)
Definition reshape (x : farray) (newshape : list Z) : result farray :=
  let total := Z.of_nat (size (fa_shape x)) in
  let known := fold_right Z.mul 1 (filter (fun d => d ≠ -1) newshape) in
  if len newshape >? NPY_MAXDIMS
  then Raise (ValueError "maximum supported dimension for an ndarray is 32")
  else if bool_decide (Exists (fun d => d < -1) newshape)
  then Raise (ValueError "negative dimensions not allowed")
  else match length (filter (fun d => d = -1) newshape) with
       | O =>
           if known =? total
           then Ok {| fa_shape := Z.to_nat <$> newshape; fa_data := fa_data x |}
           else Raise (ValueError "cannot reshape array")
       | S O =>
           if (known =? 0) || negb (total mod known =? 0)
           then Raise (ValueError "cannot reshape array")
           else Ok {| fa_shape := (fun d => Z.to_nat (if d =? -1 then total / known else d))
                                    <$> newshape;
                      fa_data := fa_data x |}
       | _ => Raise (ValueError "can only specify one unknown dimension")
       end.

(** The shape that all the shapes broadcast to. *)
Fixpoint broadcast_all (shapes : list (list nat)) : option (list nat) :=
  match shapes with
  | [] => Some []
  | s :: shapes' => r ← broadcast_all shapes'; broadcast_shapes s r
  end.

(** [x] seen with the shape [out], which its shape broadcasts to. *)
Definition broadcast_to (out : list nat) (x : farray) : farray :=
  {| fa_shape := out; fa_data := map (source x out) (seq 0 (size out)) |}.

(** [np.broadcast_arrays] of the arrays [xs]. *)
Definition broadcast_arrays (xs : list farray) : result (list farray) :=
  match broadcast_all (fa_shape <$> xs) with
  | None => Raise (ValueError "shape mismatch: objects cannot be broadcast")
  | Some out => Ok (broadcast_to out <$> xs)
  end.

(** [t[:i]] and [t[i:]] for [0 <= i]. *)
Definition slice_before {B : Type} (i : nat) (t : list B) : list B := take i t.
Definition slice_from {B : Type} (i : nat) (t : list B) : list B := drop i t.

(** [a.reshape(s[:i] + (-1,) + s[i + 1:]) for i, a in enumerate(args)] *)
Fixpoint reshape_each (s : list Z) (i : nat) (args : list farray)
  : result (list farray) :=
  match args with
  | [] => Ok []
  | a :: args' =>
      r ← reshape a (slice_before i s ++ [-1] ++ slice_from (i + 1) s);
      rs ← reshape_each s (i + 1) args';
      Ok (r :: rs)
  end.

(** [def meshgrid_nd( *args):
       args = [np.asarray(a) for a in args]
       s = len(args) * (1,)
       return np.broadcast_arrays( *(
           a.reshape(s[:i] + (-1,) + s[i + 1:]) for i, a in enumerate(args)))]
    The arguments are taken as arrays already, which [np.asarray] returns
    as they are. *)
Definition meshgrid_nd (args : list farray) : result (list farray) :=
  let s := replicate (length args) 1 in
  reshaped ← reshape_each s 0 args;
  broadcast_arrays reshaped.

(** An array whose buffer holds as many elements as its shape says. *)
Definition well_formed (x : farray) : Prop :=
  length (fa_data x) = size (fa_shape x).

(** The shape of [k] axes that is [m] along axis [i] and 1 along the
    others, and the numbers of elements of the arguments. *)
Definition axis_shape (k i m : nat) : list nat :=
  replicate i 1%nat ++ [m] ++ replicate (k - i - 1) 1%nat.
Definition sizes (args : list farray) : list nat :=
  (fun a => size (fa_shape a)) <$> args.

(** The arguments reshaped, each along an axis of its own. *)
Fixpoint axis_arrays (k i : nat) (args : list farray) : list farray :=
  match args with
  | [] => []
  | a :: args' =>
      {| fa_shape := axis_shape k i (size (fa_shape a)); fa_data := fa_data a |}
        :: axis_arrays k (i + 1) args'
  end.

End FloatArrayOps.

(* ===================================================================== *)
(** * [np.fft.rfftfreq] and the choice made when the module is loaded *)
(* ===================================================================== *)

Local Open Scope Q_scope.

(** [np.fft.rfftfreq(n, d)], as NumPy defines it:
    [val = 1.0 / (n * d)
     N = n // 2 + 1
     results = arange(0, N, dtype=int)
     return results * val] *)
Definition np_fft_rfftfreq (n : Z) (d : Q) : result (list Q) :=
  if Qeq_bool (inject_Z n * d) 0 then Raise (ZeroDivisionError "float division by zero")
  else
    let val := 1 / (inject_Z n * d) in
    Ok ((fun k => inject_Z k * val) <$> arange 0 (n / 2 + 1)%Z).

(** [if hasattr(np.fft, 'rfftfreq'):
       rfftfreq = np.fft.rfftfreq
     else:
       def rfftfreq(n, d=1.0): ...]
    What the module exports as [rfftfreq], given whether NumPy has one. *)
Definition module_rfftfreq (has_native : bool) : Z → Q → result (list Q) :=
  if has_native then np_fft_rfftfreq else rfftfreq.

Local Close Scope Q_scope.

(* ===================================================================== *)
(** * [rfftfreq] over binary64 *)
(* ===================================================================== *)

Module Binary64.

Definition one : float64 := of_Z 1.
Definition abs : float64 → float64 := SFabs.
Definition leb : float64 → float64 → bool := SFleb.

Definition is_zero (v : float64) : bool :=
  match v with S754_zero _ => true | _ => false end.

(** [float(n)] for a Python integer: the nearest float, and an
    [OverflowError] when the integer is beyond the floats. *)
Definition float_of_int (n : Z) : result float64 :=
  match of_Z n with
  | S754_infinity _ => Raise (OverflowError "int too large to convert to float")
  | f => Ok f
  end.

(** The greatest number of 8-byte elements of an array: beyond it NumPy
    refuses the length.  (Before that the memory runs out, which is not
    modelled.) *)
Definition max_length : Z := 2 ^ 60.

(** [np.fft.fftfreq(n, d)] for a Python integer [n] and a float [d]:
    [val = 1.0 / (n * d)
     results = empty(n, int)
     N = (n-1)//2 + 1
     results[:N] = arange(0, N, dtype=int)
     results[N:] = arange(-(n//2), 0, dtype=int)
     return results * val]
    Python converts [n] to a float for [n * d] and raises on a division by
    zero; it is NumPy that multiplies the integers by [val], each converted
    to a float. *)
Definition fftfreq (n : Z) (d : float64) : result (list float64) :=
  nf ← float_of_int n;
  let nd := mul nf d in
  if is_zero nd then Raise (ZeroDivisionError "float division by zero")
  else
    let val := div one nd in
    if n <? 0 then Raise (ValueError "negative dimensions are not allowed")
    else if max_length <=? n then Raise (ValueError "array is too big")
    else
      let N := (n - 1) / 2 + 1 in
      let results := arange 0 N ++ arange (- (n / 2)) 0 in
      Ok ((fun k => mul (of_Z k) val) <$> results).

(** [def rfftfreq(n, d=1.0):
       return np.abs(np.fft.fftfreq(n=n, d=d)[:n // 2 + 1])] *)
Definition rfftfreq (n : Z) (d : float64) : result (list float64) :=
  freqs ← fftfreq n d;
  Ok (abs <$> slice_to (n / 2 + 1) freqs).

(** [v >= 0], which is false of a NaN. *)
Definition nonneg (v : float64) : bool := leb zero v.

(** The floats 1e-320, which is 2024 times the least positive float, and
    0.125. *)
Definition tiny : float64 := S754_finite false 2024 (-1074).
Definition eighth : float64 := S754_finite false 4503599627370496 (-55).

End Binary64.

(* ===================================================================== *)
(** * Notions used to state the properties *)
(* ===================================================================== *)

(** The hash of the raw bytes of a sequence of elements. *)
Definition hash_of_cells `{Runtime} (items : list cell) : Z :=
  let bs := concat (map cell_bytes items) in
  if PY2 then hash_buffer bs else hash_bytes bs.

(** The indices drawn for an array of a given shape: a function of the
    shape and of [n] alone. *)
Definition sampled_inds `{Runtime} (shape : list Z) (n : Z) : result (list (list Z)) :=
  rng ← RandomState (shape_size shape);
  draw_inds rng shape n.

(** Two elements of equal value: the same number, or two objects of one
    value, wherever they lie. *)
Definition same_value (c1 c2 : cell) : Prop :=
  match c1, c2 with
  | CObj _ v1, CObj _ v2 => v1 = v2
  | _, _ => c1 = c2
  end.

Definition is_py_int (v : pyval) : Prop := ∃ z, v = PyInt z.

(** A float that is a number, not an infinity or a NaN. *)
Definition is_finite (v : float64) : Prop :=
  match v with
  | S754_zero _ | S754_finite _ _ _ => True
  | S754_infinity _ | S754_nan => False
  end.

(** A float of binary64, and not any triple of a sign, a mantissa and an
    exponent. *)
Definition is_binary64 (v : float64) : Prop := valid_binary prec emax v = true.

(** The array [nd] with another shape, and with another writeable flag. *)
Definition with_shape (nd : ndarray) (shape : list Z) : ndarray :=
  {| nd_dtype := nd_dtype nd; nd_shape := shape; nd_data := nd_data nd;
     nd_writeable := nd_writeable nd; nd_base := nd_base nd |}.

Definition with_writeable (nd : ndarray) (w : bool) : ndarray :=
  {| nd_dtype := nd_dtype nd; nd_shape := nd_shape nd; nd_data := nd_data nd;
     nd_writeable := w; nd_base := nd_base nd |}.

(** The object that [array_hash] hashes: a read-only view of [nd], or a
    read-only array of the elements picked. *)
Definition hashed_view (a : addr) (nd : ndarray) : ndarray :=
  {| nd_dtype := nd_dtype nd; nd_shape := nd_shape nd; nd_data := nd_data nd;
     nd_writeable := false; nd_base := Some (default a (nd_base nd)) |}.

Definition hashed_picks (nd : ndarray) (shape : list Z) (b : addr) : ndarray :=
  {| nd_dtype := nd_dtype nd; nd_shape := shape; nd_data := b;
     nd_writeable := false; nd_base := None |}.

(** What [randint] promises of the index array drawn for an axis of length
    [d]: [n] indices, each within the axis. *)
Definition drawn_for (n d : Z) (ind : list Z) : Prop :=
  len ind = n ∧ Forall (fun i => 0 ≤ i < d) ind.

(** An array of the store whose buffer holds as many elements as its shape
    says. *)
Definition consistent (h : heap) (nd : ndarray) : Prop :=
  ∃ items, buffers h !! nd_data nd = Some items ∧
           len items = shape_size (nd_shape nd).

Definition empty_heap : heap := {| arrays := []; buffers := [] |}.

(** The arrays [[1., 2., 3.]] and [[[1., 2., 3.], [4., 5., 6.]]]. *)
Definition vector_123 : FloatArray.farray :=
  FloatArray.vector (of_Z <$> [1; 2; 3]).
Definition matrix_23 : FloatArray.farray :=
  {| FloatArray.fa_shape := [2; 3]%nat;
     FloatArray.fa_data := of_Z <$> [1; 2; 3; 4; 5; 6] |}.

(** Two stores holding the array [[[1, 2, 3], [1, 2, 3]]]: alone and
    writeable at 0 in the first; read-only at 1, after another array, in the
    second. *)
Definition store_one : heap :=
  {| arrays := [ {| nd_dtype := DtInt64; nd_shape := [2; 3]; nd_data := 0%nat;
                    nd_writeable := true; nd_base := None |} ];
     buffers := [ [CInt 1; CInt 2; CInt 3; CInt 1; CInt 2; CInt 3] ] |}.

Definition store_two : heap :=
  {| arrays := [ {| nd_dtype := DtInt64; nd_shape := [3]; nd_data := 0%nat;
                    nd_writeable := true; nd_base := None |};
                 {| nd_dtype := DtInt64; nd_shape := [2; 3]; nd_data := 1%nat;
                    nd_writeable := false; nd_base := None |} ];
     buffers := [ [CInt 7; CInt 8; CInt 9];
                  [CInt 1; CInt 2; CInt 3; CInt 1; CInt 2; CInt 3] ] |}.

(** The store of the array [[[1, 2], [3, 4], [5, 6]]], whose second axis is
    shorter than the first. *)
Definition store_tall : heap :=
  {| arrays := [ {| nd_dtype := DtInt64; nd_shape := [3; 2]; nd_data := 0%nat;
                    nd_writeable := true; nd_base := None |} ];
     buffers := [ [CInt 1; CInt 2; CInt 3; CInt 4; CInt 5; CInt 6] ] |}.

(** A store of two arrays of dtype object, each holding a list [[1]] of its
    own: two objects of one value, at two addresses. *)
Definition store_objects : heap :=
  {| arrays := [ {| nd_dtype := DtObject; nd_shape := [1]; nd_data := 0%nat;
                    nd_writeable := true; nd_base := None |};
                 {| nd_dtype := DtObject; nd_shape := [1]; nd_data := 1%nat;
                    nd_writeable := true; nd_base := None |} ];
     buffers := [ [CObj 4096 (PyList [PyInt 1])]; [CObj 8192 (PyList [PyInt 1])] ] |}.

(** The store of the 4 x 4 array of the numbers 0 to 15. *)
Definition store_square : heap :=
  {| arrays := [ {| nd_dtype := DtInt64; nd_shape := [4; 4]; nd_data := 0%nat;
                    nd_writeable := true; nd_base := None |} ];
     buffers := [ CInt <$> seqZ 0 16 ] |}.

(** [[1, 2, 3]] *)
Definition list_123 : pyval := PyList [PyInt 1; PyInt 2; PyInt 3].

(** The store after [array], given the object that [np.array] returned and
    the shape that [array] leaves it with. *)
Definition made (readonly : bool) (h0 : heap) (y : addr) (nd0 : ndarray)
    (shape : list Z) : heap :=
  {| arrays := <[y := with_writeable (with_shape nd0 shape)
                        (if readonly then false else nd_writeable nd0)]> (arrays h0);
     buffers := buffers h0 |}.

(** The [dims] that [array] works with. *)
Definition dims_used (dims : option Z) (min_dims : Z) (nd0 : ndarray) : Z :=
  match dims with
  | None => Z.max min_dims (len (nd_shape nd0))
  | Some d => d
  end.

(* ===================================================================== *)
(** * Properties *)
(* ===================================================================== *)

Section CompareFacts.

Lemma SFcompare_antisym (x y : spec_float) :
  SFcompare y x = option_map CompOpp (SFcompare x y).
Proof.
  destruct x as [sx|sx| |sx mx ex], y as [sy|sy| |sy my ey];
    try reflexivity;
    try (destruct sx; reflexivity);
    try (destruct sy; reflexivity);
    try (destruct sx, sy; reflexivity).
  assert (He : (ey ?= ex) = CompOpp (ex ?= ey)) by apply Z.compare_antisym.
  assert (Hm : Pos.compare_cont Eq my mx = CompOpp (Pos.compare_cont Eq mx my))
    by (symmetry; apply (Pos.compare_cont_antisym mx my Eq)).
  cbn [SFcompare option_map]. rewrite He, Hm.
  destruct sx, sy; cbn [CompOpp]; try reflexivity;
    destruct (ex ?= ey); cbn [CompOpp]; try reflexivity;
    destruct (Pos.compare_cont Eq mx my); reflexivity.
Qed.

#[export] Instance Z_RichCompareLaws : RichCompareLaws Z.
Proof.
  split; cbn; intros a b.
  - apply Z.eqb_sym.
  - apply Z.gtb_ltb.
  - rewrite Z.ltb_lt, Z.ltb_ge. lia.
  - rewrite Z.eqb_eq, Z.ltb_ge. lia.
Qed.

#[export] Instance float64_RichCompareLaws : RichCompareLaws float64.
Proof.
  split; cbn; intros a b; unfold Float64.eqb, Float64.ltb, SFeqb, SFltb.
  - rewrite (SFcompare_antisym b a).
    destruct (SFcompare b a) as [[]|]; reflexivity.
  - reflexivity.
  - rewrite (SFcompare_antisym a b).
    destruct (SFcompare a b) as [[]|]; cbn; congruence.
  - destruct (SFcompare a b) as [[]|]; congruence.
Qed.

End CompareFacts.

(** C8 (as the code has it): [compare(a, b)] is 0 if [a == b], 1 if
    [a > b], -1 if [a < b], and the null sentinel if none of these holds;
    whenever [compare(a, b)] and [compare(b, a)] are both defined they are
    opposite; and [compare(a, a)] is 0 for every [a] that is equal to
    itself.  The operands are of any type whose operators obey
    [RichCompareLaws], the floats among them. *)
Theorem compare_spec {A : Type} `{RichCompareLaws A} (a b : A) :
  (py_eq a b = true → compare a b = Some 0) ∧
  (py_gt a b = true → compare a b = Some 1) ∧
  (py_lt a b = true → compare a b = Some (-1)) ∧
  (py_eq a b = false → py_gt a b = false → py_lt a b = false →
     compare a b = None) ∧
  (∀ x y : Z, compare a b = Some x → compare b a = Some y → x = - y) ∧
  (py_eq a a = true → compare a a = Some 0).
Proof.
  unfold compare.
  split; [|split; [|split; [|split; [|split]]]].
  - intros ->. reflexivity.
  - intros Hgt. rewrite Hgt.
    destruct (py_eq a b) eqn:Heq; [|reflexivity].
    rewrite py_eq_sym in Heq. apply py_eq_not_lt in Heq.
    rewrite py_gt_lt in Hgt. congruence.
  - intros Hlt. rewrite Hlt.
    destruct (py_eq a b) eqn:Heq.
    { apply py_eq_not_lt in Heq. congruence. }
    rewrite py_gt_lt, (py_lt_asym a b Hlt). reflexivity.
  - intros -> -> ->. reflexivity.
  - intros x y.
    rewrite (py_eq_sym b a), (py_gt_lt b a), (py_gt_lt a b).
    destruct (py_eq a b).
    { intros [= <-] [= <-]. reflexivity. }
    destruct (py_lt b a) eqn:Hba.
    + rewrite (py_lt_asym b a Hba). intros [= <-] [= <-]. reflexivity.
    + destruct (py_lt a b); [|discriminate].
      intros [= <-] [= <-]. reflexivity.
  - intros ->. reflexivity.
Qed.

(** The float 1.0 and 2.0 are opposite under [compare], in both orders. *)
Lemma compare_spec_witness :
  (compare (of_Z 1) (of_Z 2) = Some (-1) ∧ compare (of_Z 2) (of_Z 1) = Some 1) ∧
  (∀ x y : Z, compare (of_Z 1) (of_Z 2) = Some x →
              compare (of_Z 2) (of_Z 1) = Some y → x = - y) ∧
  compare (of_Z 2) (of_Z 2) = Some 0.
Proof.
  pose proof (compare_spec (of_Z 1) (of_Z 2)) as (_ & _ & H3 & _ & H5 & _).
  pose proof (compare_spec (of_Z 2) (of_Z 1)) as (_ & H2 & _).
  pose proof (compare_spec (of_Z 2) (of_Z 2)) as (_ & _ & _ & _ & _ & H6).
  split; [split|split].
  - apply H3; reflexivity.
  - apply H2; reflexivity.
  - exact H5.
  - apply H6; reflexivity.
Defined.

(** C8 (as stated) fails: a NaN is not equal to itself, so comparing it with
    itself gives the null sentinel, not 0. *)
Lemma compare_nan_nan_counterexample :
  compare nan nan = None ∧ ¬ (∀ a : float64, compare a a = Some 0).
Proof.
  split; [reflexivity|].
  intros H. specialize (H nan). discriminate H.
Qed.

(* ===================================================================== *)
(** ** [as_shape] *)
(* ===================================================================== *)

Section AsShapeFacts.

Lemma len_app {A : Type} (l1 l2 : list A) : len (l1 ++ l2) = len l1 + len l2.
Proof. unfold len. rewrite length_app. lia. Qed.

Lemma len_replicate {A : Type} (k : nat) (v : A) : len (replicate k v) = Z.of_nat k.
Proof. unfold len. now rewrite length_replicate. Qed.

Lemma len_nonneg {A : Type} (l : list A) : 0 ≤ len l.
Proof. unfold len. lia. Qed.

Lemma prefix_refl (s : string) : String.prefix s s = true.
Proof.
  induction s as [|c s IH]; cbn; [reflexivity|].
  destruct (ascii_dec c c); [exact IH | congruence].
Qed.

Lemma contains_suffix (needle p : string) :
  contains needle (p ++ needle) = true.
Proof.
  induction p as [|c p IH]; cbn [String.append].
  - destruct needle; cbn [contains]; rewrite prefix_refl; reflexivity.
  - cbn [contains]. rewrite IH. apply orb_true_r.
Qed.

End AsShapeFacts.

(** C3 (as the code has it): for every iterable [x], [as_shape(x, min_dim)]
    returns the tuple of [x]'s entries, in order and as they are; for every
    single integer [x], the one-element tuple [(x,)].  When that tuple has
    fewer than [min_dim] entries it is left-padded with 1s to exactly
    [min_dim] entries, else it is returned unchanged.  The result holds
    integers whenever the entries are integers. *)
Theorem as_shape_spec (x : pyval) (min_dim : Z) :
  is_iterable x = true ∨ is_integer x = true →
  let entries := if is_iterable x then py_tuple x else [x] in
  ∃ shape,
    as_shape x min_dim = Ok shape ∧
    shape = py_repeat (PyInt 1) (min_dim - len entries) ++ entries ∧
    (min_dim ≤ len entries → shape = entries) ∧
    (len entries < min_dim → len shape = min_dim) ∧
    (Forall is_py_int entries → Forall is_py_int shape).
Proof.
  intros Hx entries.
  assert (Hbase : (if is_iterable x then Ok (py_tuple x)
                   else if is_integer x then Ok [x]
                   else Raise (ValueError
                     (py_repr x ++ " cannot be safely converted to a shape")))
                  = Ok entries).
  { subst entries. destruct (is_iterable x); [reflexivity|].
    destruct Hx as [Hx|Hx]; [discriminate|]. rewrite Hx. reflexivity. }
  unfold as_shape. rewrite Hbase. cbn [mbind result_bind].
  destruct (Z.ltb_spec (len entries) min_dim) as [Hlt|Hge].
  - eexists. split; [reflexivity|]. split; [reflexivity|].
    split; [lia|]. split.
    + intros _. unfold py_repeat. rewrite len_app, len_replicate. lia.
    + intros Hall. apply Forall_app. split; [|exact Hall].
      unfold py_repeat. apply Forall_replicate. now exists 1.
  - assert (Hnil : py_repeat (PyInt 1) (min_dim - len entries) = []).
    { unfold py_repeat. replace (Z.to_nat (min_dim - len entries)) with 0%nat by lia.
      reflexivity. }
    exists entries. rewrite Hnil. repeat split; auto. lia.
Qed.

(** [as_shape([2,3]) == (2,3)], [as_shape(5) == (5,)] and
    [as_shape(5, min_dim=3) == (1,1,5)]. *)
Lemma as_shape_spec_witness :
  as_shape (PyList [PyInt 2; PyInt 3]) 0 = Ok [PyInt 2; PyInt 3] ∧
  as_shape (PyInt 5) 0 = Ok [PyInt 5] ∧
  as_shape (PyInt 5) 3 = Ok [PyInt 1; PyInt 1; PyInt 5].
Proof.
  split; [|split].
  - destruct (as_shape_spec (PyList [PyInt 2; PyInt 3]) 0) as (shape & -> & -> & _).
    + left. reflexivity.
    + reflexivity.
  - destruct (as_shape_spec (PyInt 5) 0) as (shape & -> & -> & _).
    + right. reflexivity.
    + reflexivity.
  - destruct (as_shape_spec (PyInt 5) 3) as (shape & -> & -> & _).
    + right. reflexivity.
    + reflexivity.
Defined.

(** C3 (as stated) fails: the entries of an iterable are not converted, so
    the result of [as_shape([2.5])] is [(2.5,)], which holds no integer. *)
Lemma as_shape_integers_counterexample :
  is_iterable (PyList [PyObject "2.5"]) = true ∧
  as_shape (PyList [PyObject "2.5"]) 0 = Ok [PyObject "2.5"] ∧
  ¬ Forall is_py_int [PyObject "2.5"] ∧
  ¬ (∀ x min_dim, is_iterable x = true →
       ∃ shape, as_shape x min_dim = Ok shape ∧ Forall is_py_int shape).
Proof.
  assert (Hno : ¬ Forall is_py_int [PyObject "2.5"]).
  { intros Hall. apply Forall_cons in Hall as [[z Hz] _]. discriminate Hz. }
  split; [reflexivity|]. split; [reflexivity|]. split; [exact Hno|].
  intros Hclaim.
  destruct (Hclaim (PyList [PyObject "2.5"]) 0 eq_refl) as (shape & Hshape & Hall).
  cbv in Hshape. injection Hshape as <-. exact (Hno Hall).
Qed.

(** C4 (as the code has it): for every [x] that is neither iterable nor an
    integer, [as_shape(x)] raises a [ValueError] (which is not a
    [TypeError]) whose message is the [repr] of [x] followed by
    " cannot be safely converted to a shape". *)
Theorem as_shape_rejects (x : pyval) (min_dim : Z) :
  is_iterable x = false → is_integer x = false →
  ∃ e, as_shape x min_dim = Raise e ∧
       e = ValueError (py_repr x ++ " cannot be safely converted to a shape") ∧
       is_ValueError e = true ∧ is_TypeError e = false ∧
       contains "cannot be safely converted to a shape" (exn_message e) = true.
Proof.
  intros Hit Hint. eexists. unfold as_shape. rewrite Hit, Hint.
  split; [reflexivity|]. split; [reflexivity|].
  split; [reflexivity|]. split; [reflexivity|].
  cbn [exn_message].
  replace (py_repr x ++ " cannot be safely converted to a shape")%string
    with ((py_repr x ++ " ") ++ "cannot be safely converted to a shape")%string.
  - apply contains_suffix.
  - generalize (py_repr x). intros r. induction r as [|c r IH]; cbn; [reflexivity|].
    f_equal. exact IH.
Qed.

(** [as_shape(None)] and [as_shape] of a float. *)
Lemma as_shape_rejects_witness :
  as_shape PyNone 0 = Raise (ValueError "None cannot be safely converted to a shape") ∧
  as_shape (PyObject "2.5") 3 = Raise (ValueError "2.5 cannot be safely converted to a shape").
Proof.
  split.
  - destruct (as_shape_rejects PyNone 0 eq_refl eq_refl) as (e & -> & -> & _).
    reflexivity.
  - destruct (as_shape_rejects (PyObject "2.5") 3 eq_refl eq_refl) as (e & -> & -> & _).
    reflexivity.
Defined.

(** C4 (as stated) fails: the error of [as_shape(None)] is a [ValueError],
    not a [TypeError], and its message does not contain
    "cannot be converted to a shape". *)
Lemma as_shape_error_counterexample :
  ∃ e, as_shape PyNone 0 = Raise e ∧
       is_iterable PyNone = false ∧ is_integer PyNone = false ∧
       is_TypeError e = false ∧
       contains "cannot be converted to a shape" (exn_message e) = false.
Proof. eexists. repeat split. Qed.

(* ===================================================================== *)
(** ** The store *)
(* ===================================================================== *)

Section StoreFacts.

Lemma lookup_snoc {A : Type} (l : list A) (x : A) : (l ++ [x]) !! length l = Some x.
Proof. now apply list_lookup_middle. Qed.

Lemma insert_snoc {A : Type} (l : list A) (x y : A) :
  <[length l := y]> (l ++ [x]) = l ++ [y].
Proof.
  rewrite insert_app_r_alt by lia. now rewrite Nat.sub_diag.
Qed.

Lemma lookup_snoc_old {A : Type} (l : list A) (x y : A) (i : nat) :
  l !! i = Some y → (l ++ [x]) !! i = Some y.
Proof. intros Hi. now apply lookup_app_l_Some. Qed.

Lemma shape_size_app (s1 s2 : list Z) :
  shape_size (s1 ++ s2) = shape_size s1 * shape_size s2.
Proof.
  unfold shape_size. induction s1 as [|d s1 IH]; cbn [app fold_right].
  - lia.
  - rewrite IH. lia.
Qed.

Lemma shape_size_ones (k : nat) : shape_size (replicate k 1) = 1.
Proof.
  unfold shape_size. induction k as [|k IH]; cbn [replicate fold_right]; lia.
Qed.

Lemma assign_prefix_ones (s : list Z) (d : Z) :
  len s < d →
  assign_prefix (len s) s (replicate (Z.to_nat d) 1)
  = Ok (s ++ replicate (Z.to_nat (d - len s)) 1).
Proof.
  intros Hlt. unfold assign_prefix, len in *.
  rewrite Nat2Z.id, take_replicate, drop_replicate, length_replicate.
  replace (length s `min` Z.to_nat d)%nat with (length s) by lia.
  rewrite Z.eqb_refl.
  replace (Z.to_nat d - length s)%nat with (Z.to_nat (d - Z.of_nat (length s))) by lia.
  reflexivity.
Qed.

(** Writing back what is there changes nothing. *)
Lemma put_same (h : heap) (y : addr) (nd : ndarray) :
  arrays h !! y = Some nd →
  {| arrays := <[y := with_writeable (with_shape nd (nd_shape nd)) (nd_writeable nd)]>
                 (arrays h);
     buffers := buffers h |} = h.
Proof.
  intros Hy. destruct h as [arrs bufs], nd as [dt sh da w ba].
  cbn in *. rewrite list_insert_id by exact Hy. reflexivity.
Qed.

End StoreFacts.

(** Runs the primitives of the store monad in the goal. *)
Ltac run_store :=
  cbv beta iota delta [mbind M_bind mret M_ret new_buffer new_array ndim shape_of
                       size_of elements get_array get_buffer lift raise put_array
                       set_shape set_readonly view getitem data_bytes hash_data
                       sample_inds];
  cbn [arrays buffers nd_dtype nd_shape nd_data nd_writeable nd_base].

(* ===================================================================== *)
(** ** [array] *)
(* ===================================================================== *)

Section ArrayFacts.

Context `{NP : NumPy}.

Variables (x : pyarg) (dims : option Z) (min_dims : Z) (readonly : bool)
          (kw : kwargs) (h : heap).

(** [array], once [np.array] has returned. *)
Lemma array_run (h0 : heap) (y : addr) (nd0 : ndarray) :
  np_array x kw h = Ok (y, h0) → arrays h0 !! y = Some nd0 →
  let s := nd_shape nd0 in
  let d := dims_used dims min_dims nd0 in
  array x dims min_dims readonly kw h =
    if len s <? d
    then if d >? NPY_MAXDIMS
         then Raise (ValueError "maximum supported dimension for an ndarray is 32")
         else Ok (y, made readonly h0 y nd0 (s ++ replicate (Z.to_nat (d - len s)) 1))
    else if len s >? d
    then Raise (ValidationError
                  ("Input cannot be cast to array with " ++ fmt_d d ++ " dimensions")
                  "dims")
    else Ok (y, made readonly h0 y nd0 s).
Proof.
  intros Hnp Hy s d.
  assert (Hlt : (y < length (arrays h0))%nat) by (eapply lookup_lt_Some, Hy).
  unfold array. run_store. rewrite Hnp. run_store. rewrite Hy. run_store.
  fold s. change (match dims with
                  | Some d0 => d0
                  | None => Z.max min_dims (len s)
                  end) with d.
  destruct (Z.ltb_spec (len s) d) as [Hsd|Hsd].
  - unfold np_ones. pose proof (len_nonneg s).
    destruct (Z.ltb_spec d 0) as [?|_]; [lia|].
    run_store. rewrite Hy. run_store. fold s.
    rewrite assign_prefix_ones by exact Hsd.
    run_store. rewrite Hy. run_store.
    rewrite len_app, len_replicate.
    replace (len s + Z.of_nat (Z.to_nat (d - len s))) with d by lia.
    destruct (d >? NPY_MAXDIMS); [reflexivity|].
    fold s. rewrite shape_size_app, shape_size_ones, Z.mul_1_r, Z.eqb_refl.
    run_store. unfold made.
    destruct readonly; run_store.
    + rewrite list_lookup_insert_eq by exact Hlt. run_store.
      rewrite list_insert_insert_eq. reflexivity.
    + reflexivity.
  - destruct (Z.gtb_spec (len s) d) as [Hgt|Hle]; [reflexivity|].
    unfold made. destruct readonly; run_store.
    + rewrite Hy. run_store. reflexivity.
    + unfold s. rewrite put_same by exact Hy. reflexivity.
Qed.

(** What [np.array] raises, [array] raises. *)
Lemma array_refused (e : exn) :
  np_array x kw h = Raise e → array x dims min_dims readonly kw h = Raise e.
Proof. intros Hnp. unfold array. run_store. rewrite Hnp. reflexivity. Qed.

(** A call that returns has gone through [np.array], whose object it
    returns with at most [NPY_MAXDIMS] axes when it added some. *)
Lemma array_ok_inv (y : addr) (h' : heap) :
  array x dims min_dims readonly kw h = Ok (y, h') →
  ∃ h0 nd0,
    np_array x kw h = Ok (y, h0) ∧ arrays h0 !! y = Some nd0 ∧
    let s := nd_shape nd0 in
    let d := dims_used dims min_dims nd0 in
    len s ≤ d ∧ (len s < d → d ≤ NPY_MAXDIMS) ∧
    h' = made readonly h0 y nd0 (s ++ replicate (Z.to_nat (d - len s)) 1).
Proof.
  intros Hrun.
  destruct (np_array x kw h) as [[y0 h0]|e] eqn:Hnp.
  - destruct (arrays h0 !! y0) as [nd0|] eqn:Hy.
    + rewrite (array_run h0 y0 nd0 Hnp Hy) in Hrun.
      exists h0, nd0. cbv zeta in *.
      destruct (Z.ltb_spec (len (nd_shape nd0)) (dims_used dims min_dims nd0)) as [Hsd|Hsd].
      * destruct (Z.gtb_spec (dims_used dims min_dims nd0) NPY_MAXDIMS); [discriminate|].
        injection Hrun as <- <-. repeat split; auto; lia.
      * destruct (Z.gtb_spec (len (nd_shape nd0)) (dims_used dims min_dims nd0)); [discriminate|].
        injection Hrun as <- <-.
        replace (Z.to_nat (dims_used dims min_dims nd0 - len (nd_shape nd0))) with 0%nat by lia.
        cbn [replicate]. rewrite app_nil_r. repeat split; auto; lia.
    + exfalso. unfold array in Hrun. revert Hrun. run_store.
      rewrite Hnp. run_store. rewrite Hy. discriminate.
  - rewrite (array_refused e Hnp) in Hrun. discriminate.
Qed.

End ArrayFacts.

Section SampleNumPyFacts.

Import SampleNumPy.

#[export] Instance numpy_laws : NumPyLaws numpy.
Proof.
  split.
  - intros [a|v] kw h y h'; cbn [np_array numpy].
    + unfold array_of_array. run_store.
      destruct (arrays h !! a) as [nd|] eqn:Ha; [|discriminate]. run_store.
      destruct (Z.gtb_spec (len (nd_shape nd)) NPY_MAXDIMS); [discriminate|].
      destruct (kw_copy kw); run_store.
      * destruct (buffers h !! nd_data nd); [|discriminate].
        intros [= <- <-]. eexists. cbn [arrays]. rewrite lookup_snoc.
        split; [reflexivity | assumption].
      * intros [= <- <-]. eauto.
    + unfold array_of_value.
      destruct (discover_shape v) as [shape|]; [|discriminate].
      destruct (Z.gtb_spec (len shape) NPY_MAXDIMS); [discriminate|].
      destruct (mapM int64_cell (flat_items v)) as [cells|]; [|discriminate].
      run_store. intros [= <- <-]. eexists. cbn [arrays]. rewrite lookup_snoc.
      split; [reflexivity | assumption].
Qed.

End SampleNumPyFacts.

(** C1 (as the code has it): with [dims] unspecified, [array(x)] is
    [array(x, dims=max(min_dims, ndim))] for the [ndim] of [np.array(x)];
    and when that [ndim] is less than [dims] and [dims] is at most
    [NPY_MAXDIMS], [array(x, dims)] returns the array that [np.array] made,
    its shape right-padded with 1s to exactly [dims] axes, still on the same
    buffer, whose contents (the elements, in flat order) are unchanged.
    For a greater [dims] the call raises a [ValueError]. *)
Theorem array_pads_shape `{NP : NumPy} (x : pyarg) (min_dims : Z) (readonly : bool)
    (kw : kwargs) (h h0 : heap) (y : addr) (nd0 : ndarray) (items : list cell) :
  np_array x kw h = Ok (y, h0) →
  arrays h0 !! y = Some nd0 →
  buffers h0 !! nd_data nd0 = Some items →
  let s := nd_shape nd0 in
  array x None min_dims readonly kw h
    = array x (Some (Z.max min_dims (len s))) min_dims readonly kw h ∧
  (∀ dims, len s < dims → dims ≤ NPY_MAXDIMS →
    ∃ h' nd',
      array x (Some dims) min_dims readonly kw h = Ok (y, h') ∧
      arrays h' !! y = Some nd' ∧
      nd_shape nd' = s ++ replicate (Z.to_nat (dims - len s)) 1 ∧
      len (nd_shape nd') = dims ∧
      nd_dtype nd' = nd_dtype nd0 ∧
      nd_data nd' = nd_data nd0 ∧
      buffers h' = buffers h0 ∧
      buffers h' !! nd_data nd' = Some items) ∧
  (∀ dims, len s < dims → NPY_MAXDIMS < dims →
    ∃ e, array x (Some dims) min_dims readonly kw h = Raise e ∧
         is_ValueError e = true).
Proof.
  intros Hnp Hy Hitems s.
  assert (Hlt : (y < length (arrays h0))%nat) by (eapply lookup_lt_Some, Hy).
  split; [|split].
  - rewrite !(array_run x _ min_dims readonly kw h h0 y nd0 Hnp Hy). reflexivity.
  - intros dims Hsd Hmax.
    rewrite (array_run x (Some dims) min_dims readonly kw h h0 y nd0 Hnp Hy).
    cbv zeta. cbn [dims_used]. fold s.
    destruct (Z.ltb_spec (len s) dims) as [_|?]; [|lia].
    destruct (Z.gtb_spec dims NPY_MAXDIMS) as [?|_]; [lia|].
    eexists. eexists. split; [reflexivity|].
    unfold made. cbn [arrays buffers].
    rewrite list_lookup_insert_eq by exact Hlt.
    split; [reflexivity|]. cbn [nd_shape nd_dtype nd_data with_shape with_writeable].
    split; [reflexivity|]. split.
    { rewrite len_app, len_replicate. lia. }
    repeat split; auto.
  - intros dims Hsd Hmax.
    rewrite (array_run x (Some dims) min_dims readonly kw h h0 y nd0 Hnp Hy).
    cbv zeta. cbn [dims_used]. fold s.
    destruct (Z.ltb_spec (len s) dims) as [_|?]; [|lia].
    destruct (Z.gtb_spec dims NPY_MAXDIMS) as [_|?]; [|lia].
    eexists. split; reflexivity.
Qed.

Section ArrayExamples.

Import SampleNumPy.

(** [array([1,2,3], dims=2)] has shape (3, 1) and the elements 1, 2, 3. *)
Lemma array_pads_shape_witness :
  ∃ h' nd',
    array (Plain list_123) (Some 2) 0 false no_keywords empty_heap = Ok (0%nat, h') ∧
    arrays h' !! 0%nat = Some nd' ∧
    nd_shape nd' = [3; 1] ∧
    buffers h' !! nd_data nd' = Some [CInt 1; CInt 2; CInt 3].
Proof.
  destruct (array_pads_shape (NP := numpy) (Plain list_123) 0 false no_keywords
              empty_heap _ 0%nat _ _
              eq_refl eq_refl eq_refl) as (_ & Hpad & _).
  destruct (Hpad 2 ltac:(vm_compute; reflexivity) ltac:(vm_compute; discriminate))
    as (h' & nd' & Hrun & Hy & Hshape & _ & _ & _ & _ & Hitems).
  exists h', nd'. repeat split; assumption.
Defined.

(** C1 (as stated) fails: NumPy gives an array at most [NPY_MAXDIMS] axes,
    so [array([1,2,3], dims=33)] raises a [ValueError] where the claim has a
    shape padded to 33 axes. *)
Lemma array_pads_shape_counterexample :
  array (Plain list_123) (Some 33) 0 false no_keywords empty_heap
    = Raise (ValueError "maximum supported dimension for an ndarray is 32") ∧
  ¬ (∀ dims, 1 < dims →
       ∃ y h', array (Plain list_123) (Some dims) 0 false no_keywords empty_heap
               = Ok (y, h')).
Proof.
  assert (Hrun : array (Plain list_123) (Some 33) 0 false no_keywords empty_heap
                 = Raise (ValueError "maximum supported dimension for an ndarray is 32"))
    by (vm_compute; reflexivity).
  split; [exact Hrun|].
  intros Hclaim. destruct (Hclaim 33 ltac:(lia)) as (y & h' & Hok).
  rewrite Hrun in Hok. discriminate.
Qed.

End ArrayExamples.

(** C2: when the [ndim] of [np.array(x)] exceeds the requested [dims],
    [array(x, dims)] raises a [ValidationError] whose [attr] is 'dims'; the
    call returns no array. *)
Theorem array_rejects_low_dims `{NP : NumPy} (x : pyarg) (dims min_dims : Z)
    (readonly : bool) (kw : kwargs) (h h0 : heap) (y : addr) (nd0 : ndarray) :
  np_array x kw h = Ok (y, h0) →
  arrays h0 !! y = Some nd0 →
  dims < len (nd_shape nd0) →
  array x (Some dims) min_dims readonly kw h
    = Raise (ValidationError
               ("Input cannot be cast to array with " ++ fmt_d dims ++ " dimensions")
               "dims") ∧
  ∀ r, array x (Some dims) min_dims readonly kw h ≠ Ok r.
Proof.
  intros Hnp Hy Hlt.
  rewrite (array_run x (Some dims) min_dims readonly kw h h0 y nd0 Hnp Hy).
  cbv zeta. cbn [dims_used].
  destruct (Z.ltb_spec (len (nd_shape nd0)) dims) as [?|_]; [lia|].
  destruct (Z.gtb_spec (len (nd_shape nd0)) dims) as [_|?]; [|lia].
  split; [reflexivity | discriminate].
Qed.

Section ArrayRejectsExample.

Import SampleNumPy.

(** [array([1,2,3], dims=0)] raises. *)
Lemma array_rejects_low_dims_witness :
  array (Plain list_123) (Some 0) 0 false no_keywords empty_heap
  = Raise (ValidationError "Input cannot be cast to array with 0 dimensions" "dims").
Proof.
  apply (array_rejects_low_dims (NP := numpy) (Plain list_123) 0 0 false no_keywords
           empty_heap
           _ 0%nat _ eq_refl eq_refl).
  vm_compute. reflexivity.
Defined.

End ArrayRejectsExample.

(** C9: with [dims] unspecified, [array(x)] never raises the
    [ValidationError] of its own: the [dims] it uses is [max(min_dims, ndim)],
    which is at least [ndim], so that a call that ends in a [ValidationError]
    got it from [np.array], which then did not accept [x].  Every input that
    [np.array] accepts gives an array, of [max(min_dims, ndim)] axes, when
    that number is at most [NPY_MAXDIMS]; when it is greater, the error is
    a [ValueError]. *)
Theorem array_default_dims_safe `{NP : NumPy} `{!NumPyLaws NP} (x : pyarg)
    (min_dims : Z) (readonly : bool) (kw : kwargs) (h : heap) :
  (∀ msg attr,
     array x None min_dims readonly kw h = Raise (ValidationError msg attr) →
     np_array x kw h = Raise (ValidationError msg attr)) ∧
  (∀ y h0, np_array x kw h = Ok (y, h0) →
     ∀ msg attr,
       array x None min_dims readonly kw h ≠ Raise (ValidationError msg attr)) ∧
  (∀ y h0 nd0,
     np_array x kw h = Ok (y, h0) → arrays h0 !! y = Some nd0 →
     let d := Z.max min_dims (len (nd_shape nd0)) in
     len (nd_shape nd0) ≤ d ∧
     (d ≤ NPY_MAXDIMS →
      ∃ h' nd',
        array x None min_dims readonly kw h = Ok (y, h') ∧
        arrays h' !! y = Some nd' ∧
        len (nd_shape nd') = d) ∧
     (NPY_MAXDIMS < d →
      ∃ e, array x None min_dims readonly kw h = Raise e ∧
           is_ValueError e = true)).
Proof.
  assert (Hown : ∀ y h0 msg attr,
             np_array x kw h = Ok (y, h0) →
             array x None min_dims readonly kw h ≠ Raise (ValidationError msg attr)).
  { intros y h0 msg attr Hnp.
    destruct (np_array_returns _ _ _ _ _ Hnp) as (nd0 & Hy & _).
    rewrite (array_run x None min_dims readonly kw h h0 y nd0 Hnp Hy).
    cbv zeta. cbn [dims_used].
    destruct (Z.ltb_spec (len (nd_shape nd0)) (Z.max min_dims (len (nd_shape nd0)))).
    - destruct (_ >? NPY_MAXDIMS); discriminate.
    - destruct (Z.gtb_spec (len (nd_shape nd0))
                  (Z.max min_dims (len (nd_shape nd0)))); [lia | discriminate]. }
  split; [|split].
  - intros msg attr Hrun.
    destruct (np_array x kw h) as [[y h0]|e] eqn:Hnp.
    + exfalso. exact (Hown y h0 msg attr eq_refl Hrun).
    + rewrite (array_refused x None min_dims readonly kw h e Hnp) in Hrun.
      exact Hrun.
  - intros y h0 Hnp msg attr. exact (Hown y h0 msg attr Hnp).
  - intros y h0 nd0 Hnp Hy d.
    assert (Hlt : (y < length (arrays h0))%nat) by (eapply lookup_lt_Some, Hy).
    destruct (np_array_returns _ _ _ _ _ Hnp) as (nd0' & Hy' & Hmax).
    rewrite Hy in Hy'. injection Hy' as <-.
    rewrite (array_run x None min_dims readonly kw h h0 y nd0 Hnp Hy).
    cbv zeta. cbn [dims_used]. fold d. set (s := nd_shape nd0) in *.
    split; [lia|]. split.
    + intros Hd.
      destruct (Z.ltb_spec (len s) d) as [Hsd|Hsd].
      * destruct (Z.gtb_spec d NPY_MAXDIMS) as [?|_]; [lia|].
        eexists. eexists. split; [reflexivity|].
        unfold made. cbn [arrays]. rewrite list_lookup_insert_eq by exact Hlt.
        split; [reflexivity|].
        cbn [nd_shape with_shape with_writeable].
        rewrite len_app, len_replicate. lia.
      * destruct (Z.gtb_spec (len s) d); [lia|].
        eexists. eexists. split; [reflexivity|].
        unfold made. cbn [arrays]. rewrite list_lookup_insert_eq by exact Hlt.
        split; [reflexivity|].
        cbn [nd_shape with_shape with_writeable]. lia.
    + intros Hd.
      destruct (Z.ltb_spec (len s) d) as [Hsd|Hsd]; [|lia].
      destruct (Z.gtb_spec d NPY_MAXDIMS) as [_|?]; [|lia].
      eexists. split; reflexivity.
Qed.

Section ArrayDefaultExample.

Import SampleNumPy.

(** [array([1,2,3], min_dims=4)] returns an array of four axes. *)
Lemma array_default_dims_safe_witness :
  ∃ h' nd',
    array (Plain list_123) None 4 true no_keywords empty_heap = Ok (0%nat, h') ∧
    arrays h' !! 0%nat = Some nd' ∧ len (nd_shape nd') = 4.
Proof.
  destruct (array_default_dims_safe (NP := numpy) (Plain list_123) 4 true no_keywords
              empty_heap)
    as (_ & _ & Hok).
  destruct (Hok 0%nat _ _ eq_refl eq_refl) as (_ & Hret & _).
  destruct Hret as (h' & nd' & Hrun & Hy & Hlen); [vm_compute; discriminate|].
  exists h', nd'. auto.
Defined.

End ArrayDefaultExample.

(* ===================================================================== *)
(** ** [array_hash] *)
(* ===================================================================== *)

Section ArrayHashFacts.

Context `{RT : Runtime}.

Lemma array_hash_run (a : addr) (n : Z) (h : heap) :
  array_hash (NdArray a) n h =
  match arrays h !! a with
  | None => Raise (IndexError "no such array object")
  | Some nd =>
      if shape_size (nd_shape nd) <? n then
        match buffers h !! nd_data nd with
        | None => Raise (IndexError "no such buffer")
        | Some items =>
            Ok (hash_of_cells items,
                {| arrays := arrays h ++ [hashed_view a nd];
                   buffers := buffers h |})
        end
      else
        match sampled_inds (nd_shape nd) n with
        | Raise e => Raise e
        | Ok inds =>
            match buffers h !! nd_data nd with
            | None => Raise (IndexError "no such buffer")
            | Some items =>
                match index_list (nd_shape nd) items inds with
                | Raise e => Raise e
                | Ok (shape, picked) =>
                    Ok (hash_of_cells picked,
                        {| arrays := arrays h ++
                             [hashed_picks nd shape (length (buffers h))];
                           buffers := buffers h ++ [picked] |})
                end
            end
        end
  end.
Proof.
  unfold array_hash. run_store.
  destruct (arrays h !! a) as [nd|] eqn:Ha; [|reflexivity].
  run_store. destruct (shape_size (nd_shape nd) <? n).
  - rewrite Ha. run_store. rewrite lookup_snoc. run_store.
    rewrite insert_snoc, lookup_snoc. run_store.
    destruct (buffers h !! nd_data nd) as [items|]; reflexivity.
  - rewrite Ha. run_store. unfold sampled_inds.
    destruct (RandomState (shape_size (nd_shape nd))) as [rng|e]; [|reflexivity].
    cbn [mbind result_bind]. run_store. rewrite Ha. run_store.
    destruct (draw_inds rng (nd_shape nd) n) as [inds|e]; [|reflexivity].
    rewrite Ha. run_store.
    destruct (buffers h !! nd_data nd) as [items|]; [|reflexivity].
    destruct (index_list (nd_shape nd) items inds) as [[shape picked]|e];
      [|reflexivity].
    run_store. rewrite lookup_snoc. run_store.
    rewrite insert_snoc, lookup_snoc. run_store.
    rewrite lookup_snoc. reflexivity.
Qed.

(** What the caller sees of [array_hash] on an array. *)
Lemma array_hash_outcome (a : addr) (n : Z) (h : heap) (nd : ndarray)
      (items : list cell) :
  arrays h !! a = Some nd → buffers h !! nd_data nd = Some items →
  outcome (array_hash (NdArray a) n h) =
  if shape_size (nd_shape nd) <? n
  then Ok (hash_of_cells items)
  else inds ← sampled_inds (nd_shape nd) n;
       '(_, picked) ← index_list (nd_shape nd) items inds;
       Ok (hash_of_cells picked).
Proof.
  intros Ha Hb. rewrite array_hash_run, Ha, Hb.
  destruct (shape_size (nd_shape nd) <? n); [reflexivity|].
  destruct (sampled_inds (nd_shape nd) n) as [inds|e]; [|reflexivity].
  cbn [mbind result_bind].
  destruct (index_list (nd_shape nd) items inds) as [[shape picked]|e]; reflexivity.
Qed.

Lemma sample_inds_run (a : addr) (n : Z) (h : heap) (nd : ndarray) :
  arrays h !! a = Some nd →
  outcome (sample_inds a n h) = sampled_inds (nd_shape nd) n.
Proof.
  intros Ha. unfold sampled_inds. run_store. rewrite Ha. run_store.
  destruct (RandomState (shape_size (nd_shape nd))) as [rng|e]; [|reflexivity].
  cbn [mbind result_bind]. rewrite Ha.
  destruct (draw_inds rng (nd_shape nd) n); reflexivity.
Qed.

(** *** The reading [a[tuple(inds)]] *)

Lemma picks_length (shape : list Z) (items : list cell) (inds : list (list Z)) :
  ∀ ks picked, picks shape items inds ks = Ok picked → length picked = length ks.
Proof.
  induction ks as [|k ks IH]; intros picked; cbn [picks].
  - intros [= <-]. reflexivity.
  - destruct (pick shape items inds k) as [v|e]; [|discriminate].
    cbn [mbind result_bind].
    destruct (picks shape items inds ks) as [vs|e]; [|discriminate].
    cbn [mbind result_bind]. intros [= <-]. cbn. f_equal. now apply IH.
Qed.

Lemma index_at_ok (n : Z) (k : nat) (shape : list Z) (inds : list (list Z)) :
  Forall2 (drawn_for n) shape inds → Z.of_nat k < n →
  ∃ index, index_at inds k = Ok index ∧
           Forall2 (fun d i => 0 ≤ i < d) shape index.
Proof.
  intros Hall Hk. unfold index_at.
  enough (∃ index, mapM (fun ind : list Z => ind !! k) inds = Some index ∧
                   Forall2 (fun d i => 0 ≤ i < d) shape index)
    as (index & -> & Hin) by eauto.
  induction Hall as [|d ind shape inds [Hlen Hrange] _ (index & Hmap & Hin)].
  - exists []. split; [reflexivity | constructor].
  - destruct (lookup_lt_is_Some_2 ind k) as [i Hi]; [unfold len in Hlen; lia|].
    exists (i :: index). cbn [mapM]. rewrite Hi, Hmap. split; [reflexivity|].
    constructor; [|exact Hin].
    exact (proj1 (Forall_lookup _ _) Hrange k i Hi).
Qed.

Lemma ravel_index_ok (shape index : list Z) :
  Forall2 (fun d i => 0 ≤ i < d) shape index →
  ∀ acc, 0 ≤ acc →
    ∃ pos, ravel_index shape index acc = Ok pos ∧
           acc * shape_size shape ≤ pos < (acc + 1) * shape_size shape.
Proof.
  induction 1 as [|d i shape index Hi _ IH]; intros acc Hacc.
  - exists acc. split; [reflexivity|]. unfold shape_size. cbn. lia.
  - cbn [ravel_index].
    destruct (Z.leb_spec (- d) i); [|lia].
    destruct (Z.ltb_spec i d); [|lia].
    destruct (Z.ltb_spec i 0); [lia|]. cbn [andb].
    destruct (IH (acc * d + i)) as (pos & -> & Hpos); [nia|].
    exists pos. split; [reflexivity|].
    unfold shape_size in *. cbn [fold_right].
    set (S' := fold_right Z.mul 1 shape) in *. nia.
Qed.

Lemma picks_ok (n : Z) (shape : list Z) (items : list cell)
      (inds : list (list Z)) (ks : list nat) :
  Forall2 (drawn_for n) shape inds → len items = shape_size shape →
  Forall (fun k => Z.of_nat k < n) ks →
  ∃ picked, picks shape items inds ks = Ok picked ∧ length picked = length ks.
Proof.
  intros Hall Hwf. induction 1 as [|k ks Hk _ (picked & Hpicks & Hlen)].
  - exists []. split; reflexivity.
  - destruct (index_at_ok n k shape inds Hall Hk) as (index & Hindex & Hin).
    destruct (ravel_index_ok shape index Hin 0) as (pos & Hpos & Hrange); [lia|].
    destruct (lookup_lt_is_Some_2 items (Z.to_nat pos)) as [v Hv].
    { unfold len in Hwf. lia. }
    exists (v :: picked). cbn [picks]. unfold pick.
    rewrite Hindex. cbn [mbind result_bind]. rewrite Hpos.
    cbn [mbind result_bind]. rewrite Hv, Hpicks. cbn [mbind result_bind].
    split; [reflexivity|]. cbn [length]. now rewrite Hlen.
Qed.

(** On an array with at least one axis whose buffer holds as many items
    as its shape says, one index array per axis picks [n] elements. *)
Lemma gather_ok (n : Z) (shape : list Z) (items : list cell)
      (inds : list (list Z)) :
  shape ≠ [] → len items = shape_size shape →
  Forall2 (drawn_for n) shape inds →
  ∃ picked, gather shape items inds = Ok picked ∧ len picked = n.
Proof.
  intros Hnd Hwf Hall.
  destruct Hall as [|d ind shape inds [Hlen Hrange] Hall]; [congruence|].
  assert (Hall' : Forall2 (drawn_for n) (d :: shape) (ind :: inds))
    by (constructor; [split|]; assumption).
  destruct (picks_ok n (d :: shape) items (ind :: inds) (seq 0 (length ind))
              Hall' Hwf) as (picked & Hpicks & Hplen).
  - apply Forall_forall. intros k Hk. apply elem_of_seq in Hk.
    unfold len in Hlen. lia.
  - exists picked. cbn [gather]. split; [exact Hpicks|].
    unfold len in *. rewrite Hplen, length_seq. exact Hlen.
Qed.

Lemma gather_length (n : Z) (shape : list Z) (items picked : list cell)
      (inds : list (list Z)) :
  Forall2 (drawn_for n) shape inds →
  gather shape items inds = Ok picked → len picked = n.
Proof.
  intros Hall Hg. unfold gather in Hg.
  destruct Hall as [|d ind shape inds [Hlen _] _]; [discriminate|].
  apply picks_length in Hg. unfold len in *. rewrite Hg, length_seq. exact Hlen.
Qed.

(** *** The reading [a[np.array(inds)]] *)

(** The index arrays drawn make an index array of [ndim] rows of [n]
    items. *)
Lemma index_array_drawn (n : Z) (shape : list Z) (inds : list (list Z)) :
  shape ≠ [] → Forall2 (drawn_for n) shape inds →
  index_array inds = Ok ([len shape; n], concat inds) ∧
  len (concat inds) = len shape * n.
Proof.
  intros Hnd Hall.
  assert (Hlens : Forall (fun ind => len ind = n) inds).
  { clear Hnd. induction Hall as [|d ind shape inds [Hlen _] _ IH]; constructor; auto. }
  assert (Hsame : len inds = len shape).
  { unfold len. now rewrite (Forall2_length _ _ _ Hall). }
  split.
  - destruct Hall as [|d ind shape inds [Hlen _] Hall]; [congruence|].
    unfold index_array. apply Forall_cons in Hlens as [_ Hlens].
    replace (forallb _ inds) with true.
    + rewrite Hsame, Hlen. reflexivity.
    + symmetry. apply forallb_forall. intros ind' Hin.
      apply bool_decide_eq_true. apply list_elem_of_In in Hin.
      pose proof (proj1 (Forall_forall _ _) Hlens ind' Hin) as Hl.
      unfold len in *. lia.
  - rewrite <- Hsame. clear Hall Hsame Hnd.
    induction Hlens as [|ind inds Hl _ IH]; [reflexivity|].
    cbn [concat]. rewrite len_app, IH, Hl. unfold len. cbn [length]. lia.
Qed.

(** Every index drawn lies within its own axis. *)
Lemma drawn_within (n : Z) (shape : list Z) (inds : list (list Z)) (bound : Z) :
  Forall2 (drawn_for n) shape inds → Forall (fun d => d ≤ bound) shape →
  Forall (fun j => 0 ≤ j < bound) (concat inds).
Proof.
  induction 1 as [|d ind shape inds [_ Hrange] _ IH]; intros Hb; [constructor|].
  apply Forall_cons in Hb as [Hd Hb]. cbn [concat]. apply Forall_app. split.
  - eapply Forall_impl; [exact Hrange|]. cbn. intros j Hj. lia.
  - now apply IH.
Qed.

Lemma row_ok (d : Z) (rest : list Z) (items : list cell) (j : Z) :
  0 ≤ j < d → len items = d * shape_size rest →
  ∃ r, row d rest items j = Ok r ∧ len r = shape_size rest.
Proof.
  intros Hj Hwf. unfold row.
  destruct (Z.leb_spec (- d) j); [|lia]. destruct (Z.ltb_spec j d); [|lia].
  destruct (Z.ltb_spec j 0); [lia|]. cbn [andb].
  eexists. split; [reflexivity|].
  assert (HS : 0 ≤ shape_size rest) by (pose proof (len_nonneg items); nia).
  unfold len in *. rewrite length_take, length_drop. nia.
Qed.

(** Indices within the first axis take as many rows as there are
    indices. *)
Lemma rows_ok (d : Z) (rest : list Z) (items : list cell) (index : list Z) :
  Forall (fun j => 0 ≤ j < d) index → len items = d * shape_size rest →
  ∃ picked, rows d rest items index = Ok picked ∧
            len picked = len index * shape_size rest.
Proof.
  intros Hall Hwf. induction Hall as [|j index Hj _ (picked & Hrows & Hlen)].
  - exists []. split; [reflexivity|]. unfold len. cbn. lia.
  - destruct (row_ok d rest items j Hj Hwf) as (r & Hr & Hrl).
    exists (r ++ picked). cbn [rows]. rewrite Hr, Hrows.
    split; [reflexivity|]. rewrite len_app, Hrl, Hlen. unfold len. cbn [length]. lia.
Qed.

(** The indices that [rows] takes lie within the first axis. *)
Lemma rows_within (d : Z) (rest : list Z) (items picked : list cell) (index : list Z) :
  rows d rest items index = Ok picked → Forall (fun j => 0 ≤ j) index →
  Forall (fun j => 0 ≤ j < d) index.
Proof.
  revert picked. induction index as [|j index IH]; intros picked; [constructor|].
  cbn [rows]. unfold row at 1.
  destruct (Z.leb_spec (- d) j); destruct (Z.ltb_spec j d);
    cbn [andb mbind result_bind]; try discriminate.
  destruct (rows d rest items index) as [rs|e]; [|discriminate].
  intros _ Hpos. apply Forall_cons in Hpos as [Hj Hpos].
  constructor; [lia | now apply (IH rs)].
Qed.

Lemma drawn_nonneg (n : Z) (shape : list Z) (inds : list (list Z)) :
  Forall2 (drawn_for n) shape inds → Forall (fun j => 0 ≤ j) (concat inds).
Proof.
  induction 1 as [|d ind shape inds [_ Hrange] _ IH]; [constructor|].
  cbn [concat]. apply Forall_app. split; [|exact IH].
  eapply Forall_impl; [exact Hrange|]. cbn. intros j Hj. lia.
Qed.

(** An index beyond the first axis is refused. *)
Lemma rows_raise (d : Z) (rest : list Z) (items : list cell) (index : list Z) :
  Forall (fun j => 0 ≤ j) index → Exists (fun j => d ≤ j) index →
  ∃ e, rows d rest items index = Raise e ∧ is_IndexError e = true.
Proof.
  intros Hpos Hex. induction Hex as [j index Hj|j index _ IH].
  - cbn [rows]. unfold row.
    destruct (Z.ltb_spec j d); [lia|]. rewrite andb_false_r.
    eexists. split; reflexivity.
  - apply Forall_cons in Hpos as [Hj Hpos]. destruct (IH Hpos) as (e & He & Hie).
    cbn [rows]. destruct (row d rest items j) as [r|e'] eqn:Hrow;
      cbn [mbind result_bind].
    + rewrite He. eauto.
    + exists e'. split; [reflexivity|]. unfold row in Hrow.
      destruct ((- d <=? j) && (j <? d)); [discriminate|].
      injection Hrow as <-. reflexivity.
Qed.

End ArrayHashFacts.

Section SampleRuntimeFacts.

Import SampleRuntime.

Lemma draws_spec (low high : Z) (k : nat) :
  low < high →
  ∀ g, length (draws g low high k).1 = k ∧
       Forall (fun i => low ≤ i < high) (draws g low high k).1.
Proof.
  intros Hlh. induction k as [|k IH]; intros g; cbn [draws].
  - split; [reflexivity | constructor].
  - destruct (draws (next g) low high k) as [l g2] eqn:Hd.
    specialize (IH (next g)). rewrite Hd in IH. cbn [fst] in *.
    destruct IH as [Hlen Hall]. split; [cbn; now rewrite Hlen|].
    constructor; [|exact Hall].
    pose proof (Z.mod_pos_bound (next g) (high - low)). lia.
Qed.

Lemma runtime_with_laws (as_tuple : bool) : RuntimeLaws (runtime_with as_tuple).
Proof.
  split. intros g low high n l g'. cbn. unfold lcg_randint.
  destruct (Z.ltb_spec n 0); [discriminate|].
  destruct (Z.leb_spec high low); [discriminate|]. cbn [orb].
  intros [= Hd].
  destruct (draws_spec low high (Z.to_nat n) ltac:(lia) g) as [Hlen Hall].
  rewrite Hd in Hlen, Hall. cbn [fst] in *. unfold len. split; [lia | exact Hall].
Qed.

#[export] Instance runtime_laws : RuntimeLaws runtime := runtime_with_laws false.

#[export] Instance legacy_runtime_laws : RuntimeLaws legacy_runtime :=
  runtime_with_laws true.

End SampleRuntimeFacts.

Section DrawFacts.

Context `{RT : Runtime} `{!RuntimeLaws RT}.

Lemma draw_inds_spec (n : Z) (shape : list Z) :
  ∀ rng inds, draw_inds rng shape n = Ok inds →
              Forall2 (drawn_for n) shape inds.
Proof.
  induction shape as [|d shape IH]; intros rng inds; cbn [draw_inds].
  - intros [= <-]. constructor.
  - destruct (randint rng 0 d n) as [[ind rng']|e] eqn:Hr; [|discriminate].
    cbn [mbind result_bind].
    destruct (draw_inds rng' shape n) as [inds'|e] eqn:Hd; [|discriminate].
    cbn [mbind result_bind]. intros [= <-].
    constructor; [|now apply (IH rng')].
    apply randint_spec in Hr. exact Hr.
Qed.

Lemma sampled_inds_spec (n : Z) (shape : list Z) (inds : list (list Z)) :
  sampled_inds shape n = Ok inds → Forall2 (drawn_for n) shape inds.
Proof.
  unfold sampled_inds.
  destruct (RandomState (shape_size shape)) as [rng|e]; [|discriminate].
  cbn [mbind result_bind]. apply draw_inds_spec.
Qed.

End DrawFacts.


Section ArrayHashDeterministicExample.

Import SampleRuntime.



End ArrayHashDeterministicExample.

(** C10: [array_hash] leaves its argument as it was: when the call returns,
    the object [a] has the flags (the writeable flag among them) and the
    buffer it had, and the buffer holds the elements it held.  The store
    after the call is the store before it with one object more, which is
    not [a] and on which the read-only flag is set; every other object and
    every buffer is unchanged. *)
Theorem array_hash_frame `{RT : Runtime} (a : addr) (n : Z) (h h' : heap) (v : Z) :
  array_hash (NdArray a) n h = Ok (v, h') →
  ∃ nd items vnd,
    arrays h !! a = Some nd ∧ buffers h !! nd_data nd = Some items ∧
    arrays h' !! a = Some nd ∧ buffers h' !! nd_data nd = Some items ∧
    arrays h' = arrays h ++ [vnd] ∧ nd_writeable vnd = false ∧
    a ≠ length (arrays h) ∧
    (∀ b nd_b, arrays h !! b = Some nd_b → arrays h' !! b = Some nd_b) ∧
    (∀ b items_b, buffers h !! b = Some items_b → buffers h' !! b = Some items_b).
Proof.
  rewrite array_hash_run.
  destruct (arrays h !! a) as [nd|] eqn:Ha; [|discriminate].
  assert (Hfresh : a ≠ length (arrays h)).
  { apply lookup_lt_Some in Ha. lia. }
  destruct (shape_size (nd_shape nd) <? n).
  - destruct (buffers h !! nd_data nd) as [items|] eqn:Hb; [|discriminate].
    intros [= <- <-]. exists nd, items, (hashed_view a nd). cbn [arrays buffers].
    repeat split; auto using lookup_snoc_old.
  - destruct (sampled_inds (nd_shape nd) n) as [inds|e]; [|discriminate].
    destruct (buffers h !! nd_data nd) as [items|] eqn:Hb; [|discriminate].
    destruct (index_list (nd_shape nd) items inds) as [[shape picked]|e];
      [|discriminate].
    intros [= <- <-].
    exists nd, items, (hashed_picks nd shape (length (buffers h))).
    cbn [arrays buffers]. repeat split; auto using lookup_snoc_old.
Qed.

Section ArrayHashFrameExample.

Import SampleRuntime.

(** After hashing a writeable array, with the threshold above its size
    (the array of [store_one]) and with the threshold 4 (the array of
    [store_tall]), the array is still writeable and holds the same
    elements. *)
Lemma array_hash_frame_witness :
  (∃ v h', array_hash (NdArray 0%nat) 100 store_one = Ok (v, h') ∧
           (∃ nd, arrays h' !! 0%nat = Some nd ∧ nd_writeable nd = true) ∧
           buffers h' !! 0%nat = buffers store_one !! 0%nat) ∧
  (∃ v h', array_hash (NdArray 0%nat) 4 store_tall = Ok (v, h') ∧
           (∃ nd, arrays h' !! 0%nat = Some nd ∧ nd_writeable nd = true) ∧
           buffers h' !! 0%nat = buffers store_tall !! 0%nat).
Proof.
  assert (Hsmall : ∃ v h', array_hash (NdArray 0%nat) 100 store_one = Ok (v, h'))
    by (eexists; eexists; vm_compute; reflexivity).
  assert (Hlarge : ∃ v h', array_hash (NdArray 0%nat) 4 store_tall = Ok (v, h'))
    by (eexists; eexists; vm_compute; reflexivity).
  destruct Hsmall as (v1 & h1 & Hrun1), Hlarge as (v2 & h2 & Hrun2).
  split.
  - exists v1, h1. split; [exact Hrun1|].
    destruct (array_hash_frame 0%nat 100 store_one h1 v1 Hrun1)
      as (nd & items & vnd & Ha & Hb & Ha' & Hb' & _).
    injection Ha as <-. cbn [nd_data] in Hb, Hb'. rewrite Hb', Hb.
    split; [eexists; split; [exact Ha' | reflexivity] | reflexivity].
  - exists v2, h2. split; [exact Hrun2|].
    destruct (array_hash_frame 0%nat 4 store_tall h2 v2 Hrun2)
      as (nd & items & vnd & Ha & Hb & Ha' & Hb' & _).
    injection Ha as <-. cbn [nd_data] in Hb, Hb'. rewrite Hb', Hb.
    split; [eexists; split; [exact Ha' | reflexivity] | reflexivity].
Defined.

End ArrayHashFrameExample.

(* ===================================================================== *)
(** ** [rms] and [rmse] *)
(* ===================================================================== *)

Section RmsFacts.

Context {A : Type} `{ArrayOps A}.

Lemma rmse_unfold (x y : A) (axis : axis_arg) (keepdims : bool) :
  rmse x y axis keepdims = (d ← np_subtract x y; rms d axis keepdims).
Proof. reflexivity. Qed.

Lemma rmse_rmse_spec (x y : A) (axis : axis_arg) (keepdims : bool) :
  rmse x y axis keepdims = rmse_spec x y axis keepdims.
Proof.
  unfold rmse, rmse_spec, rms. destruct (np_subtract x y); reflexivity.
Qed.

End RmsFacts.

Lemma subtract_broadcastable `{Summation} (x y : FloatArray.farray) :
  FloatArray.broadcastable x y ↔ ∃ d, np_subtract x y = Ok d.
Proof.
  unfold FloatArray.broadcastable. cbn. unfold FloatArray.subtract.
  destruct (FloatArray.broadcast_shapes _ _) as [out|].
  - split; eauto.
  - split; [intros [? [=]] | intros [? [=]]].
Qed.

(** The error of the array [[1., 2., 3.]] against itself, in whatever
    order NumPy adds. *)
Lemma rmse_vector_123 `{S : Summation} `{!SummationLaws S} :
  rmse vector_123 vector_123 AxisNone false = Ok (FloatArray.scalar zero).
Proof.
  unfold rmse, rms.
  change (np_subtract vector_123 vector_123)
    with (FloatArray.subtract vector_123 vector_123).
  replace (FloatArray.subtract vector_123 vector_123)
    with (Ok (FloatArray.vector [zero; zero; zero])) by (vm_compute; reflexivity).
  cbn [mbind result_bind np_square np_mean np_sqrt FloatArray.ops].
  replace (FloatArray.square (FloatArray.vector [zero; zero; zero]))
    with (Ok (FloatArray.vector [zero; zero; zero])) by (vm_compute; reflexivity).
  cbn [mbind result_bind]. unfold FloatArray.mean, FloatArray.add_reduce.
  cbn [FloatArray.vector FloatArray.fa_shape FloatArray.fa_data length
       FloatArray.reduced_axes seq mbind result_bind].
  replace (FloatArray.size (FloatArray.collapse [0%nat] 1%nat [3%nat])) with 1%nat
    by reflexivity.
  cbn [seq map]. rewrite reduce_add_zeros.
  - vm_compute. reflexivity.
  - vm_compute. repeat constructor.
Qed.

(** C6: [rmse(x, y, axis, keepdims)] is [rms(x - y, axis, keepdims)]: the
    difference is taken first, with whatever it raises, then the root of the
    mean of its squares, for any operands and any [axis] and [keepdims].  On
    arrays of floats, [x - y] is defined exactly when the shapes broadcast,
    and [rmse] of the array [[1., 2., 3.]] and itself is 0.0.  On two
    Python sequences, which the docstring admits as array_like, the
    difference raises a [TypeError]: so does [rmse([1,2,3], [1,2,3])]. *)
Theorem rmse_is_rms_of_difference :
  (∀ (A : Type) (ops : ArrayOps A) (x y : A) (axis : axis_arg) (keepdims : bool),
     rmse x y axis keepdims = (d ← np_subtract x y; rms d axis keepdims) ∧
     rmse x y axis keepdims = rmse_spec x y axis keepdims ∧
     (∀ d, np_subtract x y = Ok d → rmse x y axis keepdims = rms d axis keepdims) ∧
     (∀ e, np_subtract x y = Raise e → rmse x y axis keepdims = Raise e)) ∧
  (∀ (S : Summation) (x y : FloatArray.farray) (axis : axis_arg) (keepdims : bool),
     FloatArray.broadcastable x y →
     ∃ d, np_subtract x y = Ok d ∧ rmse x y axis keepdims = rms d axis keepdims) ∧
  (∀ (S : Summation), SummationLaws S →
     rmse vector_123 vector_123 AxisNone false = Ok (FloatArray.scalar zero)) ∧
  (∀ (S : Summation) (asarray : bool → list pyval → result FloatArray.farray)
     (tx ty : bool) (lx ly : list pyval) (axis : axis_arg) (keepdims : bool),
     ∃ e, @rmse _ (ArrayLike.ops asarray)
            (ArrayLike.Seq tx lx) (ArrayLike.Seq ty ly) axis keepdims = Raise e ∧
          is_TypeError e = true) ∧
  (∀ (S : Summation) (asarray : bool → list pyval → result FloatArray.farray),
     @rmse _ (ArrayLike.ops asarray)
       (ArrayLike.Seq false [PyInt 1; PyInt 2; PyInt 3])
       (ArrayLike.Seq false [PyInt 1; PyInt 2; PyInt 3]) AxisNone false
     = Raise (TypeError "unsupported operand type(s) for -: 'list' and 'list'")).
Proof.
  split; [|split; [|split; [|split]]].
  - intros A ops x y axis keepdims.
    split; [apply rmse_unfold|]. split; [apply rmse_rmse_spec|].
    split; intros r Hr; rewrite rmse_unfold, Hr; reflexivity.
  - intros S x y axis keepdims Hxy.
    apply subtract_broadcastable in Hxy as [d Hd].
    exists d. split; [exact Hd|]. rewrite rmse_unfold, Hd. reflexivity.
  - intros S HS. apply rmse_vector_123.
  - intros S asarray tx ty lx ly axis keepdims.
    eexists. split; reflexivity.
  - intros S asarray. reflexivity.
Qed.

Section RmseExample.

Import SampleSummation.

(** [rmse] of a 2 x 3 matrix and a vector of 3, along the last axis. *)
Lemma rmse_is_rms_of_difference_witness :
  ∃ d, np_subtract matrix_23 vector_123 = Ok d ∧
       FloatArray.fa_shape d = [2; 3]%nat ∧
       rmse matrix_23 vector_123 (AxisInt (-1)) true = rms d (AxisInt (-1)) true.
Proof.
  destruct rmse_is_rms_of_difference as (_ & Hfloat & _).
  destruct (Hfloat flat_order matrix_23 vector_123 (AxisInt (-1)) true)
    as (d & Hd & Hrmse).
  - eexists. vm_compute. reflexivity.
  - exists d. split; [exact Hd|]. split; [|exact Hrmse].
    vm_compute in Hd. injection Hd as <-. reflexivity.
Defined.

End RmseExample.

(* ===================================================================== *)
(** ** Binary64 *)
(* ===================================================================== *)

Section RoundingFacts.

Local Open Scope Z_scope.

Lemma shr_1_div2 (mrs : shr_record) :
  0 ≤ shr_m mrs → shr_m (shr_1 mrs) = Z.div2 (shr_m mrs).
Proof.
  destruct mrs as [m r s]. cbn [shr_m]. intros Hm.
  destruct m as [|p|p]; [reflexivity| |lia]. destruct p; reflexivity.
Qed.

Lemma iter_pos_nat {A : Type} (f : A → A) (p : positive) :
  ∀ x, SpecFloat.iter_pos f p x = Nat.iter (Pos.to_nat p) f x.
Proof.
  induction p as [p IH|p IH|]; intros x; cbn [SpecFloat.iter_pos].
  - rewrite !IH, Pos2Nat.inj_xI.
    replace (S (2 * Pos.to_nat p)) with (Pos.to_nat p + S (Pos.to_nat p))%nat by lia.
    rewrite Nat.iter_add, Nat.iter_succ_r. reflexivity.
  - rewrite !IH, Pos2Nat.inj_xO.
    replace (2 * Pos.to_nat p)%nat with (Pos.to_nat p + Pos.to_nat p)%nat by lia.
    rewrite Nat.iter_add. reflexivity.
  - reflexivity.
Qed.

Lemma shr_m_iter (k : nat) (mrs : shr_record) :
  0 ≤ shr_m mrs →
  shr_m (Nat.iter k shr_1 mrs) = Z.shiftr (shr_m mrs) (Z.of_nat k).
Proof.
  intros Hm. induction k as [|k IH]; [reflexivity|].
  rewrite Nat.iter_succ, shr_1_div2.
  - rewrite IH, Z.div2_spec, Z.shiftr_shiftr by lia. f_equal. lia.
  - rewrite IH. apply Z.shiftr_nonneg, Hm.
Qed.

Lemma digits2_pos_bound (p : positive) :
  2 ^ (Z.pos (digits2_pos p) - 1) ≤ Z.pos p.
Proof.
  induction p as [p IH|p IH|]; cbn [digits2_pos]; [| |cbn; lia].
  - rewrite Pos2Z.inj_succ. replace (Z.succ (Z.pos (digits2_pos p)) - 1)
      with (Z.succ (Z.pos (digits2_pos p) - 1)) by lia.
    rewrite Z.pow_succ_r by lia. lia.
  - rewrite Pos2Z.inj_succ. replace (Z.succ (Z.pos (digits2_pos p)) - 1)
      with (Z.succ (Z.pos (digits2_pos p) - 1)) by lia.
    rewrite Z.pow_succ_r by lia. lia.
Qed.

Lemma shr_record_of_loc_m (m : Z) (l : location) :
  shr_m (shr_record_of_loc m l) = m.
Proof. destruct l as [|[]]; reflexivity. Qed.

(** Shifting a positive mantissa to its precision leaves it positive when
    the exponent is not below the least one. *)
Lemma shr_fexp_pos (m e : Z) (l : location) :
  0 < m → SpecFloat.emin prec emax ≤ e →
  0 < shr_m (shr_fexp prec emax m e l).1 ∧ e ≤ (shr_fexp prec emax m e l).2.
Proof.
  intros Hm He. unfold shr_fexp, shr.
  destruct m as [|p|p]; try lia. cbn [Zdigits2].
  set (n := fexp prec emax (Z.pos (digits2_pos p) + e) - e).
  assert (Hn : n ≤ Z.pos (digits2_pos p) - 1).
  { unfold n, fexp, prec in *. lia. }
  destruct n as [|q|q] eqn:Hq; cbn [fst snd]; rewrite ?shr_record_of_loc_m; try lia.
  rewrite iter_pos_nat, shr_m_iter, shr_record_of_loc_m
    by (rewrite shr_record_of_loc_m; lia).
  rewrite positive_nat_Z, Z.shiftr_div_pow2 by lia.
  split; [|lia]. apply Z.div_str_pos. split; [lia|].
  etransitivity; [|apply digits2_pos_bound].
  apply Z.pow_le_mono_r; lia.
Qed.

Lemma round_nearest_even_ge (m : Z) (l : location) : m ≤ round_nearest_even m l.
Proof.
  unfold round_nearest_even. destruct l as [|[]]; try lia.
  destruct (Z.even m); lia.
Qed.

(** Rounding a positive mantissa gives a positive number or an infinity. *)
Lemma binary_round_aux_pos (m e : Z) (l : location) :
  0 < m → SpecFloat.emin prec emax ≤ e →
  (∃ m' e', binary_round_aux prec emax false m e l = S754_finite false m' e') ∨
  binary_round_aux prec emax false m e l = S754_infinity false.
Proof.
  intros Hm He. unfold binary_round_aux.
  pose proof (shr_fexp_pos m e l Hm He) as [Hm1 He1].
  destruct (shr_fexp prec emax m e l) as [mrs' e']. cbn [fst snd] in Hm1, He1.
  pose proof (round_nearest_even_ge (shr_m mrs') (loc_of_shr_record mrs')) as Hr.
  assert (Hpos : 0 < round_nearest_even (shr_m mrs') (loc_of_shr_record mrs')) by lia.
  assert (He' : SpecFloat.emin prec emax ≤ e') by lia.
  pose proof (shr_fexp_pos _ e' loc_Exact Hpos He') as [Hm2 _].
  destruct (shr_fexp prec emax _ e' loc_Exact) as [mrs'' e'']. cbn [fst] in Hm2.
  destruct (shr_m mrs'') as [|q|q]; try lia.
  destruct (e'' <=? emax - prec); eauto.
Qed.

Lemma of_Z_pos (p : positive) :
  (∃ m e, of_Z (Z.pos p) = S754_finite false m e) ∨
  of_Z (Z.pos p) = S754_infinity false.
Proof.
  unfold of_Z, binary_normalize, binary_round.
  destruct (shl_align p 0 _) as [mz ez] eqn:Halign.
  apply binary_round_aux_pos; [lia|].
  unfold shl_align in Halign.
  destruct (fexp prec emax (Z.pos (digits2_pos p) + 0) - 0) eqn:Hd;
    injection Halign as <- <-; unfold fexp, SpecFloat.emin, prec, emax in *; lia.
Qed.

(** Zero divided by a positive count is zero. *)
Lemma div_zero_count (c : nat) :
  c ≠ 0%nat → Float64.div zero (of_Z (Z.of_nat c)) = zero.
Proof.
  intros Hc. destruct c as [|c]; [congruence|].
  rewrite Nat2Z.inj_succ, <- Zpos_P_of_succ_nat.
  destruct (of_Z_pos (Pos.of_succ_nat c)) as [(m & e & ->)| ->]; reflexivity.
Qed.

Lemma sub_self (v : float64) : is_finite v → Float64.sub v v = zero.
Proof.
  unfold Float64.sub, zero.
  destruct v as [s|s| |s m e]; cbn [is_finite SFsub]; try tauto; intros _.
  - destruct s; reflexivity.
  - rewrite Z.sub_diag. reflexivity.
Qed.

Lemma digits2_pos_upper (p : positive) : Z.pos p < 2 ^ Z.pos (digits2_pos p).
Proof.
  induction p as [p IH|p IH|]; cbn [digits2_pos]; [| |cbn; lia].
  - rewrite Pos2Z.inj_succ, Z.pow_succ_r, Pos2Z.inj_xI by lia. lia.
  - rewrite Pos2Z.inj_succ, Z.pow_succ_r, Pos2Z.inj_xO by lia. lia.
Qed.

(** A positive number below [2 ^ j] has at most [j] digits. *)
Lemma digits2_pos_le (p : positive) (j : Z) :
  Z.pos p < 2 ^ j → Z.pos (digits2_pos p) ≤ j.
Proof.
  intros Hp. pose proof (digits2_pos_bound p) as Hlow.
  destruct (Z.le_gt_cases (Z.pos (digits2_pos p)) j) as [|Hgt]; [assumption|].
  exfalso. assert (2 ^ j ≤ 2 ^ (Z.pos (digits2_pos p) - 1)); [|lia].
  destruct (Z.le_gt_cases 0 j).
  - apply Z.pow_le_mono_r; lia.
  - rewrite (Z.pow_neg_r 2 j) by lia. apply Z.pow_nonneg. lia.
Qed.

(** What [shr_fexp] does to a positive mantissa: nothing, or a shift to
    the exponent that its magnitude calls for. *)
Lemma shr_fexp_cases (m e : Z) (l : location) :
  0 < m →
  let n := fexp prec emax (Zdigits2 m + e) - e in
  (n ≤ 0 ∧ shr_fexp prec emax m e l = (shr_record_of_loc m l, e)) ∨
  (0 < n ∧ shr_m (shr_fexp prec emax m e l).1 = m / 2 ^ n ∧
   (shr_fexp prec emax m e l).2 = e + n).
Proof.
  intros Hm n. unfold shr_fexp, shr. fold n.
  destruct n as [|q|q] eqn:Hq; [left; split; [lia | reflexivity]| |
                                left; split; [lia | reflexivity]].
  right. split; [lia|]. cbn [fst snd]. split; [|reflexivity].
  rewrite iter_pos_nat, shr_m_iter, shr_record_of_loc_m
    by (rewrite shr_record_of_loc_m; lia).
  rewrite positive_nat_Z, Z.shiftr_div_pow2 by lia. reflexivity.
Qed.

(** Shifting keeps a mantissa that stands for at least [2 ^ k], with [k]
    not below the least exponent, at least [2 ^ k]. *)
Lemma shr_fexp_lower (m e : Z) (l : location) (k : Z) :
  0 < m → SpecFloat.emin prec emax ≤ k → 2 ^ (k - e) ≤ m →
  0 < shr_m (shr_fexp prec emax m e l).1 ∧
  2 ^ (k - (shr_fexp prec emax m e l).2) ≤ shr_m (shr_fexp prec emax m e l).1.
Proof.
  intros Hm Hk Hlow.
  destruct (shr_fexp_cases m e l Hm) as [[_ ->]|(Hn & -> & ->)].
  - cbn [fst snd]. rewrite shr_record_of_loc_m. split; assumption.
  - set (n := fexp prec emax (Zdigits2 m + e) - e) in *.
    destruct m as [|p|p]; try lia. cbn [Zdigits2] in n.
    pose proof (digits2_pos_bound p) as Hd.
    pose proof (digits2_pos_upper p) as Hu.
    assert (Hde : SpecFloat.emin prec emax < Z.pos (digits2_pos p) + e).
    { destruct (Z.le_gt_cases 0 (k - e)) as [Hke|Hke]; [|lia].
      assert (k - e < Z.pos (digits2_pos p)); [|lia].
      apply (Z.pow_lt_mono_r_iff 2); lia. }
    assert (Hn1 : n ≤ Z.pos (digits2_pos p) - 1).
    { unfold n, fexp, prec in *. lia. }
    assert (H2n : 2 ^ n ≤ Z.pos p).
    { etransitivity; [|exact Hd]. apply Z.pow_le_mono_r; lia. }
    split.
    + apply Z.div_str_pos. split; [apply Z.pow_pos_nonneg; lia | exact H2n].
    + destruct (Z.le_gt_cases 0 (k - (e + n))) as [Hken|Hken].
      * apply Z.div_le_lower_bound; [apply Z.pow_pos_nonneg; lia|].
        rewrite <- Z.pow_add_r by lia.
        replace (n + (k - (e + n))) with (k - e) by lia. exact Hlow.
      * rewrite (Z.pow_neg_r 2 (k - (e + n))) by lia.
        apply Z.div_pos; [lia | apply Z.pow_pos_nonneg; lia].
Qed.

(** Shifting keeps a mantissa that stands for less than [2 ^ K] below
    [2 ^ K], and the exponent it gives is bounded. *)
Lemma shr_fexp_upper (m e : Z) (l : location) (K : Z) :
  0 < m → SpecFloat.emin prec emax ≤ K → m < 2 ^ (K - e) →
  shr_m (shr_fexp prec emax m e l).1 < 2 ^ (K - (shr_fexp prec emax m e l).2) ∧
  (shr_fexp prec emax m e l).2 ≤ Z.max e (Z.max (K - prec) (SpecFloat.emin prec emax)).
Proof.
  intros Hm HK Hup.
  destruct (shr_fexp_cases m e l Hm) as [[_ ->]|(Hn & -> & ->)].
  - cbn [fst snd]. rewrite shr_record_of_loc_m. split; [assumption | lia].
  - set (n := fexp prec emax (Zdigits2 m + e) - e) in *.
    destruct m as [|p|p]; try lia. cbn [Zdigits2] in n.
    pose proof (digits2_pos_le p (K - e) Hup) as Hd.
    assert (Hen : e + n ≤ Z.max (K - prec) (SpecFloat.emin prec emax)).
    { unfold n, fexp. lia. }
    split; [|lia].
    apply Z.div_lt_upper_bound; [apply Z.pow_pos_nonneg; lia|].
    rewrite <- Z.pow_add_r by (unfold prec in *; lia).
    replace (n + (K - (e + n))) with (K - e) by lia. exact Hup.
Qed.

Lemma round_nearest_even_le (m : Z) (l : location) : round_nearest_even m l ≤ m + 1.
Proof.
  unfold round_nearest_even. destruct l as [|[]]; try lia.
  destruct (Z.even m); lia.
Qed.

(** Rounding a mantissa that stands for at least [2 ^ k] gives a number,
    or an infinity, and no zero. *)
Lemma binary_round_aux_lower (s : bool) (m e : Z) (l : location) (k : Z) :
  0 < m → SpecFloat.emin prec emax ≤ k → 2 ^ (k - e) ≤ m →
  (∃ m' e', binary_round_aux prec emax s m e l = S754_finite s m' e' ∧
            2 ^ (k - e') ≤ Z.pos m') ∨
  binary_round_aux prec emax s m e l = S754_infinity s.
Proof.
  intros Hm Hk Hlow. unfold binary_round_aux.
  pose proof (shr_fexp_lower m e l k Hm Hk Hlow) as [Hm1 Hl1].
  destruct (shr_fexp prec emax m e l) as [mrs' e']. cbn [fst snd] in Hm1, Hl1.
  pose proof (round_nearest_even_ge (shr_m mrs') (loc_of_shr_record mrs')) as Hr.
  set (m1 := round_nearest_even (shr_m mrs') (loc_of_shr_record mrs')) in *.
  pose proof (shr_fexp_lower m1 e' loc_Exact k ltac:(lia) Hk ltac:(lia)) as [Hm2 Hl2].
  destruct (shr_fexp prec emax m1 e' loc_Exact) as [mrs'' e''].
  cbn [fst snd] in Hm2, Hl2.
  destruct (shr_m mrs'') as [|q|q]; try lia.
  destruct (e'' <=? emax - prec); eauto.
Qed.

(** Rounding a mantissa that stands for a number of [[2 ^ k, 2 ^ K)], with
    [K] below the greatest exponent, gives a number. *)
Lemma binary_round_aux_finite (s : bool) (m e : Z) (l : location) (k K : Z) :
  0 < m → SpecFloat.emin prec emax ≤ k → k ≤ K → K < emax →
  e ≤ emax - prec →
  2 ^ (k - e) ≤ m → m < 2 ^ (K - e) →
  ∃ m' e', binary_round_aux prec emax s m e l = S754_finite s m' e' ∧
           2 ^ (k - e') ≤ Z.pos m'.
Proof.
  intros Hm Hk HkK HK He Hlow Hup. unfold binary_round_aux.
  pose proof (shr_fexp_lower m e l k Hm Hk Hlow) as [Hm1 Hl1].
  pose proof (shr_fexp_upper m e l K Hm ltac:(lia) Hup) as [Hu1 He1].
  destruct (shr_fexp prec emax m e l) as [mrs' e'].
  cbn [fst snd] in Hm1, Hl1, Hu1, He1.
  pose proof (round_nearest_even_ge (shr_m mrs') (loc_of_shr_record mrs')) as Hr.
  pose proof (round_nearest_even_le (shr_m mrs') (loc_of_shr_record mrs')) as Hr'.
  set (m1 := round_nearest_even (shr_m mrs') (loc_of_shr_record mrs')) in *.
  assert (HKe : 0 < K - e').
  { destruct (Z.le_gt_cases (K - e') 0) as [Hle|]; [|assumption].
    exfalso. assert (2 ^ (K - e') ≤ 1); [|lia].
    destruct (Z.eq_dec (K - e') 0) as [->|]; [cbn; lia|].
    rewrite Z.pow_neg_r by lia. lia. }
  assert (Hu1' : m1 < 2 ^ (K + 1 - e')).
  { replace (K + 1 - e') with (Z.succ (K - e')) by lia.
    rewrite Z.pow_succ_r by lia. lia. }
  pose proof (shr_fexp_lower m1 e' loc_Exact k ltac:(lia) Hk ltac:(lia)) as [Hm2 Hl2].
  pose proof (shr_fexp_upper m1 e' loc_Exact (K + 1) ltac:(lia) ltac:(lia) Hu1')
    as [_ He2].
  destruct (shr_fexp prec emax m1 e' loc_Exact) as [mrs'' e''].
  cbn [fst snd] in Hm2, Hl2, He2.
  destruct (shr_m mrs'') as [|q|q]; try lia.
  destruct (Z.leb_spec e'' (emax - prec)) as [_|Hbig].
  - eauto.
  - exfalso. unfold SpecFloat.emin, prec, emax in *. lia.
Qed.

Lemma iter_xO_pow (d p : positive) :
  Z.pos (Pos.iter xO p d) = Z.pos p * 2 ^ Z.pos d.
Proof.
  induction d as [|d IH] using Pos.peano_ind.
  - cbn. lia.
  - rewrite Pos.iter_succ, Pos2Z.inj_xO, IH, Pos2Z.inj_succ, Z.pow_succ_r by lia.
    lia.
Qed.

(** The float of a positive integer below [2 ^ K], with [K] below the
    greatest exponent, is a number that is at least one. *)
Lemma of_Z_bounds (z K : Z) :
  0 < z → z < 2 ^ K → K < emax →
  ∃ m e, of_Z z = S754_finite false m e ∧ 2 ^ (0 - e) ≤ Z.pos m.
Proof.
  intros Hz HzK HK.
  assert (HK0 : 0 ≤ K).
  { destruct (Z.le_gt_cases 0 K); [assumption|].
    rewrite Z.pow_neg_r in HzK by lia. lia. }
  destruct z as [|p|p]; try lia.
  unfold of_Z, binary_normalize, binary_round.
  destruct (shl_align p 0 _) as [mz ez] eqn:Halign.
  assert (Hal : ez ≤ 0 ∧ Z.pos mz = Z.pos p * 2 ^ (- ez)).
  { unfold shl_align in Halign.
    destruct (fexp prec emax (Z.pos (digits2_pos p) + 0) - 0) as [|q|q] eqn:Hd;
      injection Halign as <- <-.
    - split; [lia|]. cbn. lia.
    - split; [lia|]. cbn. lia.
    - split; [lia|]. rewrite iter_xO_pow. f_equal. f_equal. lia. }
  destruct Hal as [Hez Hmz].
  apply (binary_round_aux_finite false (Z.pos mz) ez loc_Exact 0 K);
    try (unfold SpecFloat.emin, prec, emax in *; lia).
  - rewrite Hmz. replace (0 - ez) with (- ez) by lia.
    assert (0 < 2 ^ (- ez)) by (apply Z.pow_pos_nonneg; lia). nia.
  - rewrite Hmz. replace (K - ez) with (K + - ez) by lia.
    rewrite Z.pow_add_r by lia.
    assert (0 < 2 ^ (- ez)) by (apply Z.pow_pos_nonneg; lia). nia.
Qed.

(** A float of binary64 has an exponent that is not below the least. *)
Lemma valid_exponent (s : bool) (m : positive) (e : Z) :
  is_binary64 (S754_finite s m e) → SpecFloat.emin prec emax ≤ e.
Proof.
  unfold is_binary64. cbn [valid_binary]. unfold bounded, canonical_mantissa.
  intros Hv. apply andb_true_iff in Hv as [Hc _].
  apply Z.eqb_eq in Hc. unfold fexp in Hc. lia.
Qed.

(** The product of a float that is at least one and a float of binary64
    that is not zero is not zero: it does not underflow. *)
Lemma mul_not_zero (mx : positive) (ex : Z) (d : float64) :
  2 ^ (0 - ex) ≤ Z.pos mx → is_binary64 d → Binary64.is_zero d = false →
  Binary64.is_zero (mul (S754_finite false mx ex) d) = false.
Proof.
  intros Hx Hv Hz. destruct d as [s|s| |s my ey]; try reflexivity; [discriminate|].
  apply valid_exponent in Hv.
  unfold mul. cbn [SFmul].
  destruct (binary_round_aux_lower (xorb false s) (Z.pos (mx * my)) (ex + ey)
              loc_Exact (SpecFloat.emin prec emax))
    as [(m' & e' & -> & _)| ->]; try reflexivity; try lia.
  destruct (Z.le_gt_cases 0 (SpecFloat.emin prec emax - (ex + ey))) as [Hge|Hlt].
  - rewrite Pos2Z.inj_mul.
    assert (2 ^ (SpecFloat.emin prec emax - (ex + ey)) ≤ 2 ^ (0 - ex))
      by (apply Z.pow_le_mono_r; lia).
    nia.
  - rewrite Z.pow_neg_r by lia. lia.
Qed.

(** Rounding depends on the sign only for the sign of its result. *)
Lemma binary_round_aux_opp (s : bool) (m e : Z) (l : location) :
  binary_round_aux prec emax (negb s) m e l
  = SFopp (binary_round_aux prec emax s m e l).
Proof.
  unfold binary_round_aux.
  destruct (shr_fexp prec emax m e l) as [mrs' e'].
  destruct (shr_fexp prec emax _ e' loc_Exact) as [mrs'' e''].
  destruct (shr_m mrs''); [reflexivity | | reflexivity].
  destruct (e'' <=? emax - prec); reflexivity.
Qed.

Lemma binary_normalize_opp (z e : Z) :
  z ≠ 0 →
  binary_normalize prec emax (- z) e false
  = SFopp (binary_normalize prec emax z e false).
Proof.
  intros Hz. destruct z as [|p|p]; [congruence| |];
    unfold binary_normalize; change (- Z.pos p) with (Z.neg p);
    change (- Z.neg p) with (Z.pos p); cbv beta iota; unfold binary_round;
    destruct (shl_align _ _ _) as [mz ez].
  - apply (binary_round_aux_opp false).
  - rewrite <- (binary_round_aux_opp true). reflexivity.
Qed.

Lemma abs_opp (v : float64) : Binary64.abs (SFopp v) = Binary64.abs v.
Proof. destruct v; reflexivity. Qed.

(** The sign of a factor does not show in the absolute value of a
    product. *)
Lemma abs_mul_opp (a v : float64) :
  Binary64.abs (mul (SFopp a) v) = Binary64.abs (mul a v).
Proof.
  unfold mul.
  destruct a as [sa|sa| |sa ma ea], v as [sv|sv| |sv mv ev];
    cbn [SFopp SFmul]; try reflexivity.
  replace (xorb (negb sa) sv) with (negb (xorb sa sv)) by (destruct sa, sv; reflexivity).
  rewrite binary_round_aux_opp. apply abs_opp.
Qed.

Lemma abs_mul_of_Z_opp (z : Z) (v : float64) :
  Binary64.abs (mul (of_Z (- z)) v) = Binary64.abs (mul (of_Z z) v).
Proof.
  destruct (Z.eq_dec z 0) as [->|Hz]; [reflexivity|].
  unfold of_Z. rewrite binary_normalize_opp by exact Hz. apply abs_mul_opp.
Qed.

(** An absolute value is not negative, unless it is a NaN. *)
Lemma abs_nonneg (v : float64) :
  Binary64.abs v = nan ∨ Binary64.nonneg (Binary64.abs v) = true.
Proof. destruct v; cbn; auto. Qed.

(** [fftfreq] over binary64 for a length that an array can have and a
    spacing other than zero: neither [float(n)] nor the division raises. *)
Lemma fftfreq64_run (n : Z) (d : float64) :
  0 < n → n < Binary64.max_length →
  is_binary64 d → Binary64.is_zero d = false →
  Binary64.fftfreq n d =
    Ok ((fun k => mul (of_Z k) (div Binary64.one (mul (of_Z n) d)))
          <$> (arange 0 ((n - 1) / 2 + 1) ++ arange (- (n / 2)) 0)).
Proof.
  intros Hn Hmax Hv Hd. unfold Binary64.fftfreq, Binary64.float_of_int.
  destruct (of_Z_bounds n 60 Hn Hmax ltac:(unfold emax; lia)) as (m & e & Hof & Hm).
  rewrite Hof. cbn [mbind result_bind].
  rewrite (mul_not_zero m e d Hm Hv Hd).
  destruct (Z.ltb_spec n 0); [lia|].
  destruct (Z.leb_spec Binary64.max_length n); [lia | reflexivity].
Qed.

End RoundingFacts.

(* ===================================================================== *)
(** ** [rfftfreq] *)
(* ===================================================================== *)

Section RfftfreqFacts.

Local Open Scope Z_scope.

Lemma len_arange (lo hi : Z) : lo ≤ hi → len (arange lo hi) = hi - lo.
Proof. intros Hle. unfold len, arange. rewrite length_seqZ. lia. Qed.

Lemma half_split (n : Z) : (n - 1) / 2 + 1 + n / 2 = n.
Proof. Z.to_euclidean_division_equations. lia. Qed.

Lemma fftfreq_run (n : Z) (d : Q) :
  0 < n → ¬ (d == 0)%Q →
  fftfreq n d =
    Ok ((fun k => inject_Z k * (1 / (inject_Z n * d)))%Q
          <$> (arange 0 ((n - 1) / 2 + 1) ++ arange (- (n / 2)) 0)).
Proof.
  intros Hn Hd. unfold fftfreq.
  destruct (Qeq_bool (inject_Z n * d) 0) eqn:Hz.
  - apply Qeq_bool_iff, Qmult_integral in Hz as [Hz|Hz]; [|contradiction].
    exfalso. unfold Qeq, inject_Z in Hz. cbn in Hz. lia.
  - destruct (Z.ltb_spec n 0); [lia | reflexivity].
Qed.

End RfftfreqFacts.

(** C7 (as the code has it): for a positive length [n] and a spacing [d]
    other than zero, the [rfftfreq] polyfill returns exactly [n // 2 + 1]
    values: the absolute values of the first [n // 2 + 1] entries of the
    full frequency axis [fftfreq(n, d)], which has [n] entries.  The [k]-th
    is the absolute value of [k * (1.0 / (n * d))], as the floats give it;
    each is non-negative or a NaN. *)
Theorem rfftfreq_spec (n : Z) (d : float64) :
  0 < n → n < Binary64.max_length →
  is_binary64 d → Binary64.is_zero d = false →
  ∃ freqs res,
    Binary64.fftfreq n d = Ok freqs ∧ len freqs = n ∧
    Binary64.rfftfreq n d = Ok res ∧ len res = n / 2 + 1 ∧
    res = Binary64.abs <$> take (Z.to_nat (n / 2 + 1)) freqs ∧
    Forall (fun v => v = nan ∨ Binary64.nonneg v = true) res ∧
    (∀ k v, res !! k = Some v →
            v = Binary64.abs (mul (of_Z (Z.of_nat k))
                                  (div Binary64.one (mul (of_Z n) d)))).
Proof.
  intros Hn Hmax Hv Hd.
  pose proof (half_split n) as Hsplit.
  assert (Hhalf : 0 ≤ n / 2) by (apply Z.div_pos; lia).
  assert (HN : 0 ≤ (n - 1) / 2) by (apply Z.div_pos; lia).
  assert (Hrel : n / 2 ≤ (n - 1) / 2 + 1)
    by (clear; Z.to_euclidean_division_equations; lia).
  set (val := div Binary64.one (mul (of_Z n) d)).
  set (freqs := (fun k => mul (of_Z k) val)
                  <$> (arange 0 ((n - 1) / 2 + 1) ++ arange (- (n / 2)) 0)).
  exists freqs, (Binary64.abs <$> take (Z.to_nat (n / 2 + 1)) freqs).
  split; [apply fftfreq64_run; assumption|].
  assert (Hlen : len freqs = n).
  { unfold freqs, len, arange. rewrite length_fmap, length_app, !length_seqZ. lia. }
  split; [exact Hlen|].
  split.
  { unfold Binary64.rfftfreq. rewrite fftfreq64_run by assumption.
    cbn [mbind result_bind].
    unfold slice_to. destruct (Z.ltb_spec (n / 2 + 1) 0); [lia | reflexivity]. }
  split.
  { unfold len in *. rewrite length_fmap, length_take. lia. }
  split; [reflexivity|].
  split.
  { apply Forall_fmap, Forall_forall. intros v _. apply abs_nonneg. }
  intros k v Hk.
  rewrite list_lookup_fmap in Hk.
  destruct (take (Z.to_nat (n / 2 + 1)) freqs !! k) as [f|] eqn:Hf; [|discriminate].
  injection Hk as <-.
  assert (Hkn : (k < Z.to_nat (n / 2 + 1))%nat).
  { apply lookup_lt_Some in Hf. rewrite length_take in Hf. lia. }
  rewrite lookup_take_lt in Hf by exact Hkn.
  unfold freqs in Hf. rewrite list_lookup_fmap in Hf.
  destruct (decide (Z.of_nat k < (n - 1) / 2 + 1)) as [Hlt|Hge].
  - rewrite lookup_app_l in Hf.
    + unfold arange in Hf. rewrite lookup_seqZ_lt in Hf by lia.
      injection Hf as <-. rewrite Z.add_0_l. reflexivity.
    + pose proof (len_arange 0 ((n - 1) / 2 + 1) ltac:(lia)). unfold len in *. lia.
  - rewrite lookup_app_r in Hf.
    + pose proof (len_arange 0 ((n - 1) / 2 + 1) ltac:(lia)) as Hl.
      unfold len in Hl.
      replace (k - length (arange 0 ((n - 1) / 2 + 1)))%nat with 0%nat in Hf by lia.
      unfold arange in Hf. rewrite lookup_seqZ_lt in Hf by lia.
      injection Hf as <-.
      replace (- (n / 2) + Z.of_nat 0) with (- Z.of_nat k) by lia.
      apply abs_mul_of_Z_opp.
    + pose proof (len_arange 0 ((n - 1) / 2 + 1) ltac:(lia)). unfold len in *. lia.
Qed.

(** [rfftfreq(8, 1.0)] returns the 5 values 0, 0.125, 0.25, 0.375 and 0.5,
    none of which is negative. *)
Lemma rfftfreq_spec_witness :
  ∃ res, Binary64.rfftfreq 8 Binary64.one = Ok res ∧ len res = 5 ∧
         Forall (fun v => Binary64.nonneg v = true) res ∧
         res = [zero; Binary64.eighth; mul (of_Z 2) Binary64.eighth;
                mul (of_Z 3) Binary64.eighth; mul (of_Z 4) Binary64.eighth].
Proof.
  destruct (rfftfreq_spec 8 Binary64.one)
    as (freqs & res & _ & _ & Hrun & Hlen & _ & _ & _);
    [lia | vm_compute; reflexivity | reflexivity | reflexivity|].
  exists res. split; [exact Hrun|]. split; [exact Hlen|].
  vm_compute in Hrun. injection Hrun as <-.
  split; [repeat constructor | reflexivity].
Defined.

(** C7 (as stated) fails: the frequencies are floats.  With the spacing
    1e-320 the factor [1.0 / (n * d)] overflows to an infinity, whose
    product with 0 is a NaN: [rfftfreq(8, 1e-320)] is
    [[nan, inf, inf, inf, inf]], and a NaN is not non-negative. *)
Lemma rfftfreq_nonneg_counterexample :
  Binary64.rfftfreq 8 Binary64.tiny
    = Ok [nan; S754_infinity false; S754_infinity false; S754_infinity false;
          S754_infinity false] ∧
  is_binary64 Binary64.tiny ∧ Binary64.is_zero Binary64.tiny = false ∧
  Binary64.nonneg nan = false ∧
  ¬ (∀ res, Binary64.rfftfreq 8 Binary64.tiny = Ok res →
            Forall (fun v => Binary64.nonneg v = true) res).
Proof.
  assert (Hrun : Binary64.rfftfreq 8 Binary64.tiny
                 = Ok [nan; S754_infinity false; S754_infinity false;
                       S754_infinity false; S754_infinity false])
    by (vm_compute; reflexivity).
  split; [exact Hrun|]. split; [reflexivity|]. split; [reflexivity|].
  split; [reflexivity|].
  intros Hclaim. specialize (Hclaim _ Hrun).
  apply Forall_cons in Hclaim as [Hnan _]. discriminate Hnan.
Qed.

(* ===================================================================== *)
(** ** Further properties of [compare], [as_shape] and [broadcast_shape] *)
(* ===================================================================== *)

(** On integers [compare] is never undefined: it is the sign of [a - b]. *)
Theorem compare_int_sign (a b : Z) : compare a b = Some (Z.sgn (a - b)).
Proof.
  unfold compare. cbn [py_eq py_gt py_lt Z_RichCompare].
  destruct (Z.eqb_spec a b) as [->|Hne].
  - rewrite Z.sub_diag. reflexivity.
  - destruct (Z.gtb_spec a b) as [Hgt|Hle].
    + rewrite Z.sgn_pos by lia. reflexivity.
    + destruct (Z.ltb_spec a b) as [Hlt|Hge]; [|lia].
      rewrite Z.sgn_neg by lia. reflexivity.
Qed.

(** On floats [compare] gives the null sentinel exactly when one of the
    operands is a NaN. *)
Theorem compare_float_undefined (a b : float64) :
  compare a b = None ↔ a = nan ∨ b = nan.
Proof.
  unfold compare. cbn [py_eq py_gt py_lt float64_RichCompare].
  unfold Float64.eqb, Float64.ltb, SFeqb, SFltb, nan.
  rewrite (SFcompare_antisym a b).
  destruct a as [sa|sa| |sa ma ea], b as [sb|sb| |sb mb eb];
    cbn [SFcompare option_map];
    try (split; [discriminate | intros [H|H]; discriminate H]);
    try (split; [reflexivity | tauto]);
    try (split; [intros _; auto | reflexivity]);
    try (destruct sa; cbn; split; (discriminate || (intros [H|H]; discriminate H)));
    try (destruct sb; cbn; split; (discriminate || (intros [H|H]; discriminate H))).
  - destruct sa, sb; cbn; split;
      (discriminate || (intros [H|H]; discriminate H)).
  - split; [|intros [H|H]; discriminate H].
    destruct sa, sb; cbn; try discriminate;
      destruct (ea ?= eb); cbn; try discriminate;
      destruct (Pos.compare_cont Eq ma mb); discriminate.
Qed.

Section ShapeFacts.

Lemma py_repeat_nonpos {A : Type} (v : A) (k : Z) : k ≤ 0 → py_repeat v k = [].
Proof.
  intros Hk. unfold py_repeat. replace (Z.to_nat k) with 0%nat by lia. reflexivity.
Qed.

Lemma py_repeat_add {A : Type} (v : A) (j k : Z) :
  0 ≤ j → 0 ≤ k → py_repeat v (j + k) = py_repeat v j ++ py_repeat v k.
Proof.
  intros Hj Hk. unfold py_repeat. rewrite Z2Nat.inj_add by lia.
  apply replicate_add.
Qed.

Lemma py_repeat_max {A : Type} (v : A) (j k : Z) :
  Z.max 0 j = Z.max 0 k → py_repeat v j = py_repeat v k.
Proof. intros Hjk. unfold py_repeat. f_equal. lia. Qed.

Lemma py_repeat_app {A : Type} (v : A) (j k : Z) :
  py_repeat v j ++ py_repeat v k = py_repeat v (Z.max 0 j + Z.max 0 k).
Proof.
  rewrite py_repeat_add by lia. f_equal; apply py_repeat_max; lia.
Qed.

Lemma len_py_repeat {A : Type} (v : A) (k : Z) : len (py_repeat v k) = Z.max 0 k.
Proof. unfold py_repeat. rewrite len_replicate. lia. Qed.

Lemma py_len_iterable (x : pyval) :
  is_iterable x = true → py_len x = Ok (len (py_tuple x)).
Proof. destruct x; cbn; intros; (reflexivity || discriminate). Qed.

Lemma py_len_not_iterable (x : pyval) :
  is_iterable x = false → py_len x = Raise (TypeError "object has no len()").
Proof. destruct x; cbn; intros; (reflexivity || discriminate). Qed.

(** [as_shape] on an iterable or integer, as a function of its entries. *)
Lemma as_shape_run (x : pyval) (min_dim : Z) :
  is_iterable x = true ∨ is_integer x = true →
  as_shape x min_dim =
    Ok (py_repeat (PyInt 1)
          (min_dim - len (if is_iterable x then py_tuple x else [x]))
        ++ (if is_iterable x then py_tuple x else [x])).
Proof.
  intros Hx. unfold as_shape.
  destruct (is_iterable x); [|destruct Hx as [?|Hx]; [discriminate|]; rewrite Hx];
    cbn [mbind result_bind];
    match goal with |- context [len ?e <? min_dim] =>
      destruct (Z.ltb_spec (len e) min_dim); [reflexivity|];
      rewrite py_repeat_nonpos by lia; reflexivity
    end.
Qed.

Lemma broadcast_shape_run (shape : pyval) (length : Z) :
  is_iterable shape = true →
  broadcast_shape shape length =
    Ok (if len (py_tuple shape) <? length
        then PyTuple (py_repeat (PyInt 1) (length - len (py_tuple shape))
                      ++ py_tuple shape)
        else shape).
Proof.
  intros Hit. unfold broadcast_shape. rewrite (py_len_iterable shape Hit).
  cbn [mbind result_bind]. destruct (_ <? _); reflexivity.
Qed.

End ShapeFacts.

(** [broadcast_shape] on a sequence returns a shape of
    [max(length, len(shape))] entries: the entries of [shape] preceded by
    1s.  It never drops an entry; a shape that is long enough is returned
    as it is (a list stays a list), a padded one is a tuple. *)
Theorem broadcast_shape_spec (shape : pyval) (length : Z) :
  is_iterable shape = true →
  ∃ r,
    broadcast_shape shape length = Ok r ∧
    py_tuple r = py_repeat (PyInt 1) (length - len (py_tuple shape)) ++ py_tuple shape ∧
    len (py_tuple r) = Z.max length (len (py_tuple shape)) ∧
    (length ≤ len (py_tuple shape) → r = shape) ∧
    (len (py_tuple shape) < length →
     r = PyTuple (py_repeat (PyInt 1) (length - len (py_tuple shape)) ++ py_tuple shape)).
Proof.
  intros Hit. unfold broadcast_shape. rewrite (py_len_iterable shape Hit).
  cbn [mbind result_bind].
  destruct (Z.ltb_spec (len (py_tuple shape)) length) as [Hlt|Hge].
  - eexists. split; [reflexivity|]. cbn [py_tuple].
    split; [reflexivity|]. split.
    + rewrite len_app, len_py_repeat. lia.
    + split; [lia | reflexivity].
  - exists shape. split; [reflexivity|].
    rewrite py_repeat_nonpos by lia. cbn [app].
    split; [reflexivity|]. split; [lia|]. split; [reflexivity | lia].
Qed.

(** [broadcast_shape((3,), 3) == (1, 1, 3)] and
    [broadcast_shape([2, 3], 2)] is the list [[2, 3]]. *)
Lemma broadcast_shape_spec_witness :
  broadcast_shape (PyTuple [PyInt 3]) 3 = Ok (PyTuple [PyInt 1; PyInt 1; PyInt 3]) ∧
  broadcast_shape (PyList [PyInt 2; PyInt 3]) 2 = Ok (PyList [PyInt 2; PyInt 3]).
Proof.
  split.
  - destruct (broadcast_shape_spec (PyTuple [PyInt 3]) 3 eq_refl)
      as (r & -> & _ & _ & _ & Hpad).
    rewrite Hpad by (vm_compute; reflexivity). reflexivity.
  - destruct (broadcast_shape_spec (PyList [PyInt 2; PyInt 3]) 2 eq_refl)
      as (r & -> & _ & _ & Hsame & _).
    rewrite Hsame by (vm_compute; discriminate). reflexivity.
Defined.

(** Padding twice is padding once to the greater length, for every
    argument (a value that is no sequence is refused either way). *)
Theorem broadcast_shape_twice (shape : pyval) (j k : Z) :
  (r ← broadcast_shape shape j; broadcast_shape r k)
  = broadcast_shape shape (Z.max j k).
Proof.
  destruct (is_iterable shape) eqn:Hit.
  - rewrite !(broadcast_shape_run shape _ Hit).
    set (n := len (py_tuple shape)).
    destruct (Z.ltb_spec n j) as [Hj|Hj]; cbn [mbind result_bind].
    + rewrite broadcast_shape_run by reflexivity. cbn [py_tuple].
      rewrite len_app, len_py_repeat. fold n.
      destruct (Z.ltb_spec (Z.max 0 (j - n) + n) k) as [Hk|Hk];
        destruct (Z.ltb_spec n (Z.max j k)) as [_|?]; try lia.
      * replace (Z.max j k - n) with ((k - (Z.max 0 (j - n) + n)) + (j - n)) by lia.
        rewrite py_repeat_add, <- app_assoc by lia. reflexivity.
      * replace (Z.max j k) with j by lia. reflexivity.
    + rewrite (broadcast_shape_run shape _ Hit). fold n.
      destruct (Z.ltb_spec n k) as [Hk|Hk];
        destruct (Z.ltb_spec n (Z.max j k)) as [?|?]; try lia.
      * replace (Z.max j k) with k by lia. reflexivity.
      * reflexivity.
  - unfold broadcast_shape. rewrite (py_len_not_iterable shape Hit). reflexivity.
Qed.





(** The result of [as_shape] is a fixed point: given back with a further
    minimum it is padded as the original would be with the greater of the
    two; with the same minimum it comes back unchanged. *)
Theorem as_shape_again (x : pyval) (m m' : Z) (shape : list pyval) :
  as_shape x m = Ok shape →
  as_shape (PyTuple shape) m' = as_shape x (Z.max m m') ∧
  as_shape (PyTuple shape) m = Ok shape.
Proof.
  intros Hshape.
  assert (Hx : is_iterable x = true ∨ is_integer x = true).
  { unfold as_shape in Hshape.
    destruct (is_iterable x); [auto|]. destruct (is_integer x); [auto|discriminate]. }
  rewrite (as_shape_run x m Hx) in Hshape. injection Hshape as <-.
  set (entries := if is_iterable x then py_tuple x else [x]).
  assert (Hgen : ∀ k, as_shape
                        (PyTuple (py_repeat (PyInt 1) (m - len entries) ++ entries)) k
                      = as_shape x (Z.max m k)).
  { intros k. rewrite (as_shape_run x (Z.max m k) Hx). fold entries.
    rewrite as_shape_run by (left; reflexivity). cbn [is_iterable py_tuple].
    rewrite len_app, len_py_repeat, app_assoc, py_repeat_app.
    pose proof (len_nonneg entries).
    apply (f_equal (fun l => Ok (l ++ entries))), py_repeat_max. lia. }
  split; [apply Hgen|].
  rewrite Hgen, Z.max_id. apply as_shape_run. exact Hx.
Qed.

(** [as_shape(as_shape(5, 2), 4)] is [as_shape(5, 4)]. *)
Lemma as_shape_again_witness :
  as_shape (PyTuple [PyInt 1; PyInt 5]) 4 = as_shape (PyInt 5) 4 ∧
  as_shape (PyTuple [PyInt 1; PyInt 5]) 2 = Ok [PyInt 1; PyInt 5].
Proof. exact (as_shape_again (PyInt 5) 2 4 [PyInt 1; PyInt 5] eq_refl). Defined.

(* ===================================================================== *)
(** ** Further properties of [array] *)
(* ===================================================================== *)

(** [array(x, dims)] returns exactly when [np.array] takes [x] and [dims]
    is between the [ndim] of the array it makes and [NPY_MAXDIMS]; with
    [dims] unspecified, exactly when [np.array] takes [x] and [min_dims] is
    at most [NPY_MAXDIMS].  With [dims] equal to that [ndim], or unspecified
    with [min_dims] at most that [ndim], the shape is left as [np.array]
    gave it. *)
Theorem array_returns_iff `{NP : NumPy} `{!NumPyLaws NP} (x : pyarg)
    (dims : option Z) (min_dims : Z) (readonly : bool) (kw : kwargs) (h : heap) :
  ((∃ y h', array x dims min_dims readonly kw h = Ok (y, h')) ↔
   (∃ y h0 nd0, np_array x kw h = Ok (y, h0) ∧ arrays h0 !! y = Some nd0 ∧
                match dims with
                | Some d => len (nd_shape nd0) ≤ d ≤ NPY_MAXDIMS
                | None => min_dims ≤ NPY_MAXDIMS
                end)) ∧
  (∀ y h0 nd0 y' h' nd',
     np_array x kw h = Ok (y, h0) → arrays h0 !! y = Some nd0 →
     array x dims min_dims readonly kw h = Ok (y', h') → arrays h' !! y' = Some nd' →
     match dims with
     | Some d => d = len (nd_shape nd0)
     | None => min_dims ≤ len (nd_shape nd0)
     end →
     y' = y ∧ nd_shape nd' = nd_shape nd0).
Proof.
  split; [split|].
  - intros (y & h' & Hrun).
    destruct (array_ok_inv x dims min_dims readonly kw h y h' Hrun)
      as (h0 & nd0 & Hnp & Hy & Hle & Hmax & _).
    destruct (np_array_returns _ _ _ _ _ Hnp) as (nd0' & Hy' & Hnd).
    rewrite Hy in Hy'. injection Hy' as <-.
    exists y, h0, nd0. split; [exact Hnp|]. split; [exact Hy|].
    unfold dims_used in *. destruct dims as [d|]; lia.
  - intros (y & h0 & nd0 & Hnp & Hy & Hd).
    destruct (np_array_returns _ _ _ _ _ Hnp) as (nd0' & Hy' & Hnd).
    rewrite Hy in Hy'. injection Hy' as <-.
    rewrite (array_run x dims min_dims readonly kw h h0 y nd0 Hnp Hy).
    cbv zeta. unfold dims_used.
    set (s := nd_shape nd0) in *.
    set (d := match dims with Some d => d | None => Z.max min_dims (len s) end).
    assert (Hds : len s ≤ d ≤ NPY_MAXDIMS) by (unfold d; destruct dims; lia).
    destruct (Z.ltb_spec (len s) d).
    + destruct (Z.gtb_spec d NPY_MAXDIMS); [lia | eauto].
    + destruct (Z.gtb_spec (len s) d); [lia | eauto].
  - intros y h0 nd0 y' h' nd' Hnp Hy Hrun Hy' Hd.
    assert (Hlt : (y < length (arrays h0))%nat) by (eapply lookup_lt_Some, Hy).
    rewrite (array_run x dims min_dims readonly kw h h0 y nd0 Hnp Hy) in Hrun.
    cbv zeta in Hrun. unfold dims_used in Hrun.
    set (s := nd_shape nd0) in *.
    set (d := match dims with Some d => d | None => Z.max min_dims (len s) end) in *.
    assert (Hds : d = len s) by (unfold d; destruct dims; lia).
    destruct (Z.ltb_spec (len s) d); [lia|].
    destruct (Z.gtb_spec (len s) d); [lia|].
    injection Hrun as <- <-. split; [reflexivity|].
    unfold made in Hy'. cbn [arrays] in Hy'.
    rewrite list_lookup_insert_eq in Hy' by exact Hlt.
    injection Hy' as <-. reflexivity.
Qed.

Section ArrayReturnsExample.

Import SampleNumPy.

(** [array([1,2,3], dims=1)] returns the array of shape (3,). *)
Lemma array_returns_iff_witness :
  ∃ h' nd', array (Plain list_123) (Some 1) 0 false no_keywords empty_heap
            = Ok (0%nat, h') ∧
            arrays h' !! 0%nat = Some nd' ∧ nd_shape nd' = [3].
Proof.
  destruct (array_returns_iff (NP := numpy) (Plain list_123) (Some 1) 0 false
              no_keywords empty_heap) as [[_ Hex] Hsame].
  destruct Hex as (y & h' & Hrun).
  { eexists. eexists. eexists. split; [vm_compute; reflexivity|].
    split; [reflexivity|]. vm_compute. split; discriminate. }
  assert (Hy : ∃ nd', arrays h' !! y = Some nd').
  { vm_compute in Hrun. injection Hrun as <- <-. eexists. reflexivity. }
  destruct Hy as (nd' & Hy).
  destruct (Hsame 0%nat _ _ y h' nd' eq_refl eq_refl Hrun Hy eq_refl) as [-> Hshape].
  exists h', nd'. auto.
Defined.

End ArrayReturnsExample.

(** What [array] returns is the object that [np.array] returned, with the
    dtype, the data and the base that it had; it is read-only when
    [readonly] is set, and has otherwise the flag that NumPy gave it. *)
Theorem array_result_flags `{NP : NumPy} (x : pyarg) (dims : option Z) (min_dims : Z)
    (readonly : bool) (kw : kwargs) (h h' : heap) (y : addr) :
  array x dims min_dims readonly kw h = Ok (y, h') →
  ∃ h0 nd0 nd,
    np_array x kw h = Ok (y, h0) ∧ arrays h0 !! y = Some nd0 ∧
    arrays h' !! y = Some nd ∧
    nd_writeable nd = (if readonly then false else nd_writeable nd0) ∧
    nd_base nd = nd_base nd0 ∧ nd_data nd = nd_data nd0 ∧
    nd_dtype nd = nd_dtype nd0.
Proof.
  intros Hrun.
  destruct (array_ok_inv x dims min_dims readonly kw h y h' Hrun)
    as (h0 & nd0 & Hnp & Hy & _ & _ & ->).
  assert (Hlt : (y < length (arrays h0))%nat) by (eapply lookup_lt_Some, Hy).
  exists h0, nd0. eexists. split; [exact Hnp|]. split; [exact Hy|].
  unfold made. cbn [arrays]. rewrite list_lookup_insert_eq by exact Hlt.
  repeat split.
Qed.

Section ArrayFlagsExample.

Import SampleNumPy.

(** [array([1,2,3], readonly=True)] is read-only. *)
Lemma array_result_flags_witness :
  ∃ h' nd, array (Plain list_123) None 0 true no_keywords empty_heap
           = Ok (0%nat, h') ∧
           arrays h' !! 0%nat = Some nd ∧ nd_writeable nd = false.
Proof.
  assert (Hrun : ∃ h', array (Plain list_123) None 0 true no_keywords empty_heap
                       = Ok (0%nat, h'))
    by (eexists; vm_compute; reflexivity).
  destruct Hrun as (h' & Hrun).
  destruct (array_result_flags (NP := numpy) _ _ _ _ _ _ _ _ Hrun)
    as (h0 & nd0 & nd & _ & _ & Hy & Hw & _).
  exists h', nd. auto.
Defined.

End ArrayFlagsExample.

(** [array] touches one object only: when it returns, the buffers, and
    every array object but the one that [np.array] returned, are as
    [np.array] left them. *)
Theorem array_frame `{NP : NumPy} (x : pyarg) (dims : option Z) (min_dims : Z)
    (readonly : bool) (kw : kwargs) (h h' : heap) (y : addr) :
  array x dims min_dims readonly kw h = Ok (y, h') →
  ∃ h0,
    np_array x kw h = Ok (y, h0) ∧
    buffers h' = buffers h0 ∧
    length (arrays h') = length (arrays h0) ∧
    ∀ b nd, b ≠ y → arrays h0 !! b = Some nd → arrays h' !! b = Some nd.
Proof.
  intros Hrun.
  destruct (array_ok_inv x dims min_dims readonly kw h y h' Hrun)
    as (h0 & nd0 & Hnp & Hy & _ & _ & ->).
  exists h0. split; [exact Hnp|]. unfold made. cbn [arrays buffers].
  split; [reflexivity|]. split; [apply length_insert|].
  intros b nd Hb Hlook. rewrite list_lookup_insert_ne by congruence. exact Hlook.
Qed.

Section ArrayFrameExample.

Import SampleNumPy.

(** [array([1,2,3], dims=2, readonly=True)] in a store of two arrays
    leaves both as they are. *)
Lemma array_frame_witness :
  ∃ h', array (Plain list_123) (Some 2) 0 true no_keywords store_two
        = Ok (2%nat, h') ∧
        arrays h' !! 0%nat = arrays store_two !! 0%nat ∧
        arrays h' !! 1%nat = arrays store_two !! 1%nat ∧
        length (arrays h') = 3%nat.
Proof.
  assert (Hrun : ∃ h', array (Plain list_123) (Some 2) 0 true no_keywords store_two
                       = Ok (2%nat, h'))
    by (eexists; vm_compute; reflexivity).
  destruct Hrun as (h' & Hrun).
  destruct (array_frame (NP := numpy) _ _ _ _ _ _ _ _ Hrun)
    as (h0 & Hnp & _ & Hlen & Ha).
  vm_compute in Hnp. injection Hnp as <-.
  exists h'. split; [exact Hrun|].
  split; [exact (Ha 0%nat _ ltac:(lia) eq_refl)|].
  split; [exact (Ha 1%nat _ ltac:(lia) eq_refl)|].
  exact Hlen.
Defined.

End ArrayFrameExample.

(** [array] keeps the number of elements: the axes it adds have length 1,
    so that the array it returns holds as many elements as its shape says
    whenever the array that [np.array] made does. *)
Theorem array_well_formed `{NP : NumPy} (x : pyarg) (dims : option Z) (min_dims : Z)
    (readonly : bool) (kw : kwargs) (h h' : heap) (y : addr) :
  array x dims min_dims readonly kw h = Ok (y, h') →
  ∃ h0 nd0 nd,
    np_array x kw h = Ok (y, h0) ∧ arrays h0 !! y = Some nd0 ∧
    arrays h' !! y = Some nd ∧
    shape_size (nd_shape nd) = shape_size (nd_shape nd0) ∧
    (consistent h0 nd0 → consistent h' nd).
Proof.
  intros Hrun.
  destruct (array_ok_inv x dims min_dims readonly kw h y h' Hrun)
    as (h0 & nd0 & Hnp & Hy & _ & _ & ->).
  assert (Hlt : (y < length (arrays h0))%nat) by (eapply lookup_lt_Some, Hy).
  exists h0, nd0. eexists. split; [exact Hnp|]. split; [exact Hy|].
  unfold made. cbn [arrays]. rewrite list_lookup_insert_eq by exact Hlt.
  split; [reflexivity|].
  cbn [nd_shape with_shape with_writeable].
  rewrite shape_size_app, shape_size_ones, Z.mul_1_r.
  split; [reflexivity|].
  unfold consistent. cbn [buffers nd_data nd_shape with_shape with_writeable].
  rewrite shape_size_app, shape_size_ones, Z.mul_1_r. auto.
Qed.

Section ArrayWellFormedExample.

Import SampleNumPy.

(** [array([[1,2,3],[1,2,3]], dims=4)] has six elements and a shape of
    size six. *)
Lemma array_well_formed_witness :
  ∃ h' nd, array (Plain (PyList [list_123; list_123])) (Some 4) 0 false
             no_keywords empty_heap = Ok (0%nat, h') ∧
           arrays h' !! 0%nat = Some nd ∧ consistent h' nd ∧
           shape_size (nd_shape nd) = 6.
Proof.
  assert (Hrun : ∃ h', array (Plain (PyList [list_123; list_123])) (Some 4) 0 false
                         no_keywords empty_heap = Ok (0%nat, h'))
    by (eexists; vm_compute; reflexivity).
  destruct Hrun as (h' & Hrun).
  destruct (array_well_formed (NP := numpy) _ _ _ _ _ _ _ _ Hrun)
    as (h0 & nd0 & nd & Hnp & Hy0 & Hy & Hsize & Hcons).
  vm_compute in Hnp. injection Hnp as <-.
  cbn in Hy0. injection Hy0 as <-.
  exists h', nd. split; [exact Hrun|]. split; [exact Hy|]. split.
  - apply Hcons. eexists. split; reflexivity.
  - rewrite Hsize. reflexivity.
Defined.

End ArrayWellFormedExample.

(** When [np.array] returns its argument, as it does with [copy=False] for
    an array that needs no conversion, [array] works on the caller's array:
    the axes it adds are added to the caller's array, and [readonly] makes
    the caller's array read-only. *)
Theorem array_aliases_argument `{NP : NumPy} (a : addr) (dims min_dims : Z)
    (readonly : bool) (kw : kwargs) (h : heap) (nd : ndarray) :
  np_array (NdArray a) kw h = Ok (a, h) →
  arrays h !! a = Some nd →
  len (nd_shape nd) < dims ≤ NPY_MAXDIMS →
  ∃ h',
    array (NdArray a) (Some dims) min_dims readonly kw h = Ok (a, h') ∧
    arrays h' !! a
      = Some (with_writeable
                (with_shape nd (nd_shape nd
                                ++ replicate (Z.to_nat (dims - len (nd_shape nd))) 1))
                (if readonly then false else nd_writeable nd)) ∧
    buffers h' = buffers h.
Proof.
  intros Hnp Ha Hd.
  assert (Hlt : (a < length (arrays h))%nat) by (eapply lookup_lt_Some, Ha).
  rewrite (array_run (NdArray a) (Some dims) min_dims readonly kw h h a nd Hnp Ha).
  cbv zeta. cbn [dims_used].
  destruct (Z.ltb_spec (len (nd_shape nd)) dims); [|lia].
  destruct (Z.gtb_spec dims NPY_MAXDIMS); [lia|].
  eexists. split; [reflexivity|]. unfold made. cbn [arrays buffers].
  rewrite list_lookup_insert_eq by exact Hlt. split; reflexivity.
Qed.

Section ArrayAliasExample.

Import SampleNumPy.

(** [array(a, dims=3, readonly=True, copy=False)] for the writeable 2 x 3
    array [a] of [store_one]: afterwards [a] itself has the shape (2, 3, 1)
    and is read-only. *)
Lemma array_aliases_argument_witness :
  ∃ h' nd',
    array (NdArray 0%nat) (Some 3) 0 true {| kw_copy := false |} store_one
      = Ok (0%nat, h') ∧
    arrays h' !! 0%nat = Some nd' ∧
    nd_shape nd' = [2; 3; 1] ∧ nd_writeable nd' = false.
Proof.
  destruct (array_aliases_argument (NP := numpy) 0%nat 3 0 true {| kw_copy := false |}
              store_one _ eq_refl eq_refl) as (h' & Hrun & Ha & _).
  - vm_compute. split; [reflexivity | discriminate].
  - exists h'. eexists. split; [exact Hrun|]. split; [exact Ha|].
    split; reflexivity.
Defined.

End ArrayAliasExample.

(* ===================================================================== *)
(** ** Further properties of [array_hash] *)
(* ===================================================================== *)

(** The weakness that the docstring of [array_hash] admits: the hash of an
    array of at least [n] elements depends on what [a[inds]] reads for the
    indices drawn, and on nothing else.  Two arrays of one shape that agree
    there have the same hash, or fail alike, whatever they hold elsewhere;
    when [a[inds]] is [a[np.array(inds)]], agreeing there is agreeing on
    the rows [a[j]] for the indices [j] drawn. *)
Theorem array_hash_collision `{RT : Runtime}
    (h1 h2 : heap) (a1 a2 : addr) (nd1 nd2 : ndarray)
    (items1 items2 : list cell) (n : Z) (inds : list (list Z)) :
  arrays h1 !! a1 = Some nd1 → arrays h2 !! a2 = Some nd2 →
  buffers h1 !! nd_data nd1 = Some items1 →
  buffers h2 !! nd_data nd2 = Some items2 →
  nd_shape nd1 = nd_shape nd2 →
  n ≤ shape_size (nd_shape nd1) →
  sampled_inds (nd_shape nd1) n = Ok inds →
  (index_list (nd_shape nd1) items1 inds = index_list (nd_shape nd1) items2 inds →
   outcome (array_hash (NdArray a1) n h1) = outcome (array_hash (NdArray a2) n h2)) ∧
  (index_list_as_tuple = false →
   ∀ d rest, nd_shape nd1 = d :: rest →
     (∀ j, j ∈ concat inds → row d rest items1 j = row d rest items2 j) →
     outcome (array_hash (NdArray a1) n h1) = outcome (array_hash (NdArray a2) n h2)).
Proof.
  intros Ha1 Ha2 Hb1 Hb2 Hsh Hn Hinds.
  assert (Hgen : index_list (nd_shape nd1) items1 inds
                 = index_list (nd_shape nd1) items2 inds →
                 outcome (array_hash (NdArray a1) n h1)
                 = outcome (array_hash (NdArray a2) n h2)).
  { intros Hsame.
    rewrite (array_hash_outcome a1 n h1 nd1 items1 Ha1 Hb1),
            (array_hash_outcome a2 n h2 nd2 items2 Ha2 Hb2), <- Hsh.
    destruct (Z.ltb_spec (shape_size (nd_shape nd1)) n); [lia|].
    rewrite Hinds. cbn [mbind result_bind]. rewrite Hsame. reflexivity. }
  split; [exact Hgen|].
  intros Hmode d rest Hshape Hrows. apply Hgen.
  unfold index_list. rewrite Hmode.
  destruct (index_array inds) as [[ishape index]|e] eqn:Hia; [|reflexivity].
  cbn [mbind result_bind]. rewrite Hshape. unfold take_rows.
  destruct (len (ishape ++ rest) >? NPY_MAXDIMS); [reflexivity|].
  assert (Hindex : index = concat inds).
  { unfold index_array in Hia. destruct inds as [|ind inds']; [now injection Hia|].
    destruct (forallb _ inds'); [now injection Hia | discriminate]. }
  subst index.
  assert (Heq : rows d rest items1 (concat inds) = rows d rest items2 (concat inds)).
  { revert Hrows. generalize (concat inds). intros index.
    induction index as [|j index IH]; intros Hrows; [reflexivity|].
    cbn [rows]. rewrite (Hrows j) by constructor.
    rewrite IH; [reflexivity|]. intros j' Hj'. apply Hrows. now constructor. }
  rewrite Heq. reflexivity.
Qed.

Section ArrayHashCollisionExample.

Import SampleRuntime.

(** The arrays [[[1, 2], [3, 4], [5, 6]]] and [[[1, 2], [3, 4], [7, 8]]]
    have one hash with the threshold 2: the indices drawn are 0, 1, 1 and
    0, and the arrays differ in the row 2 only. *)
Lemma array_hash_collision_witness :
  sampled_inds [3; 2] 2 = Ok [[0; 1]; [1; 0]] ∧
  outcome (array_hash (NdArray 0%nat) 2 store_tall)
  = outcome (array_hash (NdArray 0%nat) 2
      {| arrays := arrays store_tall;
         buffers := [ [CInt 1; CInt 2; CInt 3; CInt 4; CInt 7; CInt 8] ] |}) ∧
  ∃ v, outcome (array_hash (NdArray 0%nat) 2 store_tall) = Ok v.
Proof.
  assert (Hinds : sampled_inds [3; 2] 2 = Ok [[0; 1]; [1; 0]])
    by (vm_compute; reflexivity).
  split; [exact Hinds|]. split.
  - apply (array_hash_collision store_tall
             {| arrays := arrays store_tall;
                buffers := [ [CInt 1; CInt 2; CInt 3; CInt 4; CInt 7; CInt 8] ] |}
             0%nat 0%nat _ _ _ _ 2 _
             eq_refl eq_refl eq_refl eq_refl eq_refl ltac:(vm_compute; discriminate)
             Hinds).
    vm_compute. reflexivity.
  - eexists. vm_compute. reflexivity.
Defined.

End ArrayHashCollisionExample.

(** What [array_hash] adds to the array data, when it returns: for an
    array of fewer than [n] elements no buffer (the object whose bytes it
    hashes is a view on the buffer of [a]); for a larger one a single new
    buffer, which holds [n] elements when [a[inds]] is [a[tuple(inds)]],
    and [n] rows of [a] per axis of [a] when it is [a[np.array(inds)]]. *)
Theorem array_hash_allocation `{RT : Runtime} `{!RuntimeLaws RT}
    (a : addr) (n : Z) (h h' : heap) (v : Z) (nd : ndarray) :
  array_hash (NdArray a) n h = Ok (v, h') →
  arrays h !! a = Some nd → consistent h nd →
  (shape_size (nd_shape nd) < n →
   buffers h' = buffers h ∧
   ∃ vnd, arrays h' !! length (arrays h) = Some vnd ∧ nd_data vnd = nd_data nd) ∧
  (n ≤ shape_size (nd_shape nd) →
   ∃ picked, buffers h' = buffers h ++ [picked] ∧
     len picked = if index_list_as_tuple then n
                  else len (nd_shape nd) * n * shape_size (tail (nd_shape nd))).
Proof.
  intros Hrun Ha (items & Hb & Hwf). rewrite array_hash_run, Ha, Hb in Hrun.
  destruct (Z.ltb_spec (shape_size (nd_shape nd)) n) as [Hlt|Hge].
  - injection Hrun as <- <-. split; [|lia]. intros _. cbn [arrays buffers].
    split; [reflexivity|]. eexists. rewrite lookup_snoc. split; reflexivity.
  - destruct (sampled_inds (nd_shape nd) n) as [inds|e] eqn:Hinds; [|discriminate].
    destruct (index_list (nd_shape nd) items inds) as [[shape picked]|e] eqn:Hg;
      [|discriminate].
    injection Hrun as <- <-. split; [lia|]. intros _. exists picked.
    split; [reflexivity|].
    pose proof (sampled_inds_spec n _ inds Hinds) as Hdraw.
    unfold index_list in Hg. destruct index_list_as_tuple.
    + destruct (gather (nd_shape nd) items inds) as [picked'|e] eqn:Hgather;
        [|discriminate].
      cbn [mbind result_bind] in Hg. injection Hg as _ <-.
      exact (gather_length n _ _ _ _ Hdraw Hgather).
    + destruct (nd_shape nd) as [|d rest] eqn:Hshape.
      { apply Forall2_nil_inv_l in Hdraw as ->. cbn in Hg. discriminate. }
      destruct (index_array_drawn n (d :: rest) inds ltac:(discriminate) Hdraw)
        as [Hia Hlen].
      rewrite Hia in Hg. cbn [mbind result_bind] in Hg. unfold take_rows in Hg.
      destruct (len ([len (d :: rest); n] ++ rest) >? NPY_MAXDIMS); [discriminate|].
      destruct (rows d rest items (concat inds)) as [picked'|e] eqn:Hrows;
        [|discriminate].
      cbn [mbind result_bind] in Hg. injection Hg as _ <-.
      cbn [tail].
      assert (Hin : Forall (fun j => 0 ≤ j < d) (concat inds)).
      { apply rows_within in Hrows; [exact Hrows|].
        eapply Forall_impl; [apply (drawn_nonneg n (d :: rest) inds Hdraw)|].
        cbn. auto. }
      assert (Hsize : len items = d * shape_size rest).
      { rewrite Hwf. reflexivity. }
      destruct (rows_ok d rest items (concat inds) Hin Hsize)
        as (picked'' & Hrows' & Hpl).
      rewrite Hrows in Hrows'. injection Hrows' as <-.
      rewrite Hpl, Hlen. reflexivity.
Qed.

Section ArrayHashAllocationExample.

Import SampleRuntime.

(** Hashing the 4 x 4 array of the numbers 0 to 15 with the threshold 4
    hashes 32 elements; with the threshold 100, none is copied. *)
Lemma array_hash_allocation_witness :
  (∃ v h' picked, array_hash (NdArray 0%nat) 4 store_square = Ok (v, h') ∧
                  buffers h' = buffers store_square ++ [picked] ∧ len picked = 32) ∧
  (∃ v h', array_hash (NdArray 0%nat) 100 store_square = Ok (v, h') ∧
           buffers h' = buffers store_square).
Proof.
  assert (Hlarge : ∃ v h', array_hash (NdArray 0%nat) 4 store_square = Ok (v, h'))
    by (eexists; eexists; vm_compute; reflexivity).
  assert (Hsmall : ∃ v h', array_hash (NdArray 0%nat) 100 store_square = Ok (v, h'))
    by (eexists; eexists; vm_compute; reflexivity).
  assert (Hcons : consistent store_square
                    {| nd_dtype := DtInt64; nd_shape := [4; 4]; nd_data := 0%nat;
                       nd_writeable := true; nd_base := None |})
    by (eexists; split; reflexivity).
  destruct Hlarge as (v1 & h1 & Hrun1), Hsmall as (v2 & h2 & Hrun2).
  split.
  - exists v1, h1.
    destruct (array_hash_allocation 0%nat 4 store_square h1 v1 _ Hrun1 eq_refl Hcons)
      as [_ Hbig].
    destruct Hbig as (picked & Hbuf & Hlen); [vm_compute; discriminate|].
    exists picked. auto.
  - exists v2, h2. split; [exact Hrun2|].
    apply (array_hash_allocation 0%nat 100 store_square h2 v2 _ Hrun2 eq_refl Hcons).
    vm_compute. reflexivity.
Defined.

End ArrayHashAllocationExample.

(** Since NumPy 1.23, where [a[inds]] is [a[np.array(inds)]], every index
    drawn is used along the first axis, also those drawn for the other
    axes.  On an array of at least [n] elements, [array_hash] raises an
    [IndexError] as soon as one of them is beyond the first axis, and
    returns when none is, which is so whenever no axis is longer than the
    first. *)
Theorem array_hash_first_axis `{RT : Runtime} `{!RuntimeLaws RT}
    (a : addr) (n : Z) (h : heap) (nd : ndarray) (d : Z) (rest : list Z)
    (inds : list (list Z)) :
  index_list_as_tuple = false →
  arrays h !! a = Some nd → consistent h nd →
  nd_shape nd = d :: rest →
  n ≤ shape_size (nd_shape nd) →
  sampled_inds (nd_shape nd) n = Ok inds →
  len rest < NPY_MAXDIMS - 1 →
  (Exists (fun j => d ≤ j) (concat inds) →
   ∃ e, array_hash (NdArray a) n h = Raise e ∧ is_IndexError e = true) ∧
  (Forall (fun j => j < d) (concat inds) →
   ∃ v h', array_hash (NdArray a) n h = Ok (v, h')) ∧
  (Forall (fun d' => d' ≤ d) rest → Forall (fun j => j < d) (concat inds)).
Proof.
  intros Hmode Ha (items & Hb & Hwf) Hshape Hn Hinds Hnd.
  pose proof (sampled_inds_spec n _ inds Hinds) as Hdraw.
  assert (Hrun : array_hash (NdArray a) n h =
                 match rows d rest items (concat inds) with
                 | Raise e => Raise e
                 | Ok picked =>
                     Ok (hash_of_cells picked,
                         {| arrays := arrays h ++
                              [hashed_picks nd ([len (d :: rest); n] ++ rest)
                                            (length (buffers h))];
                            buffers := buffers h ++ [picked] |})
                 end).
  { rewrite array_hash_run, Ha, Hb.
    destruct (Z.ltb_spec (shape_size (nd_shape nd)) n); [lia|].
    rewrite Hinds. unfold index_list. rewrite Hmode, Hshape.
    rewrite Hshape in Hdraw.
    destruct (index_array_drawn n (d :: rest) inds ltac:(discriminate) Hdraw)
      as [-> _].
    cbn [mbind result_bind]. unfold take_rows.
    destruct (Z.gtb_spec (len ([len (d :: rest); n] ++ rest)) NPY_MAXDIMS) as [Hbig|_].
    - rewrite len_app in Hbig. unfold len in *. cbn [length] in Hbig. lia.
    - destruct (rows d rest items (concat inds)); reflexivity. }
  rewrite Hshape in Hdraw, Hwf.
  pose proof (drawn_nonneg n (d :: rest) inds Hdraw) as Hpos.
  split; [|split].
  - intros Hex. rewrite Hrun.
    destruct (rows_raise d rest items (concat inds) Hpos Hex) as (e & -> & He).
    eauto.
  - intros Hall. rewrite Hrun.
    destruct (rows_ok d rest items (concat inds)) as (picked & -> & _); eauto.
    apply Forall_forall. intros j Hj.
    pose proof (proj1 (Forall_forall _ _) Hpos j Hj).
    pose proof (proj1 (Forall_forall _ _) Hall j Hj). cbn in *. lia.
  - intros Hrest.
    eapply Forall_impl; [apply (drawn_within n (d :: rest) inds d Hdraw)|].
    + constructor; [lia | exact Hrest].
    + cbn. intros j Hj. lia.
Qed.

Section ArrayHashFirstAxisExample.

Import SampleRuntime.

(** For the 2 x 3 array of [store_one] and the threshold 4, one of the
    indices drawn for the second axis is 2, which the first axis does not
    have: [array_hash] raises. *)
Lemma array_hash_first_axis_witness :
  sampled_inds [2; 3] 4 = Ok [[1; 0; 1; 0]; [1; 0; 0; 2]] ∧
  ∃ e, array_hash (NdArray 0%nat) 4 store_one = Raise e ∧ is_IndexError e = true.
Proof.
  assert (Hinds : sampled_inds [2; 3] 4 = Ok [[1; 0; 1; 0]; [1; 0; 0; 2]])
    by (vm_compute; reflexivity).
  split; [exact Hinds|].
  destruct (array_hash_first_axis (RT := runtime) 0%nat 4 store_one _ 2 [3] _
              eq_refl eq_refl ltac:(eexists; split; reflexivity) eq_refl
              ltac:(vm_compute; discriminate) Hinds ltac:(vm_compute; reflexivity))
    as [Hraise _].
  apply Hraise. apply Exists_exists. exists 2.
  split; [apply (list_elem_of_lookup_2 _ 7%nat); reflexivity | lia].
Defined.

End ArrayHashFirstAxisExample.

(* ===================================================================== *)
(** ** Further properties of [rfftfreq] *)
(* ===================================================================== *)

Section RfftfreqMoreFacts.

Local Open Scope Z_scope.

(** The polyfill on a positive length and a spacing other than zero. *)
Lemma rfftfreq_run (n : Z) (d : Q) :
  0 < n → ¬ (d == 0)%Q →
  rfftfreq n d =
    Ok (Qabs <$> take (Z.to_nat (n / 2 + 1))
          ((fun k => inject_Z k * (1 / (inject_Z n * d)))%Q
             <$> (arange 0 ((n - 1) / 2 + 1) ++ arange (- (n / 2)) 0))).
Proof.
  intros Hn Hd. unfold rfftfreq. rewrite fftfreq_run by assumption.
  cbn [mbind result_bind]. unfold slice_to.
  assert (0 ≤ n / 2) by (apply Z.div_pos; lia).
  destruct (Z.ltb_spec (n / 2 + 1) 0); [lia | reflexivity].
Qed.

(** Entry [k] of the full axis, for [k] up to [n // 2], is [k] or, at the
    Nyquist position of an even length, [-k]. *)
Lemma fftfreq_head_entry (n : Z) (k : nat) :
  0 < n → Z.of_nat k ≤ n / 2 →
  ∃ z, (arange 0 ((n - 1) / 2 + 1) ++ arange (- (n / 2)) 0) !! k = Some z ∧
       Z.abs z = Z.of_nat k.
Proof.
  intros Hn Hk.
  assert (Hhalf : 0 ≤ n / 2) by (apply Z.div_pos; lia).
  assert (HN : 0 ≤ (n - 1) / 2) by (apply Z.div_pos; lia).
  assert (Hrel : n / 2 ≤ (n - 1) / 2 + 1)
    by (clear; Z.to_euclidean_division_equations; lia).
  pose proof (len_arange 0 ((n - 1) / 2 + 1) ltac:(lia)) as Hl. unfold len in Hl.
  destruct (decide (Z.of_nat k < (n - 1) / 2 + 1)) as [Hlt|Hge].
  - exists (Z.of_nat k). rewrite lookup_app_l by lia.
    unfold arange. rewrite lookup_seqZ_lt by lia. split; [f_equal|]; lia.
  - exists (- (n / 2)). rewrite lookup_app_r by lia.
    replace (k - length (arange 0 ((n - 1) / 2 + 1)))%nat with 0%nat by lia.
    unfold arange. rewrite lookup_seqZ_lt by lia. split; [f_equal|]; lia.
Qed.

Lemma Qabs_inject_Z (z : Z) : (Qabs (inject_Z z) == inject_Z (Z.abs z))%Q.
Proof. unfold Qabs, inject_Z. cbn. reflexivity. Qed.

(** The entries of the polyfill's result. *)
Lemma rfftfreq_entries (n : Z) (d : Q) :
  0 < n → ¬ (d == 0)%Q →
  ∃ res, rfftfreq n d = Ok res ∧ length res = Z.to_nat (n / 2 + 1) ∧
         ∀ k v, res !! k = Some v →
                (v == inject_Z (Z.of_nat k) * Qabs (1 / (inject_Z n * d)))%Q.
Proof.
  intros Hn Hd. eexists. split; [apply rfftfreq_run; assumption|].
  assert (Hhalf : 0 ≤ n / 2) by (apply Z.div_pos; lia).
  assert (HN : 0 ≤ (n - 1) / 2) by (apply Z.div_pos; lia).
  pose proof (half_split n) as Hsplit.
  split.
  { rewrite length_fmap, length_take, length_fmap, length_app.
    unfold arange. rewrite !length_seqZ. lia. }
  intros k v Hk. rewrite list_lookup_fmap in Hk.
  destruct (take _ _ !! k) as [f|] eqn:Hf; [|discriminate]. injection Hk as <-.
  assert (Hkn : (k < Z.to_nat (n / 2 + 1))%nat).
  { apply lookup_lt_Some in Hf. rewrite length_take in Hf. lia. }
  rewrite lookup_take_lt, list_lookup_fmap in Hf by exact Hkn.
  destruct (fftfreq_head_entry n k Hn ltac:(lia)) as (z & Hz & Habs).
  rewrite Hz in Hf. injection Hf as <-.
  rewrite Qabs_Qmult, Qabs_inject_Z, Habs. reflexivity.
Qed.

End RfftfreqMoreFacts.

Section RfftfreqNativeFacts.

Local Open Scope Z_scope.

Lemma np_fft_rfftfreq_run (n : Z) (d : Q) :
  0 < n → ¬ (d == 0)%Q →
  np_fft_rfftfreq n d =
    Ok ((fun k => inject_Z k * (1 / (inject_Z n * d)))%Q <$> arange 0 (n / 2 + 1)).
Proof.
  intros Hn Hd. unfold np_fft_rfftfreq.
  destruct (Qeq_bool (inject_Z n * d) 0) eqn:Hz; [|reflexivity].
  apply Qeq_bool_iff, Qmult_integral in Hz as [Hz|Hz]; [|contradiction].
  exfalso. unfold Qeq, inject_Z in Hz. cbn in Hz. lia.
Qed.

Lemma Qabs_val_opp (n : Z) (d : Q) :
  (Qabs (1 / (inject_Z n * - d)) == Qabs (1 / (inject_Z n * d)))%Q.
Proof.
  unfold Qdiv. rewrite !Qmult_1_l, !Qabs_Qinv, !Qabs_Qmult, Qabs_opp. reflexivity.
Qed.

End RfftfreqNativeFacts.







(* ===================================================================== *)
(** ** [meshgrid_nd] *)
(* ===================================================================== *)

Section MeshgridFacts.

Import FloatArray FloatArrayOps.

Lemma size_ones (n : nat) : size (replicate n 1%nat) = 1%nat.
Proof.
  unfold size. induction n as [|n IH]; cbn [replicate fold_right]; [reflexivity|].
  rewrite IH. reflexivity.
Qed.

Lemma size_app (s1 s2 : list nat) : size (s1 ++ s2) = (size s1 * size s2)%nat.
Proof.
  unfold size. induction s1 as [|d s1 IH]; cbn [app fold_right]; [lia|].
  rewrite IH. lia.
Qed.

Lemma size_axis_shape (k i m : nat) : size (axis_shape k i m) = m.
Proof.
  unfold axis_shape. rewrite !size_app, !size_ones. cbn. lia.
Qed.

Lemma filter_ones (P : Z → Prop) `{∀ d, Decision (P d)} (n : nat) :
  ¬ P 1 → filter P (replicate n 1) = [].
Proof.
  intros HP. induction n as [|n IH]; [reflexivity|].
  cbn [replicate]. rewrite filter_cons_False by exact HP. exact IH.
Qed.

Lemma filter_ones_keep (P : Z → Prop) `{∀ d, Decision (P d)} (n : nat) :
  P 1 → filter P (replicate n 1) = replicate n 1.
Proof.
  intros HP. induction n as [|n IH]; [reflexivity|].
  cbn [replicate]. rewrite filter_cons_True by exact HP. now rewrite IH.
Qed.

(** Reshaping to 1 along every axis but one, whose length is left open. *)
Lemma reshape_axis (a : farray) (k i : nat) :
  (i < k)%nat → Z.of_nat k ≤ NPY_MAXDIMS →
  reshape a (slice_before i (replicate k 1) ++ [-1] ++ slice_from (i + 1) (replicate k 1))
  = Ok {| fa_shape := axis_shape k i (size (fa_shape a)); fa_data := fa_data a |}.
Proof.
  intros Hik Hmax. unfold slice_before, slice_from.
  rewrite take_replicate, drop_replicate.
  replace (i `min` k)%nat with i by lia.
  replace (k - (i + 1))%nat with (k - i - 1)%nat by lia.
  set (r := (k - i - 1)%nat). unfold reshape.
  assert (Hlen : len (replicate i 1 ++ [-1] ++ replicate r 1) = Z.of_nat k).
  { unfold len, r. rewrite !length_app, !length_replicate. cbn [length]. lia. }
  rewrite Hlen. destruct (Z.gtb_spec (Z.of_nat k) NPY_MAXDIMS) as [?|_]; [lia|].
  rewrite bool_decide_eq_false_2.
  2:{ rewrite Exists_app, Exists_app, !Exists_exists.
      intros [(d & Hd & Hlt)|[(d & Hd & Hlt)|(d & Hd & Hlt)]].
      - apply elem_of_replicate in Hd as [-> _]. lia.
      - apply list_elem_of_singleton in Hd as ->. lia.
      - apply elem_of_replicate in Hd as [-> _]. lia. }
  rewrite !filter_app, !(filter_ones (fun d => d = -1)) by lia.
  rewrite !(filter_ones_keep (fun d => d ≠ -1)) by lia.
  rewrite filter_cons_True, filter_cons_False by (auto; lia).
  rewrite !filter_nil. cbn [app length].
  assert (Hknown : fold_right Z.mul 1 (replicate i 1 ++ replicate r 1) = 1).
  { clearbody r. clear. induction i as [|i IH]; cbn [replicate app fold_right].
    - induction r as [|r IH]; cbn [replicate fold_right]; lia.
    - rewrite IH. lia. }
  rewrite Hknown. cbn [Z.eqb orb]. rewrite Z.mod_1_r. cbn [Z.eqb negb].
  f_equal. f_equal. unfold axis_shape. rewrite !fmap_app, !fmap_replicate.
  cbn [fmap list_fmap Z.eqb Pos.eqb app]. rewrite Z.div_1_r, Nat2Z.id.
  rewrite fmap_replicate. reflexivity.
Qed.

Lemma reshape_each_run (k : nat) (args : list farray) :
  Z.of_nat k ≤ NPY_MAXDIMS →
  ∀ i, (i + length args ≤ k)%nat →
       reshape_each (replicate k 1) i args = Ok (axis_arrays k i args).
Proof.
  intros Hmax.
  induction args as [|a args IH]; intros i Hik; cbn [reshape_each axis_arrays].
  - reflexivity.
  - cbn [length] in Hik. rewrite reshape_axis by lia. cbn [mbind result_bind].
    rewrite IH by lia. reflexivity.
Qed.

(** More arguments than an array may have axes: the first reshape is
    refused. *)
Lemma reshape_each_refused (k : nat) (a : farray) (args : list farray) :
  NPY_MAXDIMS < Z.of_nat k →
  reshape_each (replicate k 1) 0 (a :: args)
  = Raise (ValueError "maximum supported dimension for an ndarray is 32").
Proof.
  intros Hmax. cbn [reshape_each]. unfold reshape, slice_before, slice_from.
  rewrite take_replicate, drop_replicate.
  assert (Hlen : len (replicate (0 `min` k) 1 ++ [-1] ++ replicate (k - (0 + 1)) 1)
                 = Z.of_nat k).
  { unfold len, NPY_MAXDIMS in *. rewrite !length_app, !length_replicate.
    cbn [length]. lia. }
  rewrite Hlen. destruct (Z.gtb_spec (Z.of_nat k) NPY_MAXDIMS) as [_|?]; [|lia].
  reflexivity.
Qed.

Lemma axis_arrays_lookup (k : nat) (args : list farray) :
  ∀ i j a, args !! j = Some a →
           axis_arrays k i args !! j
           = Some {| fa_shape := axis_shape k (i + j) (size (fa_shape a));
                     fa_data := fa_data a |}.
Proof.
  induction args as [|a0 args IH]; intros i j a Hj; [discriminate|].
  destruct j as [|j]; cbn [axis_arrays].
  - injection Hj as <-. rewrite Nat.add_0_r. reflexivity.
  - etransitivity; [exact (IH (i + 1)%nat j a Hj)|].
    replace (i + 1 + j)%nat with (i + S j)%nat by lia. reflexivity.
Qed.

Lemma length_axis_arrays (k i : nat) (args : list farray) :
  length (axis_arrays k i args) = length args.
Proof.
  revert i. induction args as [|a args IH]; intros i; cbn; [reflexivity|].
  now rewrite IH.
Qed.

(** Broadcasting along lists of one length goes part by part. *)
Lemma broadcast_rev_app (a1 b1 a2 b2 : list nat) :
  length a1 = length b1 →
  broadcast_rev (a1 ++ a2) (b1 ++ b2)
  = (r1 ← broadcast_rev a1 b1; r2 ← broadcast_rev a2 b2; Some (r1 ++ r2)).
Proof.
  revert b1. induction a1 as [|a a1 IH]; intros [|b b1] Hlen; try discriminate.
  - cbn [app broadcast_rev mbind option_bind].
    destruct (broadcast_rev a2 b2); reflexivity.
  - cbn [app broadcast_rev]. rewrite IH by (cbn in Hlen; lia).
    destruct (broadcast_rev a1 b1) as [r1|]; cbn [mbind option_bind]; [|reflexivity].
    destruct (broadcast_rev a2 b2) as [r2|]; cbn [mbind option_bind].
    + repeat case_decide; reflexivity.
    + repeat case_decide; reflexivity.
Qed.

Lemma broadcast_shapes_app (a1 b1 a2 b2 : list nat) :
  length a2 = length b2 →
  broadcast_shapes (a1 ++ a2) (b1 ++ b2)
  = (r1 ← broadcast_shapes a1 b1; r2 ← broadcast_shapes a2 b2; Some (r1 ++ r2)).
Proof.
  intros Hlen. unfold broadcast_shapes.
  rewrite !reverse_app, broadcast_rev_app by (rewrite !length_reverse; exact Hlen).
  destruct (broadcast_rev (reverse a2) (reverse b2)) as [r2|];
    destruct (broadcast_rev (reverse a1) (reverse b1)) as [r1|];
    cbn; try reflexivity.
  rewrite reverse_app. reflexivity.
Qed.

Lemma broadcast_rev_ones_l (l : list nat) :
  broadcast_rev (replicate (length l) 1%nat) l = Some l.
Proof.
  induction l as [|d l IH]; [reflexivity|].
  cbn [length replicate broadcast_rev]. rewrite IH. cbn [mbind option_bind].
  repeat case_decide; congruence.
Qed.

Lemma broadcast_shapes_ones_l (n : nat) (l : list nat) :
  length l = n → broadcast_shapes (replicate n 1%nat) l = Some l.
Proof.
  intros <-. unfold broadcast_shapes.
  rewrite reverse_replicate, <- (length_reverse l), broadcast_rev_ones_l.
  cbn. now rewrite reverse_involutive.
Qed.

Lemma broadcast_shapes_same (l : list nat) : broadcast_shapes l l = Some l.
Proof.
  unfold broadcast_shapes.
  assert (H : ∀ r, broadcast_rev r r = Some r).
  { induction r as [|d r IH]; [reflexivity|].
    cbn [broadcast_rev]. rewrite IH. cbn. case_decide; congruence. }
  rewrite H. cbn. now rewrite reverse_involutive.
Qed.

Lemma broadcast_shapes_nil_r (l : list nat) : broadcast_shapes l [] = Some l.
Proof.
  unfold broadcast_shapes. cbn [reverse].
  assert (H : ∀ r, broadcast_rev r [] = Some r) by (intros [|]; reflexivity).
  rewrite reverse_nil, H. cbn. now rewrite reverse_involutive.
Qed.

(** The shapes of the reshaped arguments broadcast to the shape that has
    the number of elements of argument [i] along axis [i]. *)
Lemma broadcast_all_axis (k : nat) (args : list farray) :
  ∀ i, args ≠ [] → (i + length args = k)%nat →
       broadcast_all (fa_shape <$> axis_arrays k i args)
       = Some (replicate i 1%nat ++ sizes args).
Proof.
  induction args as [|a args IH]; intros i Hne Hik; [congruence|].
  cbn [axis_arrays fmap list_fmap broadcast_all fa_shape].
  fold (@fmap list _ _ _ fa_shape (axis_arrays k (i + 1) args)).
  cbn [length] in Hik.
  destruct args as [|a' args].
  - cbn [axis_arrays fmap list_fmap broadcast_all mbind option_bind].
    rewrite broadcast_shapes_nil_r. unfold axis_shape, sizes.
    replace (k - i - 1)%nat with 0%nat by (cbn in Hik; lia). reflexivity.
  - rewrite IH by (try discriminate; lia). cbn [mbind option_bind].
    unfold axis_shape.
    replace (replicate (i + 1) 1%nat) with (replicate i 1%nat ++ [1%nat])
      by (rewrite replicate_add; reflexivity).
    rewrite <- !app_assoc.
    rewrite broadcast_shapes_app.
    2:{ rewrite !length_app, length_replicate. unfold sizes.
        rewrite length_fmap. cbn [length] in *. lia. }
    rewrite broadcast_shapes_same. cbn [mbind option_bind].
    rewrite (broadcast_shapes_app [_] [1%nat]).
    2:{ rewrite length_replicate. unfold sizes. rewrite length_fmap.
        cbn [length] in *. lia. }
    assert (Hone : ∀ m, broadcast_shapes [m] [1%nat] = Some [m]).
    { intros m. unfold broadcast_shapes. cbn.
      repeat case_decide; try reflexivity; congruence. }
    rewrite Hone. cbn [mbind option_bind].
    rewrite broadcast_shapes_ones_l.
    2:{ unfold sizes. rewrite length_fmap. cbn [length] in *. lia. }
    reflexivity.
Qed.

Lemma length_unravel (shape : list nat) :
  ∀ pos, length (unravel shape pos) = length shape.
Proof.
  induction shape as [|d shape IH]; intros pos; cbn [unravel length]; [reflexivity|].
  now rewrite IH.
Qed.

Lemma unravel_bound (shape : list nat) :
  ∀ pos i j m, unravel shape pos !! i = Some j → shape !! i = Some m →
               m ≠ 0%nat → (j < m)%nat.
Proof.
  induction shape as [|d shape IH]; intros pos i j m Hj Hm Hpos; [discriminate|].
  destruct i as [|i]; cbn [unravel] in Hj.
  - injection Hj as <-. injection Hm as ->. now apply Nat.mod_upper_bound.
  - exact (IH _ i j m Hj Hm Hpos).
Qed.

Lemma size_positive_dims (shape : list nat) (i m : nat) :
  size shape ≠ 0%nat → shape !! i = Some m → m ≠ 0%nat.
Proof.
  unfold size. revert i.
  induction shape as [|d shape IH]; intros i Hsize Hm; [discriminate|].
  cbn [fold_right] in Hsize. destruct i as [|i].
  - injection Hm as ->. lia.
  - apply (IH i); [lia | exact Hm].
Qed.

Lemma zip_with_ones (n : nat) (l : list nat) :
  length l = n →
  zip_with (fun d i => if decide (d = 1%nat) then 0%nat else i) (replicate n 1%nat) l
  = replicate n 0%nat.
Proof.
  revert l. induction n as [|n IH]; intros [|x l] Hlen; try discriminate;
    [reflexivity|].
  cbn [replicate zip_with]. rewrite IH by (cbn in Hlen; lia).
  case_decide; [reflexivity | congruence].
Qed.

Lemma ravel_app (s1 s2 i1 i2 : list nat) :
  length s1 = length i1 →
  ∀ acc, ravel (s1 ++ s2) (i1 ++ i2) acc = ravel s2 i2 (ravel s1 i1 acc).
Proof.
  revert i1. induction s1 as [|d s1 IH]; intros [|i i1] Hlen acc; try discriminate.
  - destruct s2; reflexivity.
  - cbn [app ravel]. apply IH. cbn in Hlen. lia.
Qed.

Lemma ravel_ones_zeros (n acc : nat) :
  ravel (replicate n 1%nat) (replicate n 0%nat) acc = acc.
Proof.
  revert acc. induction n as [|n IH]; intros acc; cbn [replicate ravel]; [reflexivity|].
  rewrite IH. lia.
Qed.

(** What an argument reshaped along axis [i] shows at a position of the
    grid: its element at the [i]-th index of the position. *)
Lemma source_axis (k i m : nat) (data : list float64) (out : list nat)
      (pos j : nat) :
  length out = k → (i < k)%nat →
  unravel out pos !! i = Some j → (j < m)%nat →
  source {| fa_shape := axis_shape k i m; fa_data := data |} out pos
  = default nan (data !! j).
Proof.
  intros Hout Hik Hj Hjm. unfold source. cbn [fa_shape fa_data].
  assert (Hlen : length (axis_shape k i m) = k).
  { unfold axis_shape. rewrite !length_app, !length_replicate. cbn. lia. }
  rewrite Hlen, Hout, Nat.sub_diag, drop_0.
  pose proof (length_unravel out pos) as Hidx. rewrite Hout in Hidx.
  rewrite <- (take_drop_middle _ _ _ Hj). unfold axis_shape.
  change (take i (unravel out pos) ++ j :: drop (S i) (unravel out pos))
    with (take i (unravel out pos) ++ [j] ++ drop (S i) (unravel out pos)).
  rewrite zip_with_app by (rewrite length_replicate, length_take; lia).
  rewrite zip_with_ones by (rewrite length_take; lia).
  rewrite (zip_with_app _ [m] _ [j]) by reflexivity.
  rewrite zip_with_ones by (rewrite length_drop; lia).
  cbn [zip_with].
  assert (Hmid : (if decide (m = 1%nat) then 0%nat else j) = j)
    by (case_decide; lia).
  rewrite Hmid, ravel_app by (rewrite !length_replicate; reflexivity).
  rewrite ravel_ones_zeros, (ravel_app [m] _ [j]) by reflexivity.
  cbn [ravel]. rewrite ravel_ones_zeros. reflexivity.
Qed.

End MeshgridFacts.

(** Given [k] arrays, at most [NPY_MAXDIMS] of them, [meshgrid_nd]
    returns [k] arrays, all of the shape that has the number of elements of
    argument [i] along axis [i]; the [i]-th of them holds, at every
    position of the grid, the element of the (flattened) [i]-th argument at
    the [i]-th index of that position.  Given more arrays it raises a
    [ValueError]: the grid would have more axes than NumPy gives an
    array. *)
Theorem meshgrid_nd_spec (args : list FloatArray.farray) :
  (len args ≤ NPY_MAXDIMS →
   ∃ outs,
     FloatArrayOps.meshgrid_nd args = Ok outs ∧
     length outs = length args ∧
     ∀ i a out, args !! i = Some a → outs !! i = Some out →
       FloatArray.fa_shape out = FloatArrayOps.sizes args ∧
       FloatArrayOps.well_formed out ∧
       ∀ pos j,
         (pos < FloatArray.size (FloatArrayOps.sizes args))%nat →
         FloatArray.unravel (FloatArrayOps.sizes args) pos !! i = Some j →
         FloatArrayOps.well_formed a →
         FloatArray.fa_data out !! pos = FloatArray.fa_data a !! j) ∧
  (NPY_MAXDIMS < len args →
   ∃ e, FloatArrayOps.meshgrid_nd args = Raise e ∧ is_ValueError e = true).
Proof.
  unfold FloatArrayOps.meshgrid_nd. split.
  2:{ intros Hmax.
      destruct args as [|a args]; [unfold len, NPY_MAXDIMS in Hmax; cbn in Hmax; lia|].
      rewrite reshape_each_refused by exact Hmax. eexists. split; reflexivity. }
  intros Hmax.
  rewrite reshape_each_run by (unfold len in Hmax; lia). cbn [mbind result_bind].
  unfold FloatArrayOps.broadcast_arrays.
  destruct args as [|a0 args'] eqn:Hargs.
  { exists []. split; [reflexivity|]. split; [reflexivity|]. intros i a out [=]. }
  rewrite <- Hargs. assert (Hne : args ≠ []) by (subst; discriminate).
  clear Hmax. clear Hargs a0 args'.
  rewrite (broadcast_all_axis (length args) args 0 Hne) by lia.
  cbn [replicate app]. eexists. split; [reflexivity|].
  split; [now rewrite length_fmap, length_axis_arrays|].
  intros i a out Ha Hout.
  rewrite list_lookup_fmap, (axis_arrays_lookup _ _ 0 i a Ha) in Hout.
  injection Hout as <-. cbn [FloatArrayOps.broadcast_to FloatArray.fa_shape
                              FloatArray.fa_data Nat.add].
  split; [reflexivity|]. split.
  { unfold FloatArrayOps.well_formed. cbn. now rewrite length_map, length_seq. }
  intros pos j Hpos Hj Hwf.
  change (map ?f ?l) with (f <$> l).
  rewrite list_lookup_fmap, lookup_seq_lt by exact Hpos. cbn [fmap option_fmap option_map Nat.add].
  assert (Hi : (i < length args)%nat) by (apply lookup_lt_Some in Ha; exact Ha).
  assert (Hm : FloatArrayOps.sizes args !! i = Some (FloatArray.size (FloatArray.fa_shape a))).
  { unfold FloatArrayOps.sizes. rewrite list_lookup_fmap, Ha. reflexivity. }
  assert (Hjm : (j < FloatArray.size (FloatArray.fa_shape a))%nat).
  { apply (unravel_bound _ _ _ _ _ Hj Hm).
    apply (size_positive_dims (FloatArrayOps.sizes args) i); [lia | exact Hm]. }
  rewrite (source_axis (length args) i _ _ _ pos j); try assumption.
  - destruct (lookup_lt_is_Some_2 (FloatArray.fa_data a) j) as [v Hv].
    { unfold FloatArrayOps.well_formed in Hwf. lia. }
    rewrite Hv. reflexivity.
  - unfold FloatArrayOps.sizes. now rewrite length_fmap.
Qed.

(** [meshgrid_nd([1, 2], [3, 4])] is [[1, 1], [2, 2]] and
    [[3, 4], [3, 4]]. *)
Lemma meshgrid_nd_spec_witness :
  FloatArrayOps.meshgrid_nd
    [FloatArray.vector (of_Z <$> [1; 2]); FloatArray.vector (of_Z <$> [3; 4])]
  = Ok [ {| FloatArray.fa_shape := [2; 2]%nat;
            FloatArray.fa_data := of_Z <$> [1; 1; 2; 2] |};
         {| FloatArray.fa_shape := [2; 2]%nat;
            FloatArray.fa_data := of_Z <$> [3; 4; 3; 4] |} ] ∧
  ∃ outs out,
    FloatArrayOps.meshgrid_nd
      [FloatArray.vector (of_Z <$> [1; 2]); FloatArray.vector (of_Z <$> [3; 4])]
    = Ok outs ∧ outs !! 1%nat = Some out ∧
    FloatArray.fa_data out !! 2%nat = Some (of_Z 3).
Proof.
  split; [vm_compute; reflexivity|].
  destruct (meshgrid_nd_spec
              [FloatArray.vector (of_Z <$> [1; 2]); FloatArray.vector (of_Z <$> [3; 4])])
    as [Hok _].
  destruct Hok as (outs & Hrun & Hlen & Hspec); [vm_compute; discriminate|].
  destruct (lookup_lt_is_Some_2 outs 1%nat) as [out Hout]; [rewrite Hlen; cbn; lia|].
  exists outs, out. split; [exact Hrun|]. split; [exact Hout|].
  destruct (Hspec 1%nat _ out eq_refl Hout) as (_ & _ & Hdata).
  rewrite (Hdata 2%nat 0%nat); [reflexivity | cbn; lia | reflexivity | reflexivity].
Defined.

(* ===================================================================== *)
(** ** Further properties of [rms], [rmse] and [norm] *)
(* ===================================================================== *)

Section SampleSummationFacts.

Import SampleSummation.

#[export] Instance flat_order_laws : SummationLaws flat_order.
Proof.
  split. intros shape axes pos l. cbn. unfold fsum.
  induction 1 as [|v l -> _ IH]; [reflexivity|]. cbn [fold_left]. exact IH.
Qed.

End SampleSummationFacts.

Section FloatFacts.

(** [b - a] is the opposite of [a - b], or both are +0. *)
Lemma sub_swap (a b : float64) :
  Float64.sub b a = SFopp (Float64.sub a b) ∨
  (Float64.sub a b = zero ∧ Float64.sub b a = zero).
Proof.
  unfold Float64.sub, zero.
  destruct a as [sa|sa| |sa ma ea], b as [sb|sb| |sb mb eb]; cbn [SFsub SFopp];
    try solve [left; reflexivity];
    try solve [left; rewrite negb_involutive; reflexivity];
    try solve [destruct sa, sb; cbn; auto];
    try solve [destruct sa; cbn; auto];
    try solve [destruct sb; cbn; auto].
  - rewrite (Z.min_comm eb ea).
    set (za := cond_Zopp sa (Z.pos (shl_align ma ea (ea `min` eb)).1)).
    set (zb := cond_Zopp sb (Z.pos (shl_align mb eb (ea `min` eb)).1)).
    destruct (Z.eq_dec (za - zb) 0) as [Hz|Hz].
    + right. replace (zb - za) with 0 by lia. rewrite Hz. auto.
    + left. replace (zb - za) with (- (za - zb)) by lia.
      apply binary_normalize_opp, Hz.
Qed.

Lemma mul_opp_opp (a : float64) :
  Float64.mul (SFopp a) (SFopp a) = Float64.mul a a.
Proof.
  unfold Float64.mul.
  destruct a as [s|s| |s m e]; cbn [SFopp SFmul]; try reflexivity;
    destruct s; reflexivity.
Qed.

(** The square of [b - a] is the square of [a - b]. *)
Lemma square_sub_swap (a b : float64) :
  Float64.mul (Float64.sub b a) (Float64.sub b a)
  = Float64.mul (Float64.sub a b) (Float64.sub a b).
Proof.
  destruct (sub_swap a b) as [->|[-> ->]]; [apply mul_opp_opp | reflexivity].
Qed.

Lemma broadcast_rev_comm (r1 r2 : list nat) :
  FloatArray.broadcast_rev r1 r2 = FloatArray.broadcast_rev r2 r1.
Proof.
  revert r2. induction r1 as [|a r1 IH]; intros [|b r2]; try reflexivity.
  cbn [FloatArray.broadcast_rev]. rewrite IH.
  destruct (FloatArray.broadcast_rev r2 r1); cbn [mbind option_bind]; [|reflexivity].
  repeat case_decide; congruence.
Qed.

Context `{S : Summation}.

Lemma square_subtract_swap (x y : FloatArray.farray) :
  (d ← np_subtract x y; np_square d) = (d ← np_subtract y x; np_square d).
Proof.
  cbn [np_subtract np_square FloatArray.ops]. unfold FloatArray.subtract.
  unfold FloatArray.broadcast_shapes.
  rewrite (broadcast_rev_comm (reverse (FloatArray.fa_shape y))).
  destruct (FloatArray.broadcast_rev _ _) as [r|]; [|reflexivity].
  cbn [fmap option_fmap option_map mbind result_bind].
  unfold FloatArray.square. cbn [FloatArray.fa_shape FloatArray.fa_data].
  do 2 f_equal. rewrite !map_map. apply map_ext. intros pos.
  apply square_sub_swap.
Qed.

End FloatFacts.

(** [rmse] is symmetric: [rmse(x, y)] and [rmse(y, x)] are the same array
    of floats (with one NaN value, as [spec_float] has it), or the same
    error, for any arrays of floats and any [axis] and [keepdims]: no
    rounding separates the two, in whatever order NumPy adds. *)
Theorem rmse_symmetric `{S : Summation} (x y : FloatArray.farray) (axis : axis_arg)
    (keepdims : bool) :
  rmse x y axis keepdims = rmse y x axis keepdims.
Proof.
  assert (Hassoc : ∀ a b,
             rmse a b axis keepdims
             = (d2 ← (d ← np_subtract a b; np_square d);
                m ← np_mean d2 axis keepdims; np_sqrt m)).
  { intros a b. unfold rmse, rms. destruct (np_subtract a b); reflexivity. }
  rewrite !Hassoc, (square_subtract_swap x y). reflexivity.
Qed.

Section ReductionFacts.

Import FloatArray FloatArrayOps.

Lemma imap_shift {B C : Type} (h : nat → B → C) (x : B) (l : list B) :
  imap h (x :: l) = h 0%nat x :: imap (fun i => h (S i)) l.
Proof. reflexivity. Qed.

(** Removing the reduced axes or setting them to 1 gives one size. *)
Lemma size_squeeze_collapse (shape : list nat) :
  ∀ p : nat → bool,
    size (omap id (imap (fun i d => if p i then None else Some d) shape))
    = size (imap (fun i d => if p i then 1%nat else d) shape).
Proof.
  unfold size.
  induction shape as [|d shape IH]; intros p; [reflexivity|].
  rewrite !imap_shift. specialize (IH (fun i => p (S i))).
  cbv beta in IH.
  destruct (p 0%nat); cbn -[Nat.mul]; rewrite <- IH; [lia | reflexivity].
Qed.

Lemma length_collapse {B : Type} (axes : list nat) (v : B) (l : list B) :
  length (collapse axes v l) = length l.
Proof. unfold collapse. apply length_imap. Qed.

Lemma imap_all {B C : Type} (p : nat → bool) (f g : B → C) (l : list B) :
  (∀ i, (i < length l)%nat → p i = true) →
  imap (fun i d => if p i then f d else g d) l = f <$> l.
Proof.
  revert p. induction l as [|x l IH]; intros p Hp; [reflexivity|].
  rewrite imap_shift, (Hp 0%nat) by (cbn; lia). cbn [fmap list_fmap]. f_equal.
  apply (IH (fun i => p (S i))). intros i Hi. apply Hp. cbn. lia.
Qed.

Lemma all_axes (nd i : nat) : (i < nd)%nat → bool_decide (i ∈ seq 0 nd) = true.
Proof. intros Hi. apply bool_decide_eq_true_2, elem_of_seq. lia. Qed.

Lemma collapse_all {B : Type} (v : B) (l : list B) :
  collapse (seq 0 (length l)) v l = replicate (length l) v.
Proof.
  unfold collapse.
  rewrite (imap_all (fun i => bool_decide (i ∈ seq 0 (length l))) (fun _ => v) id)
    by apply all_axes.
  induction l as [|x l IH]; [reflexivity|]. cbn. f_equal. exact IH.
Qed.

Lemma squeeze_all (shape : list nat) : squeeze (seq 0 (length shape)) shape = [].
Proof.
  unfold squeeze.
  rewrite (imap_all (fun i => bool_decide (i ∈ seq 0 (length shape)))
             (fun _ => None) Some) by apply all_axes.
  induction shape as [|d shape IH]; [reflexivity|]. exact IH.
Qed.

Lemma reduced_dims_all (shape : list nat) :
  reduced_dims (seq 0 (length shape)) shape = shape.
Proof.
  unfold reduced_dims.
  rewrite (imap_all (fun i => bool_decide (i ∈ seq 0 (length shape)))
             Some (fun _ => None)) by apply all_axes.
  induction shape as [|d shape IH]; [reflexivity|]. cbn. f_equal. exact IH.
Qed.

(** Where [np.sum] and [np.mean] part: on a 0-d array [np.sum] lets the
    axes 0 and -1 through, and [np.mean] refuses them. *)
Lemma sum_axes_cases (nd : nat) (axis : axis_arg) :
  sum_axes nd axis = reduced_axes nd axis ∨
  (nd = 0%nat ∧ (axis = AxisInt 0 ∨ axis = AxisInt (-1)) ∧
   sum_axes nd axis = Ok [] ∧ ∃ e, reduced_axes nd axis = Raise e).
Proof.
  destruct nd as [|nd]; [|left; reflexivity].
  destruct axis as [|k|ks]; try (left; reflexivity).
  cbn [sum_axes].
  destruct (Z.eqb_spec k 0) as [->|H0].
  { right. repeat split; auto. eexists. reflexivity. }
  destruct (Z.eqb_spec k (-1)) as [->|H1].
  { right. repeat split; auto. eexists. reflexivity. }
  left. reflexivity.
Qed.

Context `{S : Summation}.

(** The shape of a reduction, which holds as many elements as it says. *)
Lemma add_reduce_shape (x : farray) (axes : list nat) (keepdims : bool) :
  fa_shape (add_reduce x axes keepdims)
  = (if keepdims then collapse axes 1%nat (fa_shape x)
     else squeeze axes (fa_shape x)) ∧
  well_formed (add_reduce x axes keepdims).
Proof.
  split; [reflexivity|]. unfold well_formed, add_reduce. cbn [fa_shape fa_data].
  rewrite length_map, length_seq. destruct keepdims; [reflexivity|].
  symmetry. apply (size_squeeze_collapse _ (fun i => bool_decide (i ∈ axes))).
Qed.

(** [norm] and [rms], run. *)
Lemma norm_run (x : farray) (axis : axis_arg) (keepdims : bool) :
  norm x axis keepdims =
    (axes ← sum_axes (length (fa_shape x)) axis;
     FloatArray.sqrt
       (add_reduce {| fa_shape := fa_shape x;
                      fa_data := map (fun v => Float64.mul v v) (fa_data x) |}
                   axes keepdims)).
Proof.
  unfold norm. cbn [np_square np_sum np_sqrt FloatArray.ops sum_ops
                    FloatArray.square mbind result_bind].
  unfold sum. cbn [fa_shape].
  destruct (sum_axes (length (fa_shape x)) axis); reflexivity.
Qed.

Lemma rms_run (x : farray) (axis : axis_arg) (keepdims : bool) :
  rms x axis keepdims =
    (axes ← reduced_axes (length (fa_shape x)) axis;
     let total :=
       add_reduce {| fa_shape := fa_shape x;
                     fa_data := map (fun v => Float64.mul v v) (fa_data x) |}
                  axes keepdims in
     FloatArray.sqrt
       {| fa_shape := fa_shape total;
          fa_data := map (fun v => Float64.div v
                                     (of_Z (Z.of_nat (size (reduced_dims axes (fa_shape x))))))
                         (fa_data total) |}).
Proof.
  unfold rms. cbn [np_square np_mean np_sqrt FloatArray.ops
                   FloatArray.square mbind result_bind].
  unfold mean. cbn [fa_shape].
  destruct (reduced_axes (length (fa_shape x)) axis); reflexivity.
Qed.

(** The summands of an array of zeros are zeros. *)
Lemma summands_zeros (x : farray) (axes : list nat) (pos : nat) :
  Forall (fun v => v = zero) (fa_data x) →
  Forall (fun v => v = zero) (summands x axes pos).
Proof.
  intros Hz. unfold summands. apply Forall_forall. intros w Hw.
  apply list_elem_of_omap in Hw as (q & _ & Hq).
  case_decide; [|discriminate].
  exact (proj1 (Forall_lookup _ _) Hz q w Hq).
Qed.

(** An array without elements has no summands. *)
Lemma summands_empty (x : farray) (axes : list nat) (pos : nat) :
  size (fa_shape x) = 0%nat → summands x axes pos = [].
Proof. intros Hempty. unfold summands. rewrite Hempty. reflexivity. Qed.

End ReductionFacts.

(** [norm] and [rms] reduce alike, but for one case.  Whenever [rms]
    returns, [norm] returns an array of the same shape, each holding as
    many elements as its shape says, and with [keepdims] as many axes as
    the argument; where [norm] raises, [rms] raises.  [rms] raises where
    [norm] returns for a 0-d array and the axis 0 or -1, which [np.sum]
    lets through and [np.mean] refuses, and nowhere else.  (The messages
    of NumPy's errors are not reproduced, so the errors are not
    compared.) *)
Theorem norm_rms_same_shape `{S : Summation} (x : FloatArray.farray)
    (axis : axis_arg) (keepdims : bool) :
  (∀ r', rms x axis keepdims = Ok r' →
         ∃ r, norm x axis keepdims = Ok r ∧
              FloatArray.fa_shape r = FloatArray.fa_shape r' ∧
              FloatArrayOps.well_formed r ∧ FloatArrayOps.well_formed r' ∧
              (keepdims = true →
               length (FloatArray.fa_shape r) = length (FloatArray.fa_shape x))) ∧
  (∀ e, norm x axis keepdims = Raise e → ∃ e', rms x axis keepdims = Raise e') ∧
  (∀ e, rms x axis keepdims = Raise e →
        (∃ e', norm x axis keepdims = Raise e') ∨
        (FloatArray.fa_shape x = [] ∧ (axis = AxisInt 0 ∨ axis = AxisInt (-1)) ∧
         ∃ r, norm x axis keepdims = Ok r ∧ FloatArray.fa_shape r = [])).
Proof.
  rewrite norm_run, rms_run.
  destruct (sum_axes_cases (length (FloatArray.fa_shape x)) axis)
    as [->|(Hnd & Haxis & -> & e0 & ->)].
  - destruct (FloatArray.reduced_axes _ axis) as [axes|e0]; cbn [mbind result_bind].
    + split; [|split; discriminate].
      intros r' [= <-]. eexists. split; [reflexivity|].
      cbn [FloatArray.sqrt FloatArray.fa_shape].
      split; [reflexivity|].
      pose proof (add_reduce_shape
                    {| FloatArray.fa_shape := FloatArray.fa_shape x;
                       FloatArray.fa_data :=
                         map (fun v => mul v v) (FloatArray.fa_data x) |}
                    axes keepdims) as [Hshape Hwf].
      unfold FloatArrayOps.well_formed, FloatArray.add_reduce in Hwf |- *.
      cbn [FloatArray.fa_shape FloatArray.fa_data] in Hwf |- *.
      rewrite ?length_map in Hwf.
      split; [rewrite ?length_map; exact Hwf|].
      split; [rewrite ?length_map; exact Hwf|].
      intros ->. apply length_collapse.
    + split; [discriminate|]. split; [eauto|]. intros e _. left. eauto.
  - cbn [mbind result_bind]. split; [discriminate|]. split; [discriminate|].
    intros e _. right. apply length_zero_iff_nil in Hnd.
    split; [exact Hnd|]. split; [exact Haxis|].
    eexists. split; [reflexivity|].
    cbn [FloatArray.sqrt FloatArray.fa_shape FloatArray.add_reduce].
    rewrite Hnd. destruct keepdims; reflexivity.
Qed.

Section NormRmsExamples.

Import SampleSummation.

(** [norm] of a 2 x 3 matrix along its last axis, keeping the axis. *)
Lemma norm_rms_same_shape_witness :
  ∃ r r', norm matrix_23 (AxisInt (-1)) true = Ok r ∧
          rms matrix_23 (AxisInt (-1)) true = Ok r' ∧
          FloatArray.fa_shape r = [2; 1]%nat ∧
          FloatArray.fa_shape r' = [2; 1]%nat.
Proof.
  destruct (norm_rms_same_shape (S := flat_order) matrix_23 (AxisInt (-1)) true)
    as [Hsame _].
  assert (Hrun : ∃ r', rms matrix_23 (AxisInt (-1)) true = Ok r'
                       ∧ FloatArray.fa_shape r' = [2; 1]%nat)
    by (eexists; split; vm_compute; reflexivity).
  destruct Hrun as (r' & Hr' & Hshape).
  destruct (Hsame r' Hr') as (r & Hr & Heq & _).
  exists r, r'. rewrite Heq. auto.
Defined.

End NormRmsExamples.

(** On an array without elements, of any shape, [norm] over all axes is
    0.0 and [rms] is NaN (the mean of no element); neither raises. *)
Theorem norm_rms_empty `{S : Summation} `{!SummationLaws S}
    (x : FloatArray.farray) (keepdims : bool) :
  FloatArray.size (FloatArray.fa_shape x) = 0%nat →
  let shape := if keepdims
               then replicate (length (FloatArray.fa_shape x)) 1%nat else [] in
  norm x AxisNone keepdims
    = Ok {| FloatArray.fa_shape := shape; FloatArray.fa_data := [zero] |} ∧
  rms x AxisNone keepdims
    = Ok {| FloatArray.fa_shape := shape; FloatArray.fa_data := [nan] |}.
Proof.
  intros Hempty shape.
  assert (Hnd : (0 < length (FloatArray.fa_shape x))%nat).
  { destruct (FloatArray.fa_shape x); [discriminate Hempty | cbn; lia]. }
  rewrite norm_run, rms_run.
  assert (Haxes : FloatArrayOps.sum_axes (length (FloatArray.fa_shape x)) AxisNone
                  = Ok (seq 0 (length (FloatArray.fa_shape x)))).
  { destruct (length (FloatArray.fa_shape x)); reflexivity. }
  rewrite Haxes.
  cbn [FloatArray.reduced_axes mbind result_bind]. cbv zeta.
  unfold FloatArray.add_reduce.
  cbn [FloatArray.fa_shape FloatArray.fa_data].
  rewrite collapse_all, squeeze_all, reduced_dims_all, size_ones, Hempty.
  cbn [seq map]. rewrite summands_empty by exact Hempty.
  rewrite reduce_add_zeros by constructor.
  split; reflexivity.
Qed.

Section NormRmsEmptyExample.

Import SampleSummation.

(** [norm([])] is 0.0 and [rms([])] is NaN. *)
Lemma norm_rms_empty_witness :
  norm (FloatArray.vector []) AxisNone false = Ok (FloatArray.scalar zero) ∧
  rms (FloatArray.vector []) AxisNone false = Ok (FloatArray.scalar nan).
Proof.
  exact (norm_rms_empty (S := flat_order) (FloatArray.vector []) false eq_refl).
Defined.

End NormRmsEmptyExample.

Section SelfDifferenceFacts.

Import FloatArray FloatArrayOps.

(** The flat position of the multi-index of a position is the position. *)
Lemma ravel_unravel (shape : list nat) :
  ∀ pos acc, (pos < size shape)%nat →
    ravel shape
      (zip_with (fun d i => if decide (d = 1%nat) then 0%nat else i)
                shape (unravel shape pos)) acc
    = (acc * size shape + pos)%nat.
Proof.
  unfold size.
  induction shape as [|d shape IH]; intros pos acc Hpos;
    cbn [unravel zip_with ravel fold_right] in *.
  - lia.
  - fold (size shape) in *. unfold size in *.
    set (inner := fold_right Nat.mul 1%nat shape) in *.
    assert (Hinner : inner ≠ 0%nat) by (intros H0; rewrite H0 in Hpos; lia).
    rewrite IH by (apply Nat.mod_upper_bound; exact Hinner).
    assert (Hq : (pos / inner < d)%nat)
      by (apply Nat.Div0.div_lt_upper_bound; lia).
    rewrite (Nat.mod_small (pos / inner) d Hq).
    assert (Hd : (if decide (d = 1%nat) then 0%nat else (pos / inner)%nat)
                 = (pos / inner)%nat) by (case_decide; lia).
    rewrite Hd. pose proof (Nat.div_mod_eq pos inner). nia.
Qed.

Lemma source_self (x : farray) (pos : nat) :
  (pos < size (fa_shape x))%nat →
  source x (fa_shape x) pos = default nan (fa_data x !! pos).
Proof.
  intros Hpos. unfold source. rewrite Nat.sub_diag, drop_0.
  rewrite ravel_unravel by exact Hpos. reflexivity.
Qed.

Lemma subtract_self (x : farray) :
  well_formed x → Forall is_finite (fa_data x) →
  subtract x x
  = Ok {| fa_shape := fa_shape x;
          fa_data := replicate (size (fa_shape x)) zero |}.
Proof.
  intros Hwf Hfin. unfold subtract. rewrite broadcast_shapes_same.
  f_equal. f_equal. apply list_eq. intros pos.
  change (map ?f ?l) with (f <$> l). rewrite list_lookup_fmap.
  destruct (decide (pos < size (fa_shape x))%nat) as [Hlt|Hge].
  - rewrite lookup_seq_lt, lookup_replicate_2 by exact Hlt.
    cbn [fmap option_fmap option_map Nat.add]. rewrite source_self by exact Hlt.
    destruct (lookup_lt_is_Some_2 (fa_data x) pos) as [v Hv];
      [unfold well_formed in Hwf; lia|].
    rewrite Hv. cbn [default]. rewrite sub_self; [reflexivity|].
    exact (proj1 (Forall_lookup _ _) Hfin pos v Hv).
  - rewrite lookup_seq_ge by lia.
    rewrite (proj1 (lookup_replicate_None _ _ _)) by lia. reflexivity.
Qed.

Lemma reduced_dims_size (shape : list nat) :
  size shape ≠ 0%nat →
  ∀ p : nat → bool,
    size (omap id (imap (fun i d => if p i then Some d else None) shape)) ≠ 0%nat.
Proof.
  unfold size. induction shape as [|d shape IH]; intros Hsize p; [cbn; lia|].
  cbn [fold_right] in Hsize. rewrite imap_shift.
  specialize (IH ltac:(lia) (fun i => p (S i))). cbv beta in IH.
  destruct (p 0%nat); cbn -[Nat.mul]; [|exact IH].
  intros H0. apply Nat.eq_mul_0 in H0 as [H0|H0]; [lia | exact (IH H0)].
Qed.

Context `{S : Summation} `{!SummationLaws S}.

(** The mean of an array of zeros, over any axes, is an array of zeros. *)
Lemma mean_zeros (shape : list nat) (axis : axis_arg) (keepdims : bool)
      (r : farray) :
  size shape ≠ 0%nat →
  mean {| fa_shape := shape; fa_data := replicate (size shape) zero |}
       axis keepdims = Ok r →
  Forall (fun v => v = zero) (fa_data r).
Proof.
  intros Hsize. unfold mean. cbn [fa_shape fa_data].
  destruct (reduced_axes (length shape) axis) as [axes|e]; [|discriminate].
  cbn [mbind result_bind]. intros [= <-]. cbn [fa_data add_reduce].
  apply Forall_forall. intros v Hv.
  apply list_elem_of_In, in_map_iff in Hv as (w & <- & Hw).
  apply in_map_iff in Hw as (pos & <- & _).
  rewrite reduce_add_zeros.
  - apply div_zero_count.
    apply (reduced_dims_size shape Hsize (fun i => bool_decide (i ∈ axes))).
  - apply summands_zeros. cbn [fa_data]. apply Forall_replicate. reflexivity.
Qed.

End SelfDifferenceFacts.

(** The error of an array against itself is zero: for a non-empty array of
    finite numbers, [rmse(x, x)] over any axes holds only 0.0, in whatever
    order NumPy adds. *)
Theorem rmse_self_zero `{S : Summation} `{!SummationLaws S}
    (x : FloatArray.farray) (axis : axis_arg)
    (keepdims : bool) (r : FloatArray.farray) :
  FloatArrayOps.well_formed x →
  Forall is_finite (FloatArray.fa_data x) →
  FloatArray.size (FloatArray.fa_shape x) ≠ 0%nat →
  rmse x x axis keepdims = Ok r →
  Forall (fun v => v = zero) (FloatArray.fa_data r).
Proof.
  intros Hwf Hfin Hsize. rewrite rmse_unfold.
  cbn [np_subtract FloatArray.ops]. rewrite (subtract_self x Hwf Hfin).
  cbn [mbind result_bind]. unfold rms.
  cbn [np_square np_mean np_sqrt FloatArray.ops FloatArray.square
       FloatArray.fa_shape FloatArray.fa_data mbind result_bind].
  assert (Hsq : map (fun v => Float64.mul v v)
                    (replicate (FloatArray.size (FloatArray.fa_shape x)) zero)
                = replicate (FloatArray.size (FloatArray.fa_shape x)) zero).
  { change (map ?f ?l) with (f <$> l). rewrite fmap_replicate. reflexivity. }
  rewrite Hsq.
  destruct (FloatArray.mean _ axis keepdims) as [m|e] eqn:Hmean; [|discriminate].
  cbn [mbind result_bind]. intros [= <-].
  cbn [FloatArray.sqrt FloatArray.fa_data].
  pose proof (mean_zeros _ axis keepdims m Hsize Hmean) as Hm.
  apply Forall_forall. intros v Hv.
  apply list_elem_of_In, in_map_iff in Hv as (w & <- & Hw).
  apply list_elem_of_In in Hw. rewrite Forall_forall in Hm.
  rewrite (Hm w Hw). reflexivity.
Qed.

Section RmseSelfExample.

Import SampleSummation.

(** [rmse] of the 2 x 3 matrix with itself, along its first axis. *)
Lemma rmse_self_zero_witness :
  rmse matrix_23 matrix_23 (AxisInt 0) false
  = Ok (FloatArray.vector [zero; zero; zero]).
Proof.
  assert (Hrun : ∃ r, rmse matrix_23 matrix_23 (AxisInt 0) false = Ok r ∧
                      FloatArray.fa_shape r = [3%nat] ∧
                      length (FloatArray.fa_data r) = 3%nat)
    by (eexists; split; [vm_compute; reflexivity | split; reflexivity]).
  destruct Hrun as ([shape data] & Hr & Hshape & Hlen).
  pose proof (rmse_self_zero (S := flat_order) matrix_23 (AxisInt 0) false _ eq_refl
                ltac:(repeat constructor) ltac:(vm_compute; discriminate) Hr) as Hz.
  rewrite Hr. cbn in Hshape, Hlen, Hz. subst shape. f_equal.
  unfold FloatArray.vector. f_equal.
  destruct data as [|a [|b [|c [|]]]]; try discriminate.
  apply Forall_cons in Hz as [-> Hz]. apply Forall_cons in Hz as [-> Hz].
  apply Forall_cons in Hz as [-> _]. reflexivity.
Defined.

End RmseSelfExample.

Section AxisFacts.

Import FloatArray FloatArrayOps.

Lemma imap_none {B : Type} (p : nat → bool) (v : B) (l : list B) :
  (∀ i, p i = false) → imap (fun i d => if p i then v else d) l = l.
Proof.
  revert p. induction l as [|x l IH]; intros p Hp; [reflexivity|].
  rewrite imap_shift, Hp. f_equal. apply (IH (fun i => p (S i))). auto.
Qed.

Lemma imap_single {B : Type} (v : B) (l : list B) :
  ∀ (p : nat → bool) (q : nat),
    (∀ i, p i = true ↔ i = q) → imap (fun i d => if p i then v else d) l = <[q := v]> l.
Proof.
  induction l as [|x l IH]; intros p q Hp; [reflexivity|].
  rewrite imap_shift. destruct q as [|q].
  - rewrite (proj2 (Hp 0%nat) eq_refl). cbn. f_equal.
    apply (imap_none (fun i => p (S i))). intros i.
    destruct (p (S i)) eqn:Hi; [|reflexivity]. apply Hp in Hi. discriminate.
  - destruct (p 0%nat) eqn:H0; [apply Hp in H0; discriminate|].
    cbn. f_equal. apply (IH (fun i => p (S i))). intros i.
    rewrite Hp. split; [intros [= ->] | intros ->]; reflexivity.
Qed.

Lemma collapse_single {B : Type} (q : nat) (v : B) (l : list B) :
  collapse [q] v l = <[q := v]> l.
Proof.
  unfold collapse. apply (imap_single v l (fun i => bool_decide (i ∈ [q]))).
  intros i. rewrite bool_decide_eq_true, list_elem_of_singleton. reflexivity.
Qed.

Lemma omap_imap_none (l : list nat) :
  ∀ p : nat → bool, (∀ i, p i = false) →
    omap id (imap (fun i d => if p i then None else Some d) l) = l.
Proof.
  induction l as [|x l IH]; intros p Hp; [reflexivity|].
  rewrite imap_shift, Hp. cbn. f_equal. apply (IH (fun i => p (S i))). auto.
Qed.

Lemma omap_imap_single (l : list nat) :
  ∀ (p : nat → bool) (q : nat),
    (∀ i, p i = true ↔ i = q) →
    omap id (imap (fun i d => if p i then None else Some d) l) = delete q l.
Proof.
  induction l as [|x l IH]; intros p q Hp; [reflexivity|].
  rewrite imap_shift. destruct q as [|q].
  - rewrite (proj2 (Hp 0%nat) eq_refl). cbn.
    apply (omap_imap_none l (fun i => p (S i))). intros i.
    destruct (p (S i)) eqn:Hi; [|reflexivity]. apply Hp in Hi. discriminate.
  - destruct (p 0%nat) eqn:H0; [apply Hp in H0; discriminate|].
    cbn. f_equal. apply (IH (fun i => p (S i))). intros i.
    rewrite Hp. split; [intros [= ->] | intros ->]; reflexivity.
Qed.

Lemma squeeze_single (q : nat) (shape : list nat) :
  squeeze [q] shape = delete q shape.
Proof.
  unfold squeeze. apply (omap_imap_single shape (fun i => bool_decide (i ∈ [q]))).
  intros i. rewrite bool_decide_eq_true, list_elem_of_singleton. reflexivity.
Qed.

Lemma reduced_axes_int (nd : nat) (k : Z) :
  reduced_axes nd (AxisInt k) =
    if (- Z.of_nat nd <=? k) && (k <? Z.of_nat nd)
    then Ok [Z.to_nat (k mod Z.of_nat nd)]
    else Raise (IndexError "axis is out of bounds for array").
Proof.
  cbn [reduced_axes normalize_axes]. unfold normalize_axis.
  destruct (Z.leb_spec (- Z.of_nat nd) k); [|reflexivity].
  destruct (Z.ltb_spec k (Z.of_nat nd)); [|reflexivity].
  cbn [andb mbind result_bind].
  rewrite bool_decide_eq_false_2 by apply not_elem_of_nil.
  do 3 f_equal.
  destruct (Z.ltb_spec k 0).
  - apply Z.mod_unique_pos with (q := -1); lia.
  - symmetry. apply Z.mod_small. lia.
Qed.

End AxisFacts.

(** Reducing along one axis: for an axis within the array, counted from
    the end when negative, [norm] and [rms] return an array with that axis
    removed or, with [keepdims], set to length 1.  For an axis out of range
    [rms] raises, and so does [norm], unless the array is 0-d and the
    axis 0 or -1: then [norm] returns a 0-d array. *)
Theorem norm_rms_axis `{S : Summation} (x : FloatArray.farray) (k : Z)
    (keepdims : bool) :
  let shape := FloatArray.fa_shape x in
  let nd := Z.of_nat (length shape) in
  let q := Z.to_nat (k mod nd) in
  (- nd ≤ k < nd →
   ∃ r r', norm x (AxisInt k) keepdims = Ok r ∧
           rms x (AxisInt k) keepdims = Ok r' ∧
           FloatArray.fa_shape r = (if keepdims then <[q := 1%nat]> shape
                                    else delete q shape) ∧
           FloatArray.fa_shape r' = FloatArray.fa_shape r) ∧
  (¬ (- nd ≤ k < nd) →
   (∃ e, rms x (AxisInt k) keepdims = Raise e) ∧
   (shape ≠ [] ∨ (k ≠ 0 ∧ k ≠ -1) →
    ∃ e, norm x (AxisInt k) keepdims = Raise e) ∧
   (shape = [] → k = 0 ∨ k = -1 →
    ∃ r, norm x (AxisInt k) keepdims = Ok r ∧ FloatArray.fa_shape r = [])).
Proof.
  intros shape nd q. rewrite norm_run, rms_run.
  rewrite reduced_axes_int. fold shape nd.
  destruct (sum_axes_cases (length shape) (AxisInt k))
    as [Hsum|(Hnd & Haxis & Hsum & _)]; fold shape; rewrite Hsum.
  - rewrite reduced_axes_int. fold shape nd q. split.
    + intros [Hlo Hhi].
      destruct (Z.leb_spec (- nd) k); [|lia]. destruct (Z.ltb_spec k nd); [|lia].
      cbn [andb mbind result_bind]. eexists. eexists.
      split; [reflexivity|]. split; [reflexivity|].
      cbn [FloatArray.sqrt FloatArray.fa_shape FloatArray.add_reduce].
      rewrite collapse_single, squeeze_single. split; reflexivity.
    + intros Hout.
      assert (Hcond : (- nd <=? k) && (k <? nd) = false).
      { destruct (Z.leb_spec (- nd) k); destruct (Z.ltb_spec k nd);
          try reflexivity; lia. }
      rewrite Hcond. cbn [mbind result_bind].
      split; [eauto|]. split; [eauto|].
      intros Hshape Hk. exfalso. unfold shape in Hshape, Hsum.
      rewrite Hshape in Hsum. destruct Hk as [-> | ->]; cbn in Hsum; discriminate.
  - apply length_zero_iff_nil in Hnd.
    assert (Hnd0 : nd = 0) by (unfold nd; rewrite Hnd; reflexivity).
    rewrite Hnd0. split; [lia|]. intros _.
    assert (Hcond : (- 0 <=? k) && (k <? 0) = false)
      by (destruct Haxis as [[= ->]|[= ->]]; reflexivity).
    rewrite Hcond. cbn [mbind result_bind].
    split; [eauto|]. split.
    + intros [Hs|[H0 H1]]; [congruence|].
      destruct Haxis as [[= ->]|[= ->]]; congruence.
    + intros _ _. eexists. split; [reflexivity|].
      cbn [FloatArray.sqrt FloatArray.fa_shape FloatArray.add_reduce].
      fold shape. rewrite Hnd. destruct keepdims; reflexivity.
Qed.

Section NormRmsAxisExample.

Import SampleSummation.

(** [norm([3, 4])] along axis -1 is 5.0; along axis 1 [norm] and [rms]
    raise; and [norm] of the 0-d array 3.0 along axis 0 returns where
    [rms] raises. *)
Lemma norm_rms_axis_witness :
  norm (FloatArray.vector (of_Z <$> [3; 4])) (AxisInt (-1)) false
    = Ok (FloatArray.scalar (of_Z 5)) ∧
  (∃ e, norm (FloatArray.vector (of_Z <$> [3; 4])) (AxisInt 1) false = Raise e) ∧
  (∃ e, rms (FloatArray.vector (of_Z <$> [3; 4])) (AxisInt 1) false = Raise e) ∧
  (∃ r, norm (FloatArray.scalar (of_Z 3)) (AxisInt 0) false = Ok r) ∧
  (∃ e, rms (FloatArray.scalar (of_Z 3)) (AxisInt 0) false = Raise e).
Proof.
  destruct (norm_rms_axis (S := flat_order) (FloatArray.vector (of_Z <$> [3; 4]))
              (-1) false) as [Hin _].
  destruct (norm_rms_axis (S := flat_order) (FloatArray.vector (of_Z <$> [3; 4]))
              1 false) as [_ Hout].
  destruct (norm_rms_axis (S := flat_order) (FloatArray.scalar (of_Z 3)) 0 false)
    as [_ Hscalar].
  split; [|split; [|split; [|split]]].
  - destruct Hin as (r & r' & Hr & _); [cbn; lia|].
    rewrite Hr. vm_compute in Hr. injection Hr as <-. reflexivity.
  - destruct Hout as (_ & Hnorm & _); [cbn; lia|].
    apply Hnorm. left. discriminate.
  - destruct Hout as (Hrms & _); [cbn; lia|]. exact Hrms.
  - destruct Hscalar as (_ & _ & Hret); [cbn; lia|].
    destruct (Hret eq_refl (or_introl eq_refl)) as (r & Hr & _). eauto.
  - destruct Hscalar as (Hrms & _); [cbn; lia|]. exact Hrms.
Defined.

End NormRmsAxisExample.
